(** * react-gesture: the recognizer core, the drag recognizer, the kinematics
    helpers and the option normalizers, embedded as pure functions.

    JavaScript numbers are modelled as rationals [Q]; the results of
    [Math.hypot] are kept exact as surds [c * sqrt r].  Mutable objects
    ([controller.state], the timer table, the handler) are threaded
    explicitly through a [Controller] record. *)

From Stdlib Require Import QArith Qabs ZArith List Bool Lia Lqa Qfield.
From Stdlib Require Reals Qreals Lra.
Import ListNotations.

Local Open Scope Q_scope.

(** ** Numbers *)

Definition Vector2 : Type := (Q * Q)%type.

(** [x === 0] on a number, the falsy test of [x ? a : b] and [x || y]. *)
Definition isZero (x : Q) : bool := Qeq_bool x 0.
Definition truthy (x : Q) : bool := negb (isZero x).

(** [Math.sign] and [Math.abs]. *)
Definition sign (x : Q) : Q :=
  match Qcompare x 0 with
  | Lt => -(1)
  | Eq => 0
  | Gt => 1
  end.

Definition abs (x : Q) : Q := Qabs x.

(** [a > b], [a >= b] and [a < b] on numbers. *)
Definition gtb (a b : Q) : bool := negb (Qle_bool a b).
Definition geb (a b : Q) : bool := Qle_bool b a.
Definition ltb (a b : Q) : bool := negb (Qle_bool b a).

(** A surd [coef * sqrt rad]: the exact value of [Math.hypot] and of what
    the kinematics derive from it. *)
Record Surd : Type := mkSurd { coef : Q; rad : Q }.

Definition ofQ (q : Q) : Surd := mkSurd q 1.

Definition surdTruthy (s : Surd) : bool :=
  negb (isZero (coef s)) && negb (isZero (rad s)).

(** [Math.hypot(x, y)]. *)
Definition hypot (v : Vector2) : Surd :=
  mkSurd 1 (fst v * fst v + snd v * snd v).

(** [s >= t] for a surd [s] and a number [t], decided on squares. *)
Definition surdGeb (s : Surd) (t : Q) : bool :=
  let sq := coef s * coef s * rad s in
  if Qle_bool 0 (coef s) then
    if Qle_bool t 0 then true else Qle_bool (t * t) sq
  else
    if Qle_bool t 0 then Qle_bool sq (t * t) else false.

(** The real number a surd stands for. *)
Definition toR (s : Surd) : Rdefinitions.R :=
  Rdefinitions.Rmult (Rdefinitions.Q2R (coef s))
    (R_sqrt.sqrt (Rdefinitions.Q2R (rad s))).

(** [s > t] for a surd [s] and a number [t], decided on squares. *)
Definition surdGtb (s : Surd) (t : Q) : bool :=
  let sq := coef s * coef s * rad s in
  if Qle_bool 0 (coef s) then
    if Qle_bool 0 t then negb (Qle_bool sq (t * t)) else true
  else
    if Qle_bool 0 t then false else negb (Qle_bool (t * t) sq).

(** Division, with the divisor checked: [None] is a division by zero
    (JavaScript would produce [Infinity] or [NaN] there). *)
Definition divQ (a b : Q) : option Q :=
  if isZero b then None else Some (a / b).

Definition divSurdQ (s : Surd) (d : Q) : option Surd :=
  if isZero d then None else Some (mkSurd (coef s / d) (rad s)).

(** [v / len] for a surd [len = c * sqrt r]: [v / (c * r) * sqrt r]. *)
Definition divQSurd (v : Q) (len : Surd) : option Surd :=
  if surdTruthy len then Some (mkSurd (v / (coef len * rad len)) (rad len))
  else None.

(** ** utils/math *)

Module Math.

(* vector add *)
Definition addV (v1 v2 : Vector2) : Vector2 :=
  (fst v1 + fst v2, snd v1 + snd v2).

(* vector substract *)
Definition subV (v1 v2 : Vector2) : Vector2 :=
  (fst v1 - fst v2, snd v1 - snd v2).

Definition calculateVelocity (delta : Vector2) (delta_t : Q) (len : Surd)
  : option Surd :=
  let len := if surdTruthy len then len else hypot delta in
  if truthy delta_t then divSurdQ len delta_t else Some (ofQ 0).

Definition calculateVelocities (delta : Vector2) (delta_t : Q)
  : option Vector2 :=
  if truthy delta_t then
    match divQ (fst delta) delta_t, divQ (snd delta) delta_t with
    | Some a, Some b => Some (a, b)
    | _, _ => None
    end
  else Some (0, 0).

Definition calculateDistance (movement : Vector2) : Surd := hypot movement.

Definition calculateDirection (delta : Vector2) (len : Surd)
  : option (Surd * Surd) :=
  let len :=
    if surdTruthy len then len
    else if surdTruthy (hypot delta) then hypot delta else ofQ 1 in
  match divQSurd (fst delta) len, divQSurd (snd delta) len with
  | Some a, Some b => Some (a, b)
  | _, _ => None
  end.

Record Kinematics : Type := mkKinematics {
  k_velocities : Vector2;
  k_velocity : Surd;
  k_distance : Surd;
  k_direction : Surd * Surd
}.

Definition calculateAllKinematics (movement delta : Vector2) (delta_t : Q)
  : option Kinematics :=
  let len := hypot delta in
  match calculateVelocities delta delta_t,
        calculateVelocity delta delta_t len,
        calculateDirection delta len with
  | Some vs, Some v, Some d =>
      Some (mkKinematics vs v (calculateDistance movement) d)
  | _, _, _ => None
  end.

Definition getIntentional (movement threshold : Q) : option Q :=
  let abs := abs movement in
  if geb abs threshold then Some (sign movement * threshold) else None.

End Math.

(** ** utils/rubberband *)

Inductive Bound : Type := NegInf | Fin (q : Q) | PosInf.

(** [v < b] and [v > b] against a possibly infinite bound. *)
Definition belowBound (v : Q) (b : Bound) : bool :=
  match b with
  | NegInf => false
  | Fin q => ltb v q
  | PosInf => true
  end.

Definition aboveBound (v : Q) (b : Bound) : bool :=
  match b with
  | NegInf => true
  | Fin q => gtb v q
  | PosInf => false
  end.

Definition inBounds (v : Q) (min max : Bound) : bool :=
  negb (belowBound v min) && negb (aboveBound v max).

(** The hard clamp [max(min, min(v, max))]. *)
Definition minMax (v : Q) (min max : Bound) : Q :=
  let low := match max with
             | Fin q => if gtb v q then q else v
             | _ => v
             end in
  match min with
  | Fin q => if ltb low q then q else low
  | _ => low
  end.

(** The diminishing-return curve past a bound, for an excess [e >= 0]:
    [(1 - 1 / (e * c / d + 1)) * d] over an extent [d]; over an unbounded
    extent its limit [e * c]. *)
Definition rubberband (e : Q) (extent : option Q) (c : Q) : Q :=
  match extent with
  | Some d => if isZero d then 0 else (1 - 1 / (e * c / d + 1)) * d
  | None => e * c
  end.

Definition extent (min max : Bound) : option Q :=
  match min, max with
  | Fin a, Fin b => Some (b - a)
  | _, _ => None
  end.

(** Modelled from the spec: [rubberbandIfOutOfBounds] of [utils/rubberband]
    is not among the sources.  A value inside [[min, max]] is returned
    unchanged, a factor 0 is the hard clamp, a positive factor compresses
    the excess toward the bound it passed. *)
Definition rubberbandIfOutOfBounds (position : Q) (min max : Bound) (constant : Q)
  : Q :=
  if isZero constant then minMax position min max
  else
    match min, max with
    | Fin a, _ =>
        if ltb position a then a - rubberband (a - position) (extent min max) constant
        else match max with
             | Fin b =>
                 if gtb position b
                 then b + rubberband (position - b) (extent min max) constant
                 else position
             | _ => position
             end
    | _, Fin b =>
        if gtb position b
        then b + rubberband (position - b) (extent min max) constant
        else position
    | _, _ => position
    end.

(** ** Events and state ([types]) *)

Local Open Scope Z_scope.
Local Open Scope Q_scope.

Record PointerEvent : Type := mkPointerEvent {
  pointerId : Z;
  ev_timeStamp : Q;
  clientX : Q;
  clientY : Q;
  ev_buttons : Z;
  ev_touches : nat;
  shiftKey : bool;
  altKey : bool;
  metaKey : bool;
  ctrlKey : bool
}.

(** [false | number] per axis: [None] is [false]. *)
Definition Intentional : Type := (option Q * option Q)%type.

Inductive CancelFn : Type := noop | onCancelFn.
Inductive Axis : Type := AxisX | AxisY.

(** What a handler returns; [None] is [undefined]. *)
Definition Memo : Type := Z.

Inductive StateKey : Type := drag | scroll.
Inductive IngKey : Type := Dragging | Scrolling.

Definition fromMaybe {A : Type} (d : A) (o : option A) : A :=
  match o with Some a => a | None => d end.

Module GestureState.

Record t : Type := mk {
  _active : bool;
  _blocked : bool;
  _intentional : Intentional;
  _movement : Vector2;
  _initial : Vector2;
  event : option PointerEvent;
  values : Vector2;
  initial : Vector2;
  movement : Vector2;
  offset : Vector2;
  lastOffset : Vector2;
  delta : Vector2;
  previous : Vector2;
  velocity : Surd;
  velocities : Vector2;
  distance : Surd;
  direction : Surd * Surd;
  first : bool;
  last : bool;
  active : bool;
  timeStamp : Q;
  startTime : Q;
  elapsedTime : Q;
  cancel : CancelFn;
  canceled : bool;
  memo : option Memo;
  axis : option Axis;
  _isTap : bool;
  _delayedEvent : bool;
  _pointerId : option Z;
  tap : bool;
  swipe : Vector2
}.

Definition set__active (v : bool) (s : t) : t :=
  mk v (_blocked s) (_intentional s) (_movement s) (_initial s) (event s) (values s) (initial s) (movement s) (offset s) (lastOffset s) (delta s) (previous s) (velocity s) (velocities s) (distance s) (direction s) (first s) (last s) (active s) (timeStamp s) (startTime s) (elapsedTime s) (cancel s) (canceled s) (memo s) (axis s) (_isTap s) (_delayedEvent s) (_pointerId s) (tap s) (swipe s).

Definition set__blocked (v : bool) (s : t) : t :=
  mk (_active s) v (_intentional s) (_movement s) (_initial s) (event s) (values s) (initial s) (movement s) (offset s) (lastOffset s) (delta s) (previous s) (velocity s) (velocities s) (distance s) (direction s) (first s) (last s) (active s) (timeStamp s) (startTime s) (elapsedTime s) (cancel s) (canceled s) (memo s) (axis s) (_isTap s) (_delayedEvent s) (_pointerId s) (tap s) (swipe s).

Definition set__intentional (v : Intentional) (s : t) : t :=
  mk (_active s) (_blocked s) v (_movement s) (_initial s) (event s) (values s) (initial s) (movement s) (offset s) (lastOffset s) (delta s) (previous s) (velocity s) (velocities s) (distance s) (direction s) (first s) (last s) (active s) (timeStamp s) (startTime s) (elapsedTime s) (cancel s) (canceled s) (memo s) (axis s) (_isTap s) (_delayedEvent s) (_pointerId s) (tap s) (swipe s).

Definition set__movement (v : Vector2) (s : t) : t :=
  mk (_active s) (_blocked s) (_intentional s) v (_initial s) (event s) (values s) (initial s) (movement s) (offset s) (lastOffset s) (delta s) (previous s) (velocity s) (velocities s) (distance s) (direction s) (first s) (last s) (active s) (timeStamp s) (startTime s) (elapsedTime s) (cancel s) (canceled s) (memo s) (axis s) (_isTap s) (_delayedEvent s) (_pointerId s) (tap s) (swipe s).

Definition set__initial (v : Vector2) (s : t) : t :=
  mk (_active s) (_blocked s) (_intentional s) (_movement s) v (event s) (values s) (initial s) (movement s) (offset s) (lastOffset s) (delta s) (previous s) (velocity s) (velocities s) (distance s) (direction s) (first s) (last s) (active s) (timeStamp s) (startTime s) (elapsedTime s) (cancel s) (canceled s) (memo s) (axis s) (_isTap s) (_delayedEvent s) (_pointerId s) (tap s) (swipe s).

Definition set_event (v : option PointerEvent) (s : t) : t :=
  mk (_active s) (_blocked s) (_intentional s) (_movement s) (_initial s) v (values s) (initial s) (movement s) (offset s) (lastOffset s) (delta s) (previous s) (velocity s) (velocities s) (distance s) (direction s) (first s) (last s) (active s) (timeStamp s) (startTime s) (elapsedTime s) (cancel s) (canceled s) (memo s) (axis s) (_isTap s) (_delayedEvent s) (_pointerId s) (tap s) (swipe s).

Definition set_values (v : Vector2) (s : t) : t :=
  mk (_active s) (_blocked s) (_intentional s) (_movement s) (_initial s) (event s) v (initial s) (movement s) (offset s) (lastOffset s) (delta s) (previous s) (velocity s) (velocities s) (distance s) (direction s) (first s) (last s) (active s) (timeStamp s) (startTime s) (elapsedTime s) (cancel s) (canceled s) (memo s) (axis s) (_isTap s) (_delayedEvent s) (_pointerId s) (tap s) (swipe s).

Definition set_initial (v : Vector2) (s : t) : t :=
  mk (_active s) (_blocked s) (_intentional s) (_movement s) (_initial s) (event s) (values s) v (movement s) (offset s) (lastOffset s) (delta s) (previous s) (velocity s) (velocities s) (distance s) (direction s) (first s) (last s) (active s) (timeStamp s) (startTime s) (elapsedTime s) (cancel s) (canceled s) (memo s) (axis s) (_isTap s) (_delayedEvent s) (_pointerId s) (tap s) (swipe s).

Definition set_movement (v : Vector2) (s : t) : t :=
  mk (_active s) (_blocked s) (_intentional s) (_movement s) (_initial s) (event s) (values s) (initial s) v (offset s) (lastOffset s) (delta s) (previous s) (velocity s) (velocities s) (distance s) (direction s) (first s) (last s) (active s) (timeStamp s) (startTime s) (elapsedTime s) (cancel s) (canceled s) (memo s) (axis s) (_isTap s) (_delayedEvent s) (_pointerId s) (tap s) (swipe s).

Definition set_offset (v : Vector2) (s : t) : t :=
  mk (_active s) (_blocked s) (_intentional s) (_movement s) (_initial s) (event s) (values s) (initial s) (movement s) v (lastOffset s) (delta s) (previous s) (velocity s) (velocities s) (distance s) (direction s) (first s) (last s) (active s) (timeStamp s) (startTime s) (elapsedTime s) (cancel s) (canceled s) (memo s) (axis s) (_isTap s) (_delayedEvent s) (_pointerId s) (tap s) (swipe s).

Definition set_lastOffset (v : Vector2) (s : t) : t :=
  mk (_active s) (_blocked s) (_intentional s) (_movement s) (_initial s) (event s) (values s) (initial s) (movement s) (offset s) v (delta s) (previous s) (velocity s) (velocities s) (distance s) (direction s) (first s) (last s) (active s) (timeStamp s) (startTime s) (elapsedTime s) (cancel s) (canceled s) (memo s) (axis s) (_isTap s) (_delayedEvent s) (_pointerId s) (tap s) (swipe s).

Definition set_delta (v : Vector2) (s : t) : t :=
  mk (_active s) (_blocked s) (_intentional s) (_movement s) (_initial s) (event s) (values s) (initial s) (movement s) (offset s) (lastOffset s) v (previous s) (velocity s) (velocities s) (distance s) (direction s) (first s) (last s) (active s) (timeStamp s) (startTime s) (elapsedTime s) (cancel s) (canceled s) (memo s) (axis s) (_isTap s) (_delayedEvent s) (_pointerId s) (tap s) (swipe s).

Definition set_previous (v : Vector2) (s : t) : t :=
  mk (_active s) (_blocked s) (_intentional s) (_movement s) (_initial s) (event s) (values s) (initial s) (movement s) (offset s) (lastOffset s) (delta s) v (velocity s) (velocities s) (distance s) (direction s) (first s) (last s) (active s) (timeStamp s) (startTime s) (elapsedTime s) (cancel s) (canceled s) (memo s) (axis s) (_isTap s) (_delayedEvent s) (_pointerId s) (tap s) (swipe s).

Definition set_velocity (v : Surd) (s : t) : t :=
  mk (_active s) (_blocked s) (_intentional s) (_movement s) (_initial s) (event s) (values s) (initial s) (movement s) (offset s) (lastOffset s) (delta s) (previous s) v (velocities s) (distance s) (direction s) (first s) (last s) (active s) (timeStamp s) (startTime s) (elapsedTime s) (cancel s) (canceled s) (memo s) (axis s) (_isTap s) (_delayedEvent s) (_pointerId s) (tap s) (swipe s).

Definition set_velocities (v : Vector2) (s : t) : t :=
  mk (_active s) (_blocked s) (_intentional s) (_movement s) (_initial s) (event s) (values s) (initial s) (movement s) (offset s) (lastOffset s) (delta s) (previous s) (velocity s) v (distance s) (direction s) (first s) (last s) (active s) (timeStamp s) (startTime s) (elapsedTime s) (cancel s) (canceled s) (memo s) (axis s) (_isTap s) (_delayedEvent s) (_pointerId s) (tap s) (swipe s).

Definition set_distance (v : Surd) (s : t) : t :=
  mk (_active s) (_blocked s) (_intentional s) (_movement s) (_initial s) (event s) (values s) (initial s) (movement s) (offset s) (lastOffset s) (delta s) (previous s) (velocity s) (velocities s) v (direction s) (first s) (last s) (active s) (timeStamp s) (startTime s) (elapsedTime s) (cancel s) (canceled s) (memo s) (axis s) (_isTap s) (_delayedEvent s) (_pointerId s) (tap s) (swipe s).

Definition set_direction (v : Surd * Surd) (s : t) : t :=
  mk (_active s) (_blocked s) (_intentional s) (_movement s) (_initial s) (event s) (values s) (initial s) (movement s) (offset s) (lastOffset s) (delta s) (previous s) (velocity s) (velocities s) (distance s) v (first s) (last s) (active s) (timeStamp s) (startTime s) (elapsedTime s) (cancel s) (canceled s) (memo s) (axis s) (_isTap s) (_delayedEvent s) (_pointerId s) (tap s) (swipe s).

Definition set_first (v : bool) (s : t) : t :=
  mk (_active s) (_blocked s) (_intentional s) (_movement s) (_initial s) (event s) (values s) (initial s) (movement s) (offset s) (lastOffset s) (delta s) (previous s) (velocity s) (velocities s) (distance s) (direction s) v (last s) (active s) (timeStamp s) (startTime s) (elapsedTime s) (cancel s) (canceled s) (memo s) (axis s) (_isTap s) (_delayedEvent s) (_pointerId s) (tap s) (swipe s).

Definition set_last (v : bool) (s : t) : t :=
  mk (_active s) (_blocked s) (_intentional s) (_movement s) (_initial s) (event s) (values s) (initial s) (movement s) (offset s) (lastOffset s) (delta s) (previous s) (velocity s) (velocities s) (distance s) (direction s) (first s) v (active s) (timeStamp s) (startTime s) (elapsedTime s) (cancel s) (canceled s) (memo s) (axis s) (_isTap s) (_delayedEvent s) (_pointerId s) (tap s) (swipe s).

Definition set_active (v : bool) (s : t) : t :=
  mk (_active s) (_blocked s) (_intentional s) (_movement s) (_initial s) (event s) (values s) (initial s) (movement s) (offset s) (lastOffset s) (delta s) (previous s) (velocity s) (velocities s) (distance s) (direction s) (first s) (last s) v (timeStamp s) (startTime s) (elapsedTime s) (cancel s) (canceled s) (memo s) (axis s) (_isTap s) (_delayedEvent s) (_pointerId s) (tap s) (swipe s).

Definition set_timeStamp (v : Q) (s : t) : t :=
  mk (_active s) (_blocked s) (_intentional s) (_movement s) (_initial s) (event s) (values s) (initial s) (movement s) (offset s) (lastOffset s) (delta s) (previous s) (velocity s) (velocities s) (distance s) (direction s) (first s) (last s) (active s) v (startTime s) (elapsedTime s) (cancel s) (canceled s) (memo s) (axis s) (_isTap s) (_delayedEvent s) (_pointerId s) (tap s) (swipe s).

Definition set_startTime (v : Q) (s : t) : t :=
  mk (_active s) (_blocked s) (_intentional s) (_movement s) (_initial s) (event s) (values s) (initial s) (movement s) (offset s) (lastOffset s) (delta s) (previous s) (velocity s) (velocities s) (distance s) (direction s) (first s) (last s) (active s) (timeStamp s) v (elapsedTime s) (cancel s) (canceled s) (memo s) (axis s) (_isTap s) (_delayedEvent s) (_pointerId s) (tap s) (swipe s).

Definition set_elapsedTime (v : Q) (s : t) : t :=
  mk (_active s) (_blocked s) (_intentional s) (_movement s) (_initial s) (event s) (values s) (initial s) (movement s) (offset s) (lastOffset s) (delta s) (previous s) (velocity s) (velocities s) (distance s) (direction s) (first s) (last s) (active s) (timeStamp s) (startTime s) v (cancel s) (canceled s) (memo s) (axis s) (_isTap s) (_delayedEvent s) (_pointerId s) (tap s) (swipe s).

Definition set_cancel (v : CancelFn) (s : t) : t :=
  mk (_active s) (_blocked s) (_intentional s) (_movement s) (_initial s) (event s) (values s) (initial s) (movement s) (offset s) (lastOffset s) (delta s) (previous s) (velocity s) (velocities s) (distance s) (direction s) (first s) (last s) (active s) (timeStamp s) (startTime s) (elapsedTime s) v (canceled s) (memo s) (axis s) (_isTap s) (_delayedEvent s) (_pointerId s) (tap s) (swipe s).

Definition set_canceled (v : bool) (s : t) : t :=
  mk (_active s) (_blocked s) (_intentional s) (_movement s) (_initial s) (event s) (values s) (initial s) (movement s) (offset s) (lastOffset s) (delta s) (previous s) (velocity s) (velocities s) (distance s) (direction s) (first s) (last s) (active s) (timeStamp s) (startTime s) (elapsedTime s) (cancel s) v (memo s) (axis s) (_isTap s) (_delayedEvent s) (_pointerId s) (tap s) (swipe s).

Definition set_memo (v : option Memo) (s : t) : t :=
  mk (_active s) (_blocked s) (_intentional s) (_movement s) (_initial s) (event s) (values s) (initial s) (movement s) (offset s) (lastOffset s) (delta s) (previous s) (velocity s) (velocities s) (distance s) (direction s) (first s) (last s) (active s) (timeStamp s) (startTime s) (elapsedTime s) (cancel s) (canceled s) v (axis s) (_isTap s) (_delayedEvent s) (_pointerId s) (tap s) (swipe s).

Definition set_axis (v : option Axis) (s : t) : t :=
  mk (_active s) (_blocked s) (_intentional s) (_movement s) (_initial s) (event s) (values s) (initial s) (movement s) (offset s) (lastOffset s) (delta s) (previous s) (velocity s) (velocities s) (distance s) (direction s) (first s) (last s) (active s) (timeStamp s) (startTime s) (elapsedTime s) (cancel s) (canceled s) (memo s) v (_isTap s) (_delayedEvent s) (_pointerId s) (tap s) (swipe s).

Definition set__isTap (v : bool) (s : t) : t :=
  mk (_active s) (_blocked s) (_intentional s) (_movement s) (_initial s) (event s) (values s) (initial s) (movement s) (offset s) (lastOffset s) (delta s) (previous s) (velocity s) (velocities s) (distance s) (direction s) (first s) (last s) (active s) (timeStamp s) (startTime s) (elapsedTime s) (cancel s) (canceled s) (memo s) (axis s) v (_delayedEvent s) (_pointerId s) (tap s) (swipe s).

Definition set__delayedEvent (v : bool) (s : t) : t :=
  mk (_active s) (_blocked s) (_intentional s) (_movement s) (_initial s) (event s) (values s) (initial s) (movement s) (offset s) (lastOffset s) (delta s) (previous s) (velocity s) (velocities s) (distance s) (direction s) (first s) (last s) (active s) (timeStamp s) (startTime s) (elapsedTime s) (cancel s) (canceled s) (memo s) (axis s) (_isTap s) v (_pointerId s) (tap s) (swipe s).

Definition set__pointerId (v : option Z) (s : t) : t :=
  mk (_active s) (_blocked s) (_intentional s) (_movement s) (_initial s) (event s) (values s) (initial s) (movement s) (offset s) (lastOffset s) (delta s) (previous s) (velocity s) (velocities s) (distance s) (direction s) (first s) (last s) (active s) (timeStamp s) (startTime s) (elapsedTime s) (cancel s) (canceled s) (memo s) (axis s) (_isTap s) (_delayedEvent s) v (tap s) (swipe s).

Definition set_tap (v : bool) (s : t) : t :=
  mk (_active s) (_blocked s) (_intentional s) (_movement s) (_initial s) (event s) (values s) (initial s) (movement s) (offset s) (lastOffset s) (delta s) (previous s) (velocity s) (velocities s) (distance s) (direction s) (first s) (last s) (active s) (timeStamp s) (startTime s) (elapsedTime s) (cancel s) (canceled s) (memo s) (axis s) (_isTap s) (_delayedEvent s) (_pointerId s) v (swipe s).

Definition set_swipe (v : Vector2) (s : t) : t :=
  mk (_active s) (_blocked s) (_intentional s) (_movement s) (_initial s) (event s) (values s) (initial s) (movement s) (offset s) (lastOffset s) (delta s) (previous s) (velocity s) (velocities s) (distance s) (direction s) (first s) (last s) (active s) (timeStamp s) (startTime s) (elapsedTime s) (cancel s) (canceled s) (memo s) (axis s) (_isTap s) (_delayedEvent s) (_pointerId s) (tap s) v.

End GestureState.

Module PartialGestureState.

Record t : Type := mk {
  _active : option (bool);
  _blocked : option (bool);
  _intentional : option (Intentional);
  _movement : option (Vector2);
  _initial : option (Vector2);
  event : option (option PointerEvent);
  values : option (Vector2);
  initial : option (Vector2);
  movement : option (Vector2);
  offset : option (Vector2);
  lastOffset : option (Vector2);
  delta : option (Vector2);
  previous : option (Vector2);
  velocity : option (Surd);
  velocities : option (Vector2);
  distance : option (Surd);
  direction : option (Surd * Surd);
  first : option (bool);
  last : option (bool);
  active : option (bool);
  timeStamp : option (Q);
  startTime : option (Q);
  elapsedTime : option (Q);
  cancel : option (CancelFn);
  canceled : option (bool);
  memo : option (option Memo);
  axis : option (option Axis);
  _isTap : option (bool);
  _delayedEvent : option (bool);
  _pointerId : option (option Z);
  tap : option (bool);
  swipe : option (Vector2)
}.

(** The empty object literal. *)
Definition empty : t :=
  mk None None None None None None None None None None None None None None None None None None None None None None None None None None None None None None None None.

Definition set__active (v : bool) (p : t) : t :=
  mk (Some v) (_blocked p) (_intentional p) (_movement p) (_initial p) (event p) (values p) (initial p) (movement p) (offset p) (lastOffset p) (delta p) (previous p) (velocity p) (velocities p) (distance p) (direction p) (first p) (last p) (active p) (timeStamp p) (startTime p) (elapsedTime p) (cancel p) (canceled p) (memo p) (axis p) (_isTap p) (_delayedEvent p) (_pointerId p) (tap p) (swipe p).

Definition set__blocked (v : bool) (p : t) : t :=
  mk (_active p) (Some v) (_intentional p) (_movement p) (_initial p) (event p) (values p) (initial p) (movement p) (offset p) (lastOffset p) (delta p) (previous p) (velocity p) (velocities p) (distance p) (direction p) (first p) (last p) (active p) (timeStamp p) (startTime p) (elapsedTime p) (cancel p) (canceled p) (memo p) (axis p) (_isTap p) (_delayedEvent p) (_pointerId p) (tap p) (swipe p).

Definition set__intentional (v : Intentional) (p : t) : t :=
  mk (_active p) (_blocked p) (Some v) (_movement p) (_initial p) (event p) (values p) (initial p) (movement p) (offset p) (lastOffset p) (delta p) (previous p) (velocity p) (velocities p) (distance p) (direction p) (first p) (last p) (active p) (timeStamp p) (startTime p) (elapsedTime p) (cancel p) (canceled p) (memo p) (axis p) (_isTap p) (_delayedEvent p) (_pointerId p) (tap p) (swipe p).

Definition set__movement (v : Vector2) (p : t) : t :=
  mk (_active p) (_blocked p) (_intentional p) (Some v) (_initial p) (event p) (values p) (initial p) (movement p) (offset p) (lastOffset p) (delta p) (previous p) (velocity p) (velocities p) (distance p) (direction p) (first p) (last p) (active p) (timeStamp p) (startTime p) (elapsedTime p) (cancel p) (canceled p) (memo p) (axis p) (_isTap p) (_delayedEvent p) (_pointerId p) (tap p) (swipe p).

Definition set__initial (v : Vector2) (p : t) : t :=
  mk (_active p) (_blocked p) (_intentional p) (_movement p) (Some v) (event p) (values p) (initial p) (movement p) (offset p) (lastOffset p) (delta p) (previous p) (velocity p) (velocities p) (distance p) (direction p) (first p) (last p) (active p) (timeStamp p) (startTime p) (elapsedTime p) (cancel p) (canceled p) (memo p) (axis p) (_isTap p) (_delayedEvent p) (_pointerId p) (tap p) (swipe p).

Definition set_event (v : option PointerEvent) (p : t) : t :=
  mk (_active p) (_blocked p) (_intentional p) (_movement p) (_initial p) (Some v) (values p) (initial p) (movement p) (offset p) (lastOffset p) (delta p) (previous p) (velocity p) (velocities p) (distance p) (direction p) (first p) (last p) (active p) (timeStamp p) (startTime p) (elapsedTime p) (cancel p) (canceled p) (memo p) (axis p) (_isTap p) (_delayedEvent p) (_pointerId p) (tap p) (swipe p).

Definition set_values (v : Vector2) (p : t) : t :=
  mk (_active p) (_blocked p) (_intentional p) (_movement p) (_initial p) (event p) (Some v) (initial p) (movement p) (offset p) (lastOffset p) (delta p) (previous p) (velocity p) (velocities p) (distance p) (direction p) (first p) (last p) (active p) (timeStamp p) (startTime p) (elapsedTime p) (cancel p) (canceled p) (memo p) (axis p) (_isTap p) (_delayedEvent p) (_pointerId p) (tap p) (swipe p).

Definition set_initial (v : Vector2) (p : t) : t :=
  mk (_active p) (_blocked p) (_intentional p) (_movement p) (_initial p) (event p) (values p) (Some v) (movement p) (offset p) (lastOffset p) (delta p) (previous p) (velocity p) (velocities p) (distance p) (direction p) (first p) (last p) (active p) (timeStamp p) (startTime p) (elapsedTime p) (cancel p) (canceled p) (memo p) (axis p) (_isTap p) (_delayedEvent p) (_pointerId p) (tap p) (swipe p).

Definition set_movement (v : Vector2) (p : t) : t :=
  mk (_active p) (_blocked p) (_intentional p) (_movement p) (_initial p) (event p) (values p) (initial p) (Some v) (offset p) (lastOffset p) (delta p) (previous p) (velocity p) (velocities p) (distance p) (direction p) (first p) (last p) (active p) (timeStamp p) (startTime p) (elapsedTime p) (cancel p) (canceled p) (memo p) (axis p) (_isTap p) (_delayedEvent p) (_pointerId p) (tap p) (swipe p).

Definition set_offset (v : Vector2) (p : t) : t :=
  mk (_active p) (_blocked p) (_intentional p) (_movement p) (_initial p) (event p) (values p) (initial p) (movement p) (Some v) (lastOffset p) (delta p) (previous p) (velocity p) (velocities p) (distance p) (direction p) (first p) (last p) (active p) (timeStamp p) (startTime p) (elapsedTime p) (cancel p) (canceled p) (memo p) (axis p) (_isTap p) (_delayedEvent p) (_pointerId p) (tap p) (swipe p).

Definition set_lastOffset (v : Vector2) (p : t) : t :=
  mk (_active p) (_blocked p) (_intentional p) (_movement p) (_initial p) (event p) (values p) (initial p) (movement p) (offset p) (Some v) (delta p) (previous p) (velocity p) (velocities p) (distance p) (direction p) (first p) (last p) (active p) (timeStamp p) (startTime p) (elapsedTime p) (cancel p) (canceled p) (memo p) (axis p) (_isTap p) (_delayedEvent p) (_pointerId p) (tap p) (swipe p).

Definition set_delta (v : Vector2) (p : t) : t :=
  mk (_active p) (_blocked p) (_intentional p) (_movement p) (_initial p) (event p) (values p) (initial p) (movement p) (offset p) (lastOffset p) (Some v) (previous p) (velocity p) (velocities p) (distance p) (direction p) (first p) (last p) (active p) (timeStamp p) (startTime p) (elapsedTime p) (cancel p) (canceled p) (memo p) (axis p) (_isTap p) (_delayedEvent p) (_pointerId p) (tap p) (swipe p).

Definition set_previous (v : Vector2) (p : t) : t :=
  mk (_active p) (_blocked p) (_intentional p) (_movement p) (_initial p) (event p) (values p) (initial p) (movement p) (offset p) (lastOffset p) (delta p) (Some v) (velocity p) (velocities p) (distance p) (direction p) (first p) (last p) (active p) (timeStamp p) (startTime p) (elapsedTime p) (cancel p) (canceled p) (memo p) (axis p) (_isTap p) (_delayedEvent p) (_pointerId p) (tap p) (swipe p).

Definition set_velocity (v : Surd) (p : t) : t :=
  mk (_active p) (_blocked p) (_intentional p) (_movement p) (_initial p) (event p) (values p) (initial p) (movement p) (offset p) (lastOffset p) (delta p) (previous p) (Some v) (velocities p) (distance p) (direction p) (first p) (last p) (active p) (timeStamp p) (startTime p) (elapsedTime p) (cancel p) (canceled p) (memo p) (axis p) (_isTap p) (_delayedEvent p) (_pointerId p) (tap p) (swipe p).

Definition set_velocities (v : Vector2) (p : t) : t :=
  mk (_active p) (_blocked p) (_intentional p) (_movement p) (_initial p) (event p) (values p) (initial p) (movement p) (offset p) (lastOffset p) (delta p) (previous p) (velocity p) (Some v) (distance p) (direction p) (first p) (last p) (active p) (timeStamp p) (startTime p) (elapsedTime p) (cancel p) (canceled p) (memo p) (axis p) (_isTap p) (_delayedEvent p) (_pointerId p) (tap p) (swipe p).

Definition set_distance (v : Surd) (p : t) : t :=
  mk (_active p) (_blocked p) (_intentional p) (_movement p) (_initial p) (event p) (values p) (initial p) (movement p) (offset p) (lastOffset p) (delta p) (previous p) (velocity p) (velocities p) (Some v) (direction p) (first p) (last p) (active p) (timeStamp p) (startTime p) (elapsedTime p) (cancel p) (canceled p) (memo p) (axis p) (_isTap p) (_delayedEvent p) (_pointerId p) (tap p) (swipe p).

Definition set_direction (v : Surd * Surd) (p : t) : t :=
  mk (_active p) (_blocked p) (_intentional p) (_movement p) (_initial p) (event p) (values p) (initial p) (movement p) (offset p) (lastOffset p) (delta p) (previous p) (velocity p) (velocities p) (distance p) (Some v) (first p) (last p) (active p) (timeStamp p) (startTime p) (elapsedTime p) (cancel p) (canceled p) (memo p) (axis p) (_isTap p) (_delayedEvent p) (_pointerId p) (tap p) (swipe p).

Definition set_first (v : bool) (p : t) : t :=
  mk (_active p) (_blocked p) (_intentional p) (_movement p) (_initial p) (event p) (values p) (initial p) (movement p) (offset p) (lastOffset p) (delta p) (previous p) (velocity p) (velocities p) (distance p) (direction p) (Some v) (last p) (active p) (timeStamp p) (startTime p) (elapsedTime p) (cancel p) (canceled p) (memo p) (axis p) (_isTap p) (_delayedEvent p) (_pointerId p) (tap p) (swipe p).

Definition set_last (v : bool) (p : t) : t :=
  mk (_active p) (_blocked p) (_intentional p) (_movement p) (_initial p) (event p) (values p) (initial p) (movement p) (offset p) (lastOffset p) (delta p) (previous p) (velocity p) (velocities p) (distance p) (direction p) (first p) (Some v) (active p) (timeStamp p) (startTime p) (elapsedTime p) (cancel p) (canceled p) (memo p) (axis p) (_isTap p) (_delayedEvent p) (_pointerId p) (tap p) (swipe p).

Definition set_active (v : bool) (p : t) : t :=
  mk (_active p) (_blocked p) (_intentional p) (_movement p) (_initial p) (event p) (values p) (initial p) (movement p) (offset p) (lastOffset p) (delta p) (previous p) (velocity p) (velocities p) (distance p) (direction p) (first p) (last p) (Some v) (timeStamp p) (startTime p) (elapsedTime p) (cancel p) (canceled p) (memo p) (axis p) (_isTap p) (_delayedEvent p) (_pointerId p) (tap p) (swipe p).

Definition set_timeStamp (v : Q) (p : t) : t :=
  mk (_active p) (_blocked p) (_intentional p) (_movement p) (_initial p) (event p) (values p) (initial p) (movement p) (offset p) (lastOffset p) (delta p) (previous p) (velocity p) (velocities p) (distance p) (direction p) (first p) (last p) (active p) (Some v) (startTime p) (elapsedTime p) (cancel p) (canceled p) (memo p) (axis p) (_isTap p) (_delayedEvent p) (_pointerId p) (tap p) (swipe p).

Definition set_startTime (v : Q) (p : t) : t :=
  mk (_active p) (_blocked p) (_intentional p) (_movement p) (_initial p) (event p) (values p) (initial p) (movement p) (offset p) (lastOffset p) (delta p) (previous p) (velocity p) (velocities p) (distance p) (direction p) (first p) (last p) (active p) (timeStamp p) (Some v) (elapsedTime p) (cancel p) (canceled p) (memo p) (axis p) (_isTap p) (_delayedEvent p) (_pointerId p) (tap p) (swipe p).

Definition set_elapsedTime (v : Q) (p : t) : t :=
  mk (_active p) (_blocked p) (_intentional p) (_movement p) (_initial p) (event p) (values p) (initial p) (movement p) (offset p) (lastOffset p) (delta p) (previous p) (velocity p) (velocities p) (distance p) (direction p) (first p) (last p) (active p) (timeStamp p) (startTime p) (Some v) (cancel p) (canceled p) (memo p) (axis p) (_isTap p) (_delayedEvent p) (_pointerId p) (tap p) (swipe p).

Definition set_cancel (v : CancelFn) (p : t) : t :=
  mk (_active p) (_blocked p) (_intentional p) (_movement p) (_initial p) (event p) (values p) (initial p) (movement p) (offset p) (lastOffset p) (delta p) (previous p) (velocity p) (velocities p) (distance p) (direction p) (first p) (last p) (active p) (timeStamp p) (startTime p) (elapsedTime p) (Some v) (canceled p) (memo p) (axis p) (_isTap p) (_delayedEvent p) (_pointerId p) (tap p) (swipe p).

Definition set_canceled (v : bool) (p : t) : t :=
  mk (_active p) (_blocked p) (_intentional p) (_movement p) (_initial p) (event p) (values p) (initial p) (movement p) (offset p) (lastOffset p) (delta p) (previous p) (velocity p) (velocities p) (distance p) (direction p) (first p) (last p) (active p) (timeStamp p) (startTime p) (elapsedTime p) (cancel p) (Some v) (memo p) (axis p) (_isTap p) (_delayedEvent p) (_pointerId p) (tap p) (swipe p).

Definition set_memo (v : option Memo) (p : t) : t :=
  mk (_active p) (_blocked p) (_intentional p) (_movement p) (_initial p) (event p) (values p) (initial p) (movement p) (offset p) (lastOffset p) (delta p) (previous p) (velocity p) (velocities p) (distance p) (direction p) (first p) (last p) (active p) (timeStamp p) (startTime p) (elapsedTime p) (cancel p) (canceled p) (Some v) (axis p) (_isTap p) (_delayedEvent p) (_pointerId p) (tap p) (swipe p).

Definition set_axis (v : option Axis) (p : t) : t :=
  mk (_active p) (_blocked p) (_intentional p) (_movement p) (_initial p) (event p) (values p) (initial p) (movement p) (offset p) (lastOffset p) (delta p) (previous p) (velocity p) (velocities p) (distance p) (direction p) (first p) (last p) (active p) (timeStamp p) (startTime p) (elapsedTime p) (cancel p) (canceled p) (memo p) (Some v) (_isTap p) (_delayedEvent p) (_pointerId p) (tap p) (swipe p).

Definition set__isTap (v : bool) (p : t) : t :=
  mk (_active p) (_blocked p) (_intentional p) (_movement p) (_initial p) (event p) (values p) (initial p) (movement p) (offset p) (lastOffset p) (delta p) (previous p) (velocity p) (velocities p) (distance p) (direction p) (first p) (last p) (active p) (timeStamp p) (startTime p) (elapsedTime p) (cancel p) (canceled p) (memo p) (axis p) (Some v) (_delayedEvent p) (_pointerId p) (tap p) (swipe p).

Definition set__delayedEvent (v : bool) (p : t) : t :=
  mk (_active p) (_blocked p) (_intentional p) (_movement p) (_initial p) (event p) (values p) (initial p) (movement p) (offset p) (lastOffset p) (delta p) (previous p) (velocity p) (velocities p) (distance p) (direction p) (first p) (last p) (active p) (timeStamp p) (startTime p) (elapsedTime p) (cancel p) (canceled p) (memo p) (axis p) (_isTap p) (Some v) (_pointerId p) (tap p) (swipe p).

Definition set__pointerId (v : option Z) (p : t) : t :=
  mk (_active p) (_blocked p) (_intentional p) (_movement p) (_initial p) (event p) (values p) (initial p) (movement p) (offset p) (lastOffset p) (delta p) (previous p) (velocity p) (velocities p) (distance p) (direction p) (first p) (last p) (active p) (timeStamp p) (startTime p) (elapsedTime p) (cancel p) (canceled p) (memo p) (axis p) (_isTap p) (_delayedEvent p) (Some v) (tap p) (swipe p).

Definition set_tap (v : bool) (p : t) : t :=
  mk (_active p) (_blocked p) (_intentional p) (_movement p) (_initial p) (event p) (values p) (initial p) (movement p) (offset p) (lastOffset p) (delta p) (previous p) (velocity p) (velocities p) (distance p) (direction p) (first p) (last p) (active p) (timeStamp p) (startTime p) (elapsedTime p) (cancel p) (canceled p) (memo p) (axis p) (_isTap p) (_delayedEvent p) (_pointerId p) (Some v) (swipe p).

Definition set_swipe (v : Vector2) (p : t) : t :=
  mk (_active p) (_blocked p) (_intentional p) (_movement p) (_initial p) (event p) (values p) (initial p) (movement p) (offset p) (lastOffset p) (delta p) (previous p) (velocity p) (velocities p) (distance p) (direction p) (first p) (last p) (active p) (timeStamp p) (startTime p) (elapsedTime p) (cancel p) (canceled p) (memo p) (axis p) (_isTap p) (_delayedEvent p) (_pointerId p) (tap p) (Some v).

(** A key of the right operand wins: [{ ...a, ...b }]. *)
Definition orElse {A : Type} (b a : option A) : option A :=
  match b with Some _ => b | None => a end.

Definition spread (a b : t) : t :=
  mk (orElse (_active b) (_active a))
     (orElse (_blocked b) (_blocked a))
     (orElse (_intentional b) (_intentional a))
     (orElse (_movement b) (_movement a))
     (orElse (_initial b) (_initial a))
     (orElse (event b) (event a))
     (orElse (values b) (values a))
     (orElse (initial b) (initial a))
     (orElse (movement b) (movement a))
     (orElse (offset b) (offset a))
     (orElse (lastOffset b) (lastOffset a))
     (orElse (delta b) (delta a))
     (orElse (previous b) (previous a))
     (orElse (velocity b) (velocity a))
     (orElse (velocities b) (velocities a))
     (orElse (distance b) (distance a))
     (orElse (direction b) (direction a))
     (orElse (first b) (first a))
     (orElse (last b) (last a))
     (orElse (active b) (active a))
     (orElse (timeStamp b) (timeStamp a))
     (orElse (startTime b) (startTime a))
     (orElse (elapsedTime b) (elapsedTime a))
     (orElse (cancel b) (cancel a))
     (orElse (canceled b) (canceled a))
     (orElse (memo b) (memo a))
     (orElse (axis b) (axis a))
     (orElse (_isTap b) (_isTap a))
     (orElse (_delayedEvent b) (_delayedEvent a))
     (orElse (_pointerId b) (_pointerId a))
     (orElse (tap b) (tap a))
     (orElse (swipe b) (swipe a)).

(** A full state seen as an object with every key present. *)
Definition ofState (s : GestureState.t) : t :=
  mk (Some (GestureState._active s))
     (Some (GestureState._blocked s))
     (Some (GestureState._intentional s))
     (Some (GestureState._movement s))
     (Some (GestureState._initial s))
     (Some (GestureState.event s))
     (Some (GestureState.values s))
     (Some (GestureState.initial s))
     (Some (GestureState.movement s))
     (Some (GestureState.offset s))
     (Some (GestureState.lastOffset s))
     (Some (GestureState.delta s))
     (Some (GestureState.previous s))
     (Some (GestureState.velocity s))
     (Some (GestureState.velocities s))
     (Some (GestureState.distance s))
     (Some (GestureState.direction s))
     (Some (GestureState.first s))
     (Some (GestureState.last s))
     (Some (GestureState.active s))
     (Some (GestureState.timeStamp s))
     (Some (GestureState.startTime s))
     (Some (GestureState.elapsedTime s))
     (Some (GestureState.cancel s))
     (Some (GestureState.canceled s))
     (Some (GestureState.memo s))
     (Some (GestureState.axis s))
     (Some (GestureState._isTap s))
     (Some (GestureState._delayedEvent s))
     (Some (GestureState._pointerId s))
     (Some (GestureState.tap s))
     (Some (GestureState.swipe s)).

End PartialGestureState.

(** [Object.assign(state, partial)]. *)
Definition assign (s : GestureState.t) (p : PartialGestureState.t) : GestureState.t :=
  GestureState.mk
    (fromMaybe (GestureState._active s) (PartialGestureState._active p))
    (fromMaybe (GestureState._blocked s) (PartialGestureState._blocked p))
    (fromMaybe (GestureState._intentional s) (PartialGestureState._intentional p))
    (fromMaybe (GestureState._movement s) (PartialGestureState._movement p))
    (fromMaybe (GestureState._initial s) (PartialGestureState._initial p))
    (fromMaybe (GestureState.event s) (PartialGestureState.event p))
    (fromMaybe (GestureState.values s) (PartialGestureState.values p))
    (fromMaybe (GestureState.initial s) (PartialGestureState.initial p))
    (fromMaybe (GestureState.movement s) (PartialGestureState.movement p))
    (fromMaybe (GestureState.offset s) (PartialGestureState.offset p))
    (fromMaybe (GestureState.lastOffset s) (PartialGestureState.lastOffset p))
    (fromMaybe (GestureState.delta s) (PartialGestureState.delta p))
    (fromMaybe (GestureState.previous s) (PartialGestureState.previous p))
    (fromMaybe (GestureState.velocity s) (PartialGestureState.velocity p))
    (fromMaybe (GestureState.velocities s) (PartialGestureState.velocities p))
    (fromMaybe (GestureState.distance s) (PartialGestureState.distance p))
    (fromMaybe (GestureState.direction s) (PartialGestureState.direction p))
    (fromMaybe (GestureState.first s) (PartialGestureState.first p))
    (fromMaybe (GestureState.last s) (PartialGestureState.last p))
    (fromMaybe (GestureState.active s) (PartialGestureState.active p))
    (fromMaybe (GestureState.timeStamp s) (PartialGestureState.timeStamp p))
    (fromMaybe (GestureState.startTime s) (PartialGestureState.startTime p))
    (fromMaybe (GestureState.elapsedTime s) (PartialGestureState.elapsedTime p))
    (fromMaybe (GestureState.cancel s) (PartialGestureState.cancel p))
    (fromMaybe (GestureState.canceled s) (PartialGestureState.canceled p))
    (fromMaybe (GestureState.memo s) (PartialGestureState.memo p))
    (fromMaybe (GestureState.axis s) (PartialGestureState.axis p))
    (fromMaybe (GestureState._isTap s) (PartialGestureState._isTap p))
    (fromMaybe (GestureState._delayedEvent s) (PartialGestureState._delayedEvent p))
    (fromMaybe (GestureState._pointerId s) (PartialGestureState._pointerId p))
    (fromMaybe (GestureState.tap s) (PartialGestureState.tap p))
    (fromMaybe (GestureState.swipe s) (PartialGestureState.swipe p)).

(** Modelled from the spec: [getInitialState] of [utils/state] is not among
    the sources.  The idle state of a gesture kind: nothing active, no axis
    intentional, every vector at the origin, the tap flag raised. *)
Definition getInitialState : GestureState.t :=
  GestureState.mk
    false false (None, None) (0, 0) (0, 0) None (0, 0) (0, 0) (0, 0) (0, 0) (0, 0) (0, 0) (0, 0) (ofQ 0) (0, 0) (ofQ 0) (ofQ 0, ofQ 0) false false false 0 0 0 noop false None None true false None false (0, 0).

(** The state shared by all gestures. *)
Module SharedGestureState.
Record t : Type := mk {
  down : bool;
  buttons : Z;
  touches : nat;
  dragging : bool;
  scrolling : bool;
  shift : bool;
  alt : bool;
  meta : bool;
  ctrl : bool
}.

Definition initial : t := mk false 0%Z 0%nat false false false false false false.

Record partial : Type := mkPartial {
  p_down : option bool;
  p_buttons : option Z;
  p_touches : option nat;
  p_shift : option bool;
  p_alt : option bool;
  p_meta : option bool;
  p_ctrl : option bool
}.

(** [Object.assign(shared, partial)]. *)
Definition assign (s : t) (p : partial) : t :=
  mk (fromMaybe (down s) (p_down p))
     (fromMaybe (buttons s) (p_buttons p))
     (fromMaybe (touches s) (p_touches p))
     (dragging s)
     (scrolling s)
     (fromMaybe (shift s) (p_shift p))
     (fromMaybe (alt s) (p_alt p))
     (fromMaybe (meta s) (p_meta p))
     (fromMaybe (ctrl s) (p_ctrl p)).

(** [shared[ingKey] = v]. *)
Definition setIng (k : IngKey) (v : bool) (s : t) : t :=
  match k with
  | Dragging => mk (down s) (buttons s) (touches s) v (scrolling s)
                   (shift s) (alt s) (meta s) (ctrl s)
  | Scrolling => mk (down s) (buttons s) (touches s) (dragging s) v
                    (shift s) (alt s) (meta s) (ctrl s)
  end.

Definition getIng (k : IngKey) (s : t) : bool :=
  match k with
  | Dragging => dragging s
  | Scrolling => scrolling s
  end.
End SharedGestureState.

(** ** The resolved options and the controller *)

Definition Bounds : Type := ((Bound * Bound) * (Bound * Bound))%type.

(** The internal options of one gesture; the drag-only fields are the last
    four. *)
Module Config.
Record t : Type := mk {
  enabled : bool;
  threshold : Vector2;
  rubberband : Vector2;
  bounds : Bounds;
  initial : Vector2;
  lockDirection : bool;
  axis : option Axis;
  delay : Q;
  swipeVelocity : Vector2;
  swipeDistance : Vector2;
  filterTaps : bool
}.
End Config.

Record FullGestureState : Type := mkFull {
  fs_shared : SharedGestureState.t;
  fs_state : GestureState.t;
  fs_xy : Vector2;
  fs_vxvy : Vector2
}.

Definition Handler : Type := FullGestureState -> option Memo.

(** A callback handed to [window.setTimeout]. *)
Inductive TimerCallback : Type :=
| StartDrag (event : PointerEvent).

Inductive WindowListener : Type :=
| pointermove_onDragChange
| pointerup_onDragEnd
| pointercancel_onDragEnd.

Record PerKey (A : Type) : Type := mkPerKey { at_drag : A; at_scroll : A }.
Arguments mkPerKey {A} _ _.
Arguments at_drag {A} _.
Arguments at_scroll {A} _.

Definition getKey {A : Type} (k : StateKey) (m : PerKey A) : A :=
  match k with
  | drag => at_drag m
  | scroll => at_scroll m
  end.

Definition setKey {A : Type} (k : StateKey) (v : A) (m : PerKey A) : PerKey A :=
  match k with
  | drag => mkPerKey v (at_scroll m)
  | scroll => mkPerKey (at_drag m) v
  end.

(** The controller with what it owns, the browser's pending timers
    ([timers], keyed by handle) and the log of handler invocations
    ([calls], latest first). *)
Record Controller : Type := mkController {
  config_enabled : bool;
  config : PerKey Config.t;
  shared : SharedGestureState.t;
  state : PerKey GestureState.t;
  handlers : PerKey Handler;
  timeouts : PerKey (option nat);
  timers : list (nat * TimerCallback);
  nextTimer : nat;
  windowListeners : PerKey (list WindowListener);
  calls : list (StateKey * FullGestureState)
}.

Definition withShared (sh : SharedGestureState.t) (c : Controller) : Controller :=
  mkController (config_enabled c) (config c) sh (state c) (handlers c)
    (timeouts c) (timers c) (nextTimer c) (windowListeners c) (calls c).

Definition withState (k : StateKey) (s : GestureState.t) (c : Controller)
  : Controller :=
  mkController (config_enabled c) (config c) (shared c) (setKey k s (state c))
    (handlers c) (timeouts c) (timers c) (nextTimer c) (windowListeners c)
    (calls c).

Definition withCall (k : StateKey) (f : FullGestureState) (c : Controller)
  : Controller :=
  mkController (config_enabled c) (config c) (shared c) (state c) (handlers c)
    (timeouts c) (timers c) (nextTimer c) (windowListeners c)
    ((k, f) :: calls c).

Definition withListeners (k : StateKey) (l : list WindowListener) (c : Controller)
  : Controller :=
  mkController (config_enabled c) (config c) (shared c) (state c) (handlers c)
    (timeouts c) (timers c) (nextTimer c) (setKey k l (windowListeners c))
    (calls c).

(** Modelled from the spec: [removeWindowListeners] and [addWindowListeners]
    of the controller are not among the sources.  The registry holds the
    listeners of a kind; attaching replaces, detaching empties. *)
Definition removeWindowListeners (k : StateKey) (c : Controller) : Controller :=
  withListeners k [] c.

Definition addWindowListeners (k : StateKey) (l : list WindowListener)
  (c : Controller) : Controller :=
  withListeners k l c.

(** [timeouts[k] = window.setTimeout(callback, ms)]: a fresh handle; a
    timer already pending for the kind stays in the browser. *)
Definition windowSetTimeout (k : StateKey) (cb : TimerCallback) (c : Controller)
  : Controller :=
  mkController (config_enabled c) (config c) (shared c) (state c) (handlers c)
    (setKey k (Some (nextTimer c)) (timeouts c))
    ((nextTimer c, cb) :: timers c) (S (nextTimer c)) (windowListeners c)
    (calls c).

(** [clearTimeout(timeouts[k])]: the handle is kept, its timer dropped. *)
Definition windowClearTimeout (k : StateKey) (c : Controller) : Controller :=
  match getKey k (timeouts c) with
  | None => c
  | Some h =>
      mkController (config_enabled c) (config c) (shared c) (state c)
        (handlers c) (timeouts c)
        (filter (fun t => negb (Nat.eqb (fst t) h)) (timers c))
        (nextTimer c) (windowListeners c) (calls c)
  end.

(** ** utils/event *)

(** Modelled from the spec: [getPointerEventValues] and
    [getGenericEventData] of [utils/event] are not among the sources.  The
    values of a pointer event are its client coordinates; the generic data
    is the button / touch / modifier snapshot, [down] when any is pressed. *)
Definition getPointerEventValues (event : PointerEvent) : Vector2 :=
  (clientX event, clientY event).

Definition getGenericEventData (event : PointerEvent)
  : SharedGestureState.partial :=
  SharedGestureState.mkPartial
    (Some (Nat.ltb 0 (ev_touches event) || Z.ltb 0 (ev_buttons event)))
    (Some (ev_buttons event))
    (Some (ev_touches event))
    (Some (shiftKey event)) (Some (altKey event))
    (Some (metaKey event)) (Some (ctrlKey event)).

Definition eventDown (event : PointerEvent) : bool :=
  fromMaybe false (SharedGestureState.p_down (getGenericEventData event)).

(** ** recognizers/Recognizer *)

(** What [checkIntentionality] returns: [_intentional], and the keys
    [_blocked] and [axis] when the override sets them. *)
Record IntentionalityCheck : Type := mkCheck {
  ic_intentional : Intentional;
  ic_blocked : option bool;
  ic_axis : option (option Axis)
}.

Definition checkPartial (ic : IntentionalityCheck) : PartialGestureState.t :=
  let p := PartialGestureState.set__intentional (ic_intentional ic)
             PartialGestureState.empty in
  let p := match ic_blocked ic with
           | Some b => PartialGestureState.set__blocked b p
           | None => p
           end in
  match ic_axis ic with
  | Some a => PartialGestureState.set_axis a p
  | None => p
  end.

(** The type of [checkIntentionality], over the options of the gesture. *)
Definition CheckIntentionality : Type :=
  Config.t -> Intentional -> Vector2 -> GestureState.t -> IntentionalityCheck.

(** A recognizer: the abstract members of the class and the members a
    gesture may override. *)
Record Recognizer : Type := mkRecognizer {
  stateKey : StateKey;
  ingKey : IngKey;
  debounced : bool;
  getInternalMovement : Vector2 -> GestureState.t -> Vector2;
  checkIntentionality : CheckIntentionality;
  mapStateValues : GestureState.t -> Vector2 * Vector2;
  clean : Controller -> Controller
}.

Definition recognizerConfig (r : Recognizer) (c : Controller) : Config.t :=
  getKey (stateKey r) (config c).

Definition recognizerEnabled (r : Recognizer) (c : Controller) : bool :=
  config_enabled c && Config.enabled (recognizerConfig r c).

Definition recognizerState (r : Recognizer) (c : Controller) : GestureState.t :=
  getKey (stateKey r) (state c).

Definition updateSharedState (p : SharedGestureState.partial) (c : Controller)
  : Controller :=
  withShared (SharedGestureState.assign (shared c) p) c.

Definition updateGestureState (r : Recognizer) (p : PartialGestureState.t)
  (c : Controller) : Controller :=
  withState (stateKey r) (assign (recognizerState r c) p) c.

Definition setTimeout (r : Recognizer) (cb : TimerCallback) (c : Controller)
  : Controller :=
  windowSetTimeout (stateKey r) cb c.

Definition clearTimeout (r : Recognizer) (c : Controller) : Controller :=
  windowClearTimeout (stateKey r) c.

(** The implementation of the base class: it doesn't do anything. *)
Definition baseCheckIntentionality : CheckIntentionality :=
  fun _ _intentional _movement _state => mkCheck _intentional (Some false) None.

Definition baseClean (k : StateKey) (c : Controller) : Controller :=
  windowClearTimeout k c.

Definition getIntentionalDisplacement (movement threshold : Q) : option Q :=
  if geb (abs movement) threshold then Some (sign movement * threshold)
  else None.

Definition computeRubberband (cfg : Config.t) (vector rubberband : Vector2)
  : Vector2 :=
  let bounds := Config.bounds cfg in
  (rubberbandIfOutOfBounds (fst vector) (fst (fst bounds)) (snd (fst bounds))
     (fst rubberband),
   rubberbandIfOutOfBounds (snd vector) (fst (snd bounds)) (snd (snd bounds))
     (snd rubberband)).

Definition isFalse (i : option Q) : bool :=
  match i with None => true | Some _ => false end.

(** [getMovement(values)] on the recognizer's state [st].  The array
    [st._initial] is written in place, so the state comes back with the
    partial state the method returns.  [valueFn(initial)] is the resolved
    [initial] vector. *)
Definition getMovementOn (r : Recognizer) (cfg : Config.t) (values : Vector2)
  (st : GestureState.t) : GestureState.t * PartialGestureState.t :=
  let initial := Config.initial cfg in
  let t0 := fst (Config.threshold cfg) in
  let t1 := snd (Config.threshold cfg) in
  let rubberband := Config.rubberband cfg in
  let _initial := GestureState._initial st in
  let _active := GestureState._active st in
  let intentional := GestureState._intentional st in
  let lastOffset := GestureState.lastOffset st in
  let prevMovement := GestureState.movement st in
  let i0 := fst intentional in
  let i1 := snd intentional in
  let _m0 := fst (getInternalMovement r values st) in
  let _m1 := snd (getInternalMovement r values st) in
  let i0 := if isFalse i0 then getIntentionalDisplacement _m0 t0 else i0 in
  let i1 := if isFalse i1 then getIntentionalDisplacement _m1 t1 else i1 in
  let intentionalityCheck := checkIntentionality r cfg (i0, i1) (_m0, _m1) st in
  let _i0 := fst (ic_intentional intentionalityCheck) in
  let _i1 := snd (ic_intentional intentionalityCheck) in
  let _blocked := fromMaybe false (ic_blocked intentionalityCheck) in
  let _movement := (_m0, _m1) in
  let _initial :=
    (if negb (isFalse _i0) && isFalse (fst intentional)
     then fst initial else fst _initial,
     snd _initial) in
  let _initial :=
    (fst _initial,
     if negb (isFalse _i1) && isFalse (snd intentional)
     then snd initial else snd _initial) in
  let st := GestureState.set__initial _initial st in
  if _blocked then
    (st,
     PartialGestureState.set_delta (0, 0)
       (PartialGestureState.set__movement _movement
          (checkPartial intentionalityCheck)))
  else
    let movement :=
      (match _i0 with Some i => _m0 - i | None => fst initial end,
       match _i1 with Some i => _m1 - i | None => snd initial end) in
    let offset := Math.addV movement lastOffset in
    let _rubberband := if _active then rubberband else (0, 0) in
    let movement := computeRubberband cfg (Math.addV movement _initial) _rubberband in
    (st,
     PartialGestureState.set_delta (Math.subV movement prevMovement)
       (PartialGestureState.set_offset (computeRubberband cfg offset _rubberband)
          (PartialGestureState.set_values values
             (PartialGestureState.set_movement movement
                (PartialGestureState.set__movement _movement
                   (PartialGestureState.set__initial _initial
                      (checkPartial intentionalityCheck))))))).

(** [this.getMovement(values)]: the controller with [_initial] written, and
    the partial state. *)
Definition getMovement (r : Recognizer) (values : Vector2) (c : Controller)
  : Controller * PartialGestureState.t :=
  let res := getMovementOn r (recognizerConfig r c) values (recognizerState r c) in
  (withState (stateKey r) (fst res) c, snd res).

(** [fireGestureHandler(forceFlag)]: the controller afterwards and the state
    handed to the handler, [None] for [null]. *)
Definition fireGestureHandler (r : Recognizer) (forceFlag : bool) (c : Controller)
  : Controller * option FullGestureState :=
  let st := recognizerState r c in
  if GestureState._blocked st then
    if negb (debounced r)
    then (clean r (withState (stateKey r) (GestureState.set__active false st) c),
          None)
    else (c, None)
  else
    let intentionalX := fst (GestureState._intentional st) in
    let intentionalY := snd (GestureState._intentional st) in
    if negb forceFlag && isFalse intentionalX && isFalse intentionalY
    then (c, None)
    else
      let _active := GestureState._active st in
      let active := GestureState.active st in
      let st := GestureState.set_active _active st in
      let st := GestureState.set_first (_active && negb active) st in
      let st := GestureState.set_last (active && negb _active) st in
      let c := withState (stateKey r) st c in
      let c := withShared (SharedGestureState.setIng (ingKey r) _active (shared c)) c in
      let full := mkFull (shared c) st (fst (mapStateValues r st))
                    (snd (mapStateValues r st)) in
      let newMemo := getKey (stateKey r) (handlers c) full in
      let c := withCall (stateKey r) full c in
      let st := recognizerState r c in
      let st := GestureState.set_memo
                  (match newMemo with
                   | Some m => Some m
                   | None => GestureState.memo st
                   end) st in
      let c := withState (stateKey r) st c in
      let c := if negb _active then clean r c else c in
      (c, Some full).

(** The generic payload common to all gestures. *)
Definition getGenericPayload (r : Recognizer) (event : PointerEvent)
  (isStartEvent : bool) (c : Controller) : PartialGestureState.t :=
  let st := recognizerState r c in
  PartialGestureState.set_previous (GestureState.values st)
    (PartialGestureState.set_elapsedTime
       (if isStartEvent then 0
        else ev_timeStamp event - GestureState.startTime st)
       (PartialGestureState.set_timeStamp (ev_timeStamp event)
          (PartialGestureState.set_event (Some event)
             PartialGestureState.empty))).

(** The reinitialized start state for the gesture. *)
Definition getStartGestureState (r : Recognizer) (values : Vector2)
  (event : PointerEvent) (c : Controller) : PartialGestureState.t :=
  let st := recognizerState r c in
  PartialGestureState.set_startTime (ev_timeStamp event)
    (PartialGestureState.set_lastOffset (GestureState.offset st)
       (PartialGestureState.set_offset (GestureState.offset st)
          (PartialGestureState.set_initial values
             (PartialGestureState.set_values values
                (PartialGestureState.set__active true
                   (PartialGestureState.ofState getInitialState)))))).

(** ** recognizers/CoordinatesRecognizer *)

(** Modelled from the spec: [CoordinatesRecognizer] is not among the
    sources.  The internal movement of a coordinates gesture is the current
    position minus the initial one; the kinematics are computed from the
    movement of the sample and from the time since the previous sample,
    unless the sample is blocked; the mapped values are [xy] and [vxvy]. *)
Definition coordinatesGetInternalMovement (values : Vector2) (st : GestureState.t)
  : Vector2 :=
  Math.subV values (GestureState.initial st).

Definition coordinatesMapStateValues (st : GestureState.t) : Vector2 * Vector2 :=
  (GestureState.values st, GestureState.velocities st).

Definition assignKinematics (k : Math.Kinematics) (p : PartialGestureState.t)
  : PartialGestureState.t :=
  PartialGestureState.set_direction (Math.k_direction k)
    (PartialGestureState.set_distance (Math.k_distance k)
       (PartialGestureState.set_velocity (Math.k_velocity k)
          (PartialGestureState.set_velocities (Math.k_velocities k) p))).

Definition getKinematics (r : Recognizer) (values : Vector2) (event : PointerEvent)
  (c : Controller) : Controller * PartialGestureState.t :=
  let res := getMovement r values c in
  let c := fst res in
  let p := snd res in
  if fromMaybe false (PartialGestureState._blocked p) then (c, p)
  else
    let dt := ev_timeStamp event - GestureState.timeStamp (recognizerState r c) in
    match Math.calculateAllKinematics
            (fromMaybe (0, 0) (PartialGestureState.movement p))
            (fromMaybe (0, 0) (PartialGestureState.delta p)) dt with
    | Some k => (c, assignKinematics k p)
    | None => (c, p)
    end.

(** ** recognizers/DragRecognizer *)

Definition TAP_DISTANCE_THRESHOLD : Q := 3.
Definition SWIPE_MAX_ELAPSED_TIME : Q := 220.

Definition dragListeners : list WindowListener :=
  [pointermove_onDragChange; pointerup_onDragEnd; pointercancel_onDragEnd].

Definition dragClean (c : Controller) : Controller :=
  let c := baseClean drag c in
  let c := withState drag
             (GestureState.set__delayedEvent false (getKey drag (state c))) c in
  removeWindowListeners drag c.

(** The drag recognizer, over the [checkIntentionality] it inherits. *)
Definition DragRecognizer (check : CheckIntentionality) : Recognizer :=
  mkRecognizer drag Dragging true coordinatesGetInternalMovement check
    coordinatesMapStateValues dragClean.

Section Drag.

Variable check : CheckIntentionality.

Let this : Recognizer := DragRecognizer check.

Definition dragShouldStart (c : Controller) : bool :=
  recognizerEnabled this c && negb (GestureState._active (recognizerState this c)).

Definition setListeners (c : Controller) : Controller :=
  addWindowListeners drag dragListeners (removeWindowListeners drag c).

(** [startDrag] hands [getMovement] a second argument the method does not
    take: the movement is computed on [this.state] as it is before the
    update. *)
Definition startDrag (event : PointerEvent) (c : Controller) : Controller :=
  let values := getPointerEventValues event in
  let c := updateSharedState (getGenericEventData event) c in
  let startState :=
    PartialGestureState.set__pointerId (Some (pointerId event))
      (PartialGestureState.spread
         (getStartGestureState this values event c)
         (getGenericPayload this event true c)) in
  let res := getMovement this values c in
  let c := fst res in
  let movementState := snd res in
  let c := updateGestureState this
             (PartialGestureState.set_cancel onCancelFn
                (PartialGestureState.spread startState movementState)) c in
  fst (fireGestureHandler this false c).

Definition onDragStart (event : PointerEvent) (c : Controller) : Controller :=
  if negb (dragShouldStart c) then c
  else
    let c := setListeners c in
    let c := withState drag
               (GestureState.set__pointerId (Some (pointerId event))
                  (recognizerState this c)) c in
    if gtb (Config.delay (recognizerConfig this c)) 0 then
      let c := withState drag
                 (GestureState.set__delayedEvent true (recognizerState this c)) c in
      setTimeout this (StartDrag event) c
    else startDrag event c.

Definition samePointer (event : PointerEvent) (st : GestureState.t) : bool :=
  match GestureState._pointerId st with
  | Some p => Z.eqb (pointerId event) p
  | None => false
  end.

Definition onDragEnd (event : PointerEvent) (c : Controller) : Controller :=
  if negb (samePointer event (recognizerState this c)) then c
  else
    let c := withState drag
               (GestureState.set__active false (recognizerState this c)) c in
    let c := updateSharedState
               (SharedGestureState.mkPartial (Some false) (Some 0%Z) (Some 0%nat)
                  None None None None) c in
    let st := recognizerState this c in
    let _isTap := GestureState._isTap st in
    let values := GestureState.values st in
    let vx := fst (GestureState.velocities st) in
    let vy := snd (GestureState.velocities st) in
    let mx := fst (GestureState.movement st) in
    let my := snd (GestureState.movement st) in
    let ix := fst (GestureState._intentional st) in
    let iy := snd (GestureState._intentional st) in
    let payload := getGenericPayload this event false c in
    let res := getMovement this values c in
    let c := fst res in
    let endState := PartialGestureState.spread payload (snd res) in
    let svx := fst (Config.swipeVelocity (recognizerConfig this c)) in
    let svy := snd (Config.swipeVelocity (recognizerConfig this c)) in
    let sx := fst (Config.swipeDistance (recognizerConfig this c)) in
    let sy := snd (Config.swipeDistance (recognizerConfig this c)) in
    let elapsedTime := fromMaybe 0 (PartialGestureState.elapsedTime endState) in
    let swipe :=
      if ltb elapsedTime SWIPE_MAX_ELAPSED_TIME then
        (if negb (isFalse ix) && gtb (abs vx) svx && gtb (abs mx) sx
         then sign vx else 0,
         if negb (isFalse iy) && gtb (abs vy) svy && gtb (abs my) sy
         then sign vy else 0)
      else (0, 0) in
    let c := updateGestureState this
               (PartialGestureState.set_swipe swipe
                  (PartialGestureState.set_tap _isTap endState)) c in
    fst (fireGestureHandler this
           (Config.filterTaps (recognizerConfig this c)
            && GestureState._isTap (recognizerState this c)) c).

Definition onDragChange (event : PointerEvent) (c : Controller) : Controller :=
  if GestureState.canceled (recognizerState this c) then c
  else if negb (samePointer event (recognizerState this c)) then c
  else if negb (GestureState._active (recognizerState this c)) then
    if GestureState._delayedEvent (recognizerState this c)
    then startDrag event (clearTimeout this c)
    else c
  else if negb (eventDown event) then onDragEnd event c
  else
    let c := updateSharedState (getGenericEventData event) c in
    let values := getPointerEventValues event in
    let res := getKinematics this values event c in
    let c := fst res in
    let kinematics := snd res in
    let genericPayload := getGenericPayload this event false c in
    let _isTap := GestureState._isTap (recognizerState this c) in
    let realDistance :=
      Math.calculateDistance
        (fromMaybe (0, 0) (PartialGestureState._movement kinematics)) in
    let _isTap :=
      if _isTap && surdGeb realDistance TAP_DISTANCE_THRESHOLD
      then false else _isTap in
    let c := updateGestureState this
               (PartialGestureState.set_cancel onCancelFn
                  (PartialGestureState.set__isTap _isTap
                     (PartialGestureState.spread genericPayload kinematics))) c in
    fst (fireGestureHandler this false c).

(** The browser runs the pending timer of handle [h]. *)
Definition runTimer (h : nat) (c : Controller) : Controller :=
  match find (fun t => Nat.eqb (fst t) h) (timers c) with
  | None => c
  | Some (_, StartDrag event) =>
      startDrag event
        (mkController (config_enabled c) (config c) (shared c) (state c)
           (handlers c) (timeouts c)
           (filter (fun t => negb (Nat.eqb (fst t) h)) (timers c))
           (nextTimer c) (windowListeners c) (calls c))
  end.

End Drag.

(** ** utils/config *)

Module Options.

Definition DEFAULT_DRAG_DELAY : Q := 180.
Definition DEFAULT_RUBBERBAND : Q := 0.15.
Definition DEFAULT_SWIPE_VELOCITY : Q := 0.5.
Definition DEFAULT_SWIPE_DISTANCE : Q := 60.

(** [number | Vector2]. *)
Inductive NumOrVec : Type :=
| Num (n : Q)
| Vec (v : Vector2).

(** Modelled from the spec: [ensureVector] of [utils/utils] is not among
    the sources.  A vector is kept, a number [n] stands for [(n, n)], an
    absent value takes the fallback. *)
Definition ensureVector (value : option NumOrVec) (fallback : Q) : Vector2 :=
  match value with
  | None => (fallback, fallback)
  | Some (Num n) => (n, n)
  | Some (Vec v) => v
  end.

(** [number | boolean | Vector2], and [number | boolean]. *)
Definition BoolOr (A : Type) : Type := (bool + A)%type.

Definition threshold (value : option NumOrVec) : Vector2 :=
  ensureVector (Some (fromMaybe (Num 0) value)) 0.

Definition rubberband (value : option (BoolOr NumOrVec)) : Vector2 :=
  match fromMaybe (inr (Num 0)) value with
  | inl true => ensureVector (Some (Num DEFAULT_RUBBERBAND)) 0
  | inl false => ensureVector (Some (Num 0)) 0
  | inr v => ensureVector (Some v) 0
  end.

Definition enabled (value : option bool) : bool := fromMaybe true value.

Definition initial (value : option NumOrVec) : Vector2 :=
  ensureVector (Some (fromMaybe (Num 0) value)) 0.

Definition lockDirection (value : option bool) : bool := fromMaybe false value.

(** The static object form of [bounds]. *)
Record BoundsObject : Type := mkBoundsObject {
  left : option Q;
  right : option Q;
  top : option Q;
  bottom : option Q
}.

Definition bounds (value : option BoundsObject) : Bounds :=
  let value := fromMaybe (mkBoundsObject None None None None) value in
  ((match left value with Some q => Fin q | None => NegInf end,
    match right value with Some q => Fin q | None => PosInf end),
   (match top value with Some q => Fin q | None => NegInf end,
    match bottom value with Some q => Fin q | None => PosInf end)).

(** The user's drag options, every key optional. *)
Record DragConfig : Type := mkDragConfig {
  o_enabled : option bool;
  o_threshold : option NumOrVec;
  o_rubberband : option (BoolOr NumOrVec);
  o_bounds : option BoundsObject;
  o_initial : option NumOrVec;
  o_lockDirection : option bool;
  o_axis : option Axis;
  o_delay : option (BoolOr Q);
  o_swipeVelocity : option NumOrVec;
  o_swipeDistance : option NumOrVec;
  o_filterTaps : option bool
}.

(** The drag [threshold] normalizer: the vector, and what it writes to
    [this.filterTaps]. *)
Definition dragThreshold (v : option NumOrVec) (config : DragConfig)
  : Vector2 * bool :=
  let filterTaps := fromMaybe false (o_filterTaps config) in
  let lockDirection := fromMaybe false (o_lockDirection config) in
  let A := ensureVector v
             (if filterTaps then 3
              else if lockDirection then 1
              else match o_axis config with Some _ => 1 | None => 0 end) in
  (A, filterTaps || gtb (fst A + snd A) 0).

Definition swipeVelocity (v : option NumOrVec) : Vector2 :=
  ensureVector (Some (fromMaybe (Num DEFAULT_SWIPE_VELOCITY) v)) 0.

Definition swipeDistance (v : option NumOrVec) : Vector2 :=
  ensureVector (Some (fromMaybe (Num DEFAULT_SWIPE_DISTANCE) v)) 0.

Definition delay (value : option (BoolOr Q)) : Q :=
  match fromMaybe (inr 0) value with
  | inl true => DEFAULT_DRAG_DELAY
  | inl false => 0
  | inr n => n
  end.

(** Modelled from the spec: [resolveWith] is not among the sources.  Each
    key of the result is its normalizer applied to the key of the input,
    independently of the others. *)
Definition getInternalDragOptions (config : DragConfig) : Config.t :=
  Config.mk
    (enabled (o_enabled config))
    (fst (dragThreshold (o_threshold config) config))
    (rubberband (o_rubberband config))
    (bounds (o_bounds config))
    (initial (o_initial config))
    (lockDirection (o_lockDirection config))
    (o_axis config)
    (delay (o_delay config))
    (swipeVelocity (o_swipeVelocity config))
    (swipeDistance (o_swipeDistance config))
    (snd (dragThreshold (o_threshold config) config)).

End Options.

(** ** Sample inputs *)

Module Sample.

Definition noBounds : Bounds := ((NegInf, PosInf), (NegInf, PosInf)).

(** The options resolved from an empty drag config. *)
Definition defaults : Config.t :=
  Options.getInternalDragOptions
    (Options.mkDragConfig None None None None None None None None None None None).

Definition silent : Handler := fun _ => None.

(** A controller right after construction, with drag options [cfg]. *)
Definition controller (cfg : Config.t) : Controller :=
  mkController true (mkPerKey cfg cfg) SharedGestureState.initial
    (mkPerKey getInitialState getInitialState) (mkPerKey silent silent)
    (mkPerKey None None) [] 0 (mkPerKey [] []) [].

(** A pointer event of pointer [id] at time [t] and position [(x, y)], with
    [b] buttons pressed. *)
Definition pointer (id : Z) (t x y : Q) (b : Z) : PointerEvent :=
  mkPointerEvent id t x y b 0 false false false false.

End Sample.

(** ** Views of [getMovement] *)

(** The intentionality handed to [checkIntentionality]: an axis still
    [false] is recomputed from the displacement [m], the other kept. *)
Definition intentionalStep (cfg : Config.t) (intentional : Intentional)
  (m : Vector2) : Intentional :=
  (if isFalse (fst intentional)
   then getIntentionalDisplacement (fst m) (fst (Config.threshold cfg))
   else fst intentional,
   if isFalse (snd intentional)
   then getIntentionalDisplacement (snd m) (snd (Config.threshold cfg))
   else snd intentional).

Definition movementCheck (r : Recognizer) (cfg : Config.t) (values : Vector2)
  (st : GestureState.t) : IntentionalityCheck :=
  checkIntentionality r cfg
    (intentionalStep cfg (GestureState._intentional st)
       (getInternalMovement r values st))
    (getInternalMovement r values st) st.

(** [_initial] after the in-place writes. *)
Definition nextInitial (cfg : Config.t) (checked : Intentional)
  (st : GestureState.t) : Vector2 :=
  (if negb (isFalse (fst checked)) && isFalse (fst (GestureState._intentional st))
   then fst (Config.initial cfg) else fst (GestureState._initial st),
   if negb (isFalse (snd checked)) && isFalse (snd (GestureState._intentional st))
   then snd (Config.initial cfg) else snd (GestureState._initial st)).

(** The movement of the sample before [_initial] is added and before the
    rubberband: the displacement past the threshold on an intentional axis,
    [initial] on the others. *)
Definition rawMovement (cfg : Config.t) (checked : Intentional) (m : Vector2)
  : Vector2 :=
  (match fst checked with Some i => fst m - i | None => fst (Config.initial cfg) end,
   match snd checked with Some i => snd m - i | None => snd (Config.initial cfg) end).

(** The rubberband factors of the sample. *)
Definition activeRubberband (cfg : Config.t) (st : GestureState.t) : Vector2 :=
  if GestureState._active st then Config.rubberband cfg else (0, 0).

(** The swipe of [onDragEnd], from the state [st] at release. *)
Definition swipeAtRelease (cfg : Config.t) (elapsedTime : Q) (st : GestureState.t)
  : Vector2 :=
  if ltb elapsedTime SWIPE_MAX_ELAPSED_TIME then
    (if negb (isFalse (fst (GestureState._intentional st)))
        && gtb (abs (fst (GestureState.velocities st))) (fst (Config.swipeVelocity cfg))
        && gtb (abs (fst (GestureState.movement st))) (fst (Config.swipeDistance cfg))
     then sign (fst (GestureState.velocities st)) else 0,
     if negb (isFalse (snd (GestureState._intentional st)))
        && gtb (abs (snd (GestureState.velocities st))) (snd (Config.swipeVelocity cfg))
        && gtb (abs (snd (GestureState.movement st))) (snd (Config.swipeDistance cfg))
     then sign (snd (GestureState.velocities st)) else 0)
  else (0, 0).

(** The swipe of one axis in the words of the specification. *)
Definition specSwipe (elapsedTime : Q) (intentional : option Q)
  (velocity movement swipeVelocity swipeDistance : Q) : Q :=
  if ltb elapsedTime 220
     && negb (isFalse intentional)
     && gtb (abs velocity) swipeVelocity
     && gtb (abs movement) swipeDistance
  then sign velocity
  else 0.

(** What [fireGestureHandler] may write in the state of a drag: [active],
    [first], [last], [memo], and [_delayedEvent] through [clean]. *)
Definition firingFrame (st st' : GestureState.t) : Prop :=
  exists a f l m d,
    (d = GestureState._delayedEvent st \/ d = false)
    /\ st' = GestureState.set__delayedEvent d
               (GestureState.set_memo m
                  (GestureState.set_last l
                     (GestureState.set_first f (GestureState.set_active a st)))).

(** The state a firing frame hands to the handler. *)
Definition firedState (st : GestureState.t) : GestureState.t :=
  GestureState.set_last (GestureState.active st && negb (GestureState._active st))
    (GestureState.set_first (GestureState._active st && negb (GestureState.active st))
       (GestureState.set_active (GestureState._active st) st)).

(** The test that lets a frame fire. *)
Definition fires (forceFlag : bool) (st : GestureState.t) : bool :=
  negb (GestureState._blocked st)
  && negb (negb forceFlag
           && isFalse (fst (GestureState._intentional st))
           && isFalse (snd (GestureState._intentional st))).

(** [getGenericPayload] and [getStartGestureState] as functions of the
    state they read. *)
Definition genericPayloadOn (event : PointerEvent) (isStartEvent : bool)
  (st : GestureState.t) : PartialGestureState.t :=
  PartialGestureState.set_previous (GestureState.values st)
    (PartialGestureState.set_elapsedTime
       (if isStartEvent then 0
        else ev_timeStamp event - GestureState.startTime st)
       (PartialGestureState.set_timeStamp (ev_timeStamp event)
          (PartialGestureState.set_event (Some event)
             PartialGestureState.empty))).

Definition startGestureStateOn (values : Vector2) (event : PointerEvent)
  (st : GestureState.t) : PartialGestureState.t :=
  PartialGestureState.set_startTime (ev_timeStamp event)
    (PartialGestureState.set_lastOffset (GestureState.offset st)
       (PartialGestureState.set_offset (GestureState.offset st)
          (PartialGestureState.set_initial values
             (PartialGestureState.set_values values
                (PartialGestureState.set__active true
                   (PartialGestureState.ofState getInitialState)))))).

(** The partial state [onDragEnd] assigns, from the state [st] at release
    (with [_active] already false). *)
Definition endStateOn (check : CheckIntentionality) (cfg : Config.t)
  (event : PointerEvent) (st : GestureState.t) : PartialGestureState.t :=
  PartialGestureState.spread (genericPayloadOn event false st)
    (snd (getMovementOn (DragRecognizer check) cfg (GestureState.values st) st)).

Definition releaseUpdate (check : CheckIntentionality) (cfg : Config.t)
  (event : PointerEvent) (st : GestureState.t) : PartialGestureState.t :=
  PartialGestureState.set_swipe
    (swipeAtRelease cfg
       (fromMaybe 0 (PartialGestureState.elapsedTime (endStateOn check cfg event st)))
       st)
    (PartialGestureState.set_tap (GestureState._isTap st)
       (endStateOn check cfg event st)).

(** The drag state [onDragEnd] hands to [fireGestureHandler]. *)
Definition releasedState (check : CheckIntentionality) (cfg : Config.t)
  (event : PointerEvent) (st0 : GestureState.t) : GestureState.t :=
  let st := GestureState.set__active false st0 in
  assign
    (fst (getMovementOn (DragRecognizer check) cfg (GestureState.values st) st))
    (releaseUpdate check cfg event st).

(** [v[axis]] for a pair indexed by axis. *)
Definition axisOf {A : Type} (a : Axis) (p : A * A) : A :=
  match a with
  | AxisX => fst p
  | AxisY => snd p
  end.

(** The four conditions of a swipe on one axis, in the words of the
    specification. *)
Definition swipeConditions (elapsedTime : Q) (intentional : option Q)
  (velocity movement swipeVelocity swipeDistance : Q) : bool :=
  ltb elapsedTime 220
  && negb (isFalse intentional)
  && gtb (abs velocity) swipeVelocity
  && gtb (abs movement) swipeDistance.

(** A drag whose last sample before the release repeats the position of
    the one before, under a negative [swipeVelocity]. *)
Module SlowSwipe.

Definition options : Config.t :=
  Options.getInternalDragOptions
    (Options.mkDragConfig None None None None None None None None
       (Some (Options.Num (-(1)))) None None).

Definition beforeRelease : Controller :=
  onDragChange baseCheckIntentionality (Sample.pointer 1 20 100 0 1)
    (onDragChange baseCheckIntentionality (Sample.pointer 1 10 100 0 1)
       (onDragStart baseCheckIntentionality (Sample.pointer 1 0 0 0 1)
          (Sample.controller options))).

Definition release : PointerEvent := Sample.pointer 1 30 100 0 0.

End SlowSwipe.

(** A fast drag to the right under the default options. *)
Module FastSwipe.

Definition beforeRelease : Controller :=
  onDragChange baseCheckIntentionality (Sample.pointer 1 100 80 5 1)
    (onDragStart baseCheckIntentionality (Sample.pointer 1 0 0 0 1)
       (Sample.controller Sample.defaults)).

Definition release : PointerEvent := Sample.pointer 1 100 80 5 0.

End FastSwipe.

(** What [onDragEnd] and [onCancel] write to the shared state. *)
Definition releasePartial : SharedGestureState.partial :=
  SharedGestureState.mkPartial (Some false) (Some 0%Z) (Some 0%nat)
    None None None None.

(** A press and release in place under [filterTaps]. *)
Module TapSession.

Definition options : Config.t :=
  Options.getInternalDragOptions
    (Options.mkDragConfig None None None None None None None None None None
       (Some true)).

Definition pressed : Controller :=
  onDragStart baseCheckIntentionality (Sample.pointer 1 0 0 0 1)
    (Sample.controller options).

Definition release : PointerEvent := Sample.pointer 1 50 0 0 0.

End TapSession.

(** The partial state [getKinematics] returns, from the state it reads. *)
Definition kinematicsOn (r : Recognizer) (cfg : Config.t) (values : Vector2)
  (event : PointerEvent) (st : GestureState.t) : PartialGestureState.t :=
  let p := snd (getMovementOn r cfg values st) in
  if fromMaybe false (PartialGestureState._blocked p) then p
  else
    match Math.calculateAllKinematics
            (fromMaybe (0, 0) (PartialGestureState.movement p))
            (fromMaybe (0, 0) (PartialGestureState.delta p))
            (ev_timeStamp event
             - GestureState.timeStamp (fst (getMovementOn r cfg values st))) with
    | Some k => assignKinematics k p
    | None => p
    end.

(** The tap flag after a sample at the true displacement [m]. *)
Definition nextIsTap (_isTap : bool) (m : Vector2) : bool :=
  if _isTap && surdGeb (Math.calculateDistance m) TAP_DISTANCE_THRESHOLD
  then false else _isTap.

(** The drag state [onDragChange] hands to [fireGestureHandler] for a
    tracked sample. *)
Definition changedState (check : CheckIntentionality) (cfg : Config.t)
  (event : PointerEvent) (st : GestureState.t) : GestureState.t :=
  let this := DragRecognizer check in
  let values := getPointerEventValues event in
  let st1 := fst (getMovementOn this cfg values st) in
  let kinematics := kinematicsOn this cfg values event st in
  assign st1
    (PartialGestureState.set_cancel onCancelFn
       (PartialGestureState.set__isTap
          (nextIsTap (GestureState._isTap st1)
             (fromMaybe (0, 0) (PartialGestureState._movement kinematics)))
          (PartialGestureState.spread (genericPayloadOn event false st1)
             kinematics))).

(** The drag state [startDrag] hands to [fireGestureHandler]. *)
Definition startedState (check : CheckIntentionality) (cfg : Config.t)
  (event : PointerEvent) (st : GestureState.t) : GestureState.t :=
  let this := DragRecognizer check in
  let values := getPointerEventValues event in
  assign (fst (getMovementOn this cfg values st))
    (PartialGestureState.set_cancel onCancelFn
       (PartialGestureState.spread
          (PartialGestureState.set__pointerId (Some (pointerId event))
             (PartialGestureState.spread
                (startGestureStateOn values event st)
                (genericPayloadOn event true st)))
          (snd (getMovementOn this cfg values st)))).

(** ** Sessions *)

(** The pointer-move samples of a session, in order. *)
Definition dragMoves (check : CheckIntentionality) (moves : list PointerEvent)
  (c : Controller) : Controller :=
  fold_left (fun c e => onDragChange check e c) moves c.

(** One drag session: pointer down, the pointer moves, pointer up. *)
Definition dragSession (check : CheckIntentionality) (down : PointerEvent)
  (moves : list PointerEvent) (up : PointerEvent) (c : Controller) : Controller :=
  onDragEnd check up (dragMoves check moves (onDragStart check down c)).

(** A state that follows pointer [id] from the position [p0]. *)
Definition tracking (id : Z) (p0 : Vector2) (st : GestureState.t) : Prop :=
  GestureState._pointerId st = Some id
  /\ GestureState.initial st = p0
  /\ GestureState.canceled st = false
  /\ GestureState._delayedEvent st = false.

(** The true distance from [p0] to the sample reaches the tap threshold. *)
Definition tapDistanceReached (p0 : Vector2) (e : PointerEvent) : bool :=
  surdGeb (Math.calculateDistance (Math.subV (getPointerEventValues e) p0))
    TAP_DISTANCE_THRESHOLD.

(** The true distance from [p0] to the sample exceeds the tap threshold. *)
Definition tapDistanceExceeded (p0 : Vector2) (e : PointerEvent) : bool :=
  surdGtb (Math.calculateDistance (Math.subV (getPointerEventValues e) p0))
    TAP_DISTANCE_THRESHOLD.

(** A press, one sample exactly 3 px away, and the release. *)
Module EdgeTap.

Definition down : PointerEvent := Sample.pointer 1 0 10 10 1.
Definition moves : list PointerEvent := [Sample.pointer 1 300 13 10 1].
Definition up : PointerEvent := Sample.pointer 1 400 13 10 0.

Definition ended : Controller :=
  dragSession baseCheckIntentionality down moves up
    (Sample.controller Sample.defaults).

End EdgeTap.

(** What every step of a session keeps: the options, the pointer followed,
    the start position, [canceled], a lowered [_delayedEvent], and
    [lastOffset]. *)
Definition keeps (check : CheckIntentionality) (c c' : Controller) : Prop :=
  let rs := recognizerState (DragRecognizer check) in
  let rc := recognizerConfig (DragRecognizer check) in
  rc c' = rc c
  /\ config_enabled c' = config_enabled c
  /\ GestureState._pointerId (rs c') = GestureState._pointerId (rs c)
  /\ GestureState.initial (rs c') = GestureState.initial (rs c)
  /\ GestureState.canceled (rs c') = GestureState.canceled (rs c)
  /\ (GestureState._delayedEvent (rs c) = false ->
      GestureState._delayedEvent (rs c') = false)
  /\ GestureState.lastOffset (rs c') = GestureState.lastOffset (rs c).

(** A press, one sample 1 px away, and the release. *)
Module NearTap.

Definition down : PointerEvent := Sample.pointer 1 0 10 10 1.
Definition moves : list PointerEvent := [Sample.pointer 1 300 11 10 1].
Definition up : PointerEvent := Sample.pointer 1 400 11 10 0.

End NearTap.

(** ** Samples of the recognizer core *)

(** One sample: [getMovement(values)], then the update of the state with
    what it returns. *)
Definition sample (r : Recognizer) (cfg : Config.t) (values : Vector2)
  (st : GestureState.t) : GestureState.t :=
  assign (fst (getMovementOn r cfg values st))
    (snd (getMovementOn r cfg values st)).

(** The successive samples of a session. *)
Definition samples (r : Recognizer) (cfg : Config.t) (vs : list Vector2)
  (st : GestureState.t) : GestureState.t :=
  fold_left (fun st v => sample r cfg v st) vs st.

(** A recognizer of the base class, with the drag's internal movement. *)
Definition baseRecognizer : Recognizer :=
  mkRecognizer drag Dragging true coordinatesGetInternalMovement
    baseCheckIntentionality coordinatesMapStateValues (baseClean drag).

(** Options with a threshold of 5 px on both axes. *)
Definition thresholdOptions : Config.t :=
  Options.getInternalDragOptions
    (Options.mkDragConfig None (Some (Options.Num 5)) None None None None None
       None None None None).

(** ** Timers *)

(** The pending timer of handle [h], if the browser still holds one. *)
Definition pendingTimer (h : nat) (c : Controller) : option (nat * TimerCallback) :=
  find (fun t => Nat.eqb (fst t) h) (timers c).

(** A press under [delay: true], and a move 50 ms later. *)
Module DelayedDrag.

Definition options : Config.t :=
  Options.getInternalDragOptions
    (Options.mkDragConfig None None None None None None None (Some (inl true))
       None None None).

Definition down : PointerEvent := Sample.pointer 1 0 10 10 1.
Definition move : PointerEvent := Sample.pointer 1 50 14 10 1.
Definition up : PointerEvent := Sample.pointer 1 50 10 10 0.

Definition pending : Controller :=
  onDragStart baseCheckIntentionality down (Sample.controller options).

End DelayedDrag.

(** ** Sequences of sessions *)

Record Session : Type := mkSession {
  s_down : PointerEvent;
  s_moves : list PointerEvent;
  s_up : PointerEvent
}.

Definition runSession (check : CheckIntentionality) (s : Session) (c : Controller)
  : Controller :=
  dragSession check (s_down s) (s_moves s) (s_up s) c.

Definition runSessions (check : CheckIntentionality) (ss : list Session)
  (c : Controller) : Controller :=
  fold_left (fun c s => runSession check s c) ss c.

(** The movement of the last sample of the drag state, before [_initial]
    is added and before the rubberband. *)
Definition finalMovement (check : CheckIntentionality) (c : Controller) : Vector2 :=
  let st := recognizerState (DragRecognizer check) c in
  rawMovement (recognizerConfig (DragRecognizer check) c)
    (GestureState._intentional st) (GestureState._movement st).

(** The final movement of each session of a sequence. *)
Fixpoint sessionMovements (check : CheckIntentionality) (ss : list Session)
  (c : Controller) : list Vector2 :=
  match ss with
  | [] => []
  | s :: rest =>
      finalMovement check (runSession check s c)
      :: sessionMovements check rest (runSession check s c)
  end.

(** The offsets accumulated from [offset0] over the movements of the
    sessions, each sum brought back into the bounds. *)
Definition accumulate (cfg : Config.t) (movements : list Vector2)
  (offset0 : Vector2) : Vector2 :=
  fold_left (fun acc m => computeRubberband cfg (Math.addV m acc) (0, 0))
    movements offset0.

(** A [checkIntentionality] that never blocks. *)
Definition neverBlocks (check : CheckIntentionality) : Prop :=
  forall cfg i m s, fromMaybe false (ic_blocked (check cfg i m s)) = false.

(** Two drags on a track bounded to [0, 10] on the x axis: 20 px to the
    right, then 5 px to the left. *)
Module BoundedTrack.

Definition options : Config.t :=
  Options.getInternalDragOptions
    (Options.mkDragConfig None None None
       (Some (Options.mkBoundsObject (Some 0) (Some 10) None None))
       None None None None None None None).

Definition first : Session :=
  mkSession (Sample.pointer 1 0 0 0 1) [Sample.pointer 1 300 20 0 1]
    (Sample.pointer 1 400 20 0 0).

Definition second : Session :=
  mkSession (Sample.pointer 2 1000 50 0 1) [Sample.pointer 2 1300 45 0 1]
    (Sample.pointer 2 1400 45 0 0).

Definition afterFirst : Controller :=
  runSession baseCheckIntentionality first (Sample.controller options).

Definition afterSecond : Controller :=
  runSession baseCheckIntentionality second afterFirst.

End BoundedTrack.

(** ** Views used by the further properties *)

(** The square of the value of a surd, and the squared norm of a vector. *)
Definition surdSq (s : Surd) : Q := coef s * coef s * rad s.

Definition normSq (v : Vector2) : Q := fst v * fst v + snd v * snd v.

(** Equality of vectors as numbers. *)
Definition veq (v w : Vector2) : Prop := fst v == fst w /\ snd v == snd w.

(** The [delta] reported by each of the successive samples. *)
Fixpoint deltas (r : Recognizer) (cfg : Config.t) (vs : list Vector2)
  (st : GestureState.t) : list Vector2 :=
  match vs with
  | [] => []
  | v :: rest =>
      GestureState.delta (sample r cfg v st)
      :: deltas r cfg rest (sample r cfg v st)
  end.

Definition sumV (l : list Vector2) : Vector2 :=
  fold_right Math.addV (0, 0) l.

(** The state a firing frame of the drag hands to the handler. *)
Definition handedState (check : CheckIntentionality) (c : Controller)
  : FullGestureState :=
  let st := recognizerState (DragRecognizer check) c in
  mkFull
    (SharedGestureState.setIng Dragging (GestureState._active st) (shared c))
    (firedState st)
    (GestureState.values (firedState st))
    (GestureState.velocities (firedState st)).

(** ** recognizers/DragRecognizer, continued *)

(** A callback handed to [requestAnimationFrame]. *)
Inductive FrameCallback : Type :=
| FlushFrame.

(** [onCancel]: the controller afterwards and the frame it requests. *)
Definition onCancel (check : CheckIntentionality) (c : Controller)
  : Controller * FrameCallback :=
  let this := DragRecognizer check in
  let c := updateGestureState this
             (PartialGestureState.set_cancel noop
                (PartialGestureState.set_canceled true
                   PartialGestureState.empty)) c in
  let c := withState drag
             (GestureState.set__active false (recognizerState this c)) c in
  let c := updateSharedState
             (SharedGestureState.mkPartial (Some false) (Some 0%Z) (Some 0%nat)
                None None None None) c in
  (c, FlushFrame).

(** The browser runs a requested animation frame. *)
Definition runFrame (check : CheckIntentionality) (cb : FrameCallback)
  (c : Controller) : Controller :=
  match cb with
  | FlushFrame => fst (fireGestureHandler (DragRecognizer check) false c)
  end.

(** The pointer events bound to the drag: [onPointerDown] on the target,
    and the window listeners of [setListeners]. *)
Inductive DragEvent : Type :=
| PointerDown (e : PointerEvent)
| PointerMove (e : PointerEvent)
| PointerUp (e : PointerEvent)
| PointerCancel (e : PointerEvent).

Definition dispatch (check : CheckIntentionality) (ev : DragEvent) (c : Controller)
  : Controller :=
  match ev with
  | PointerDown e => onDragStart check e c
  | PointerMove e => onDragChange check e c
  | PointerUp e => onDragEnd check e c
  | PointerCancel e => onDragEnd check e c
  end.

Definition dispatchAll (check : CheckIntentionality) (evs : list DragEvent)
  (c : Controller) : Controller :=
  fold_left (fun c ev => dispatch check ev c) evs c.

(** An event of a pointer other than [id], or a pointer down. *)
Definition foreignTo (id : Z) (ev : DragEvent) : Prop :=
  match ev with
  | PointerDown _ => True
  | PointerMove e | PointerUp e | PointerCancel e => pointerId e <> id
  end.

(** The drag state after [onCancel]. *)
Definition canceledState (st : GestureState.t) : GestureState.t :=
  GestureState.set__active false
    (GestureState.set_cancel noop (GestureState.set_canceled true st)).

(** A [checkIntentionality] that locks the gesture to the x axis: a
    displacement dominated by the y axis is blocked. *)
Definition lockToX : CheckIntentionality :=
  fun _ _intentional _movement _ =>
    if gtb (abs (snd _movement)) (abs (fst _movement))
    then mkCheck _intentional (Some true) (Some (Some AxisY))
    else mkCheck _intentional (Some false) (Some (Some AxisX)).

(** Events of a second pointer during a drag of pointer 1. *)
Module SecondPointer.

Definition events : list DragEvent :=
  [PointerDown (Sample.pointer 2 40 300 300 1);
   PointerMove (Sample.pointer 2 50 310 300 1);
   PointerUp (Sample.pointer 2 60 310 300 0);
   PointerDown (Sample.pointer 1 70 0 0 1)].

End SecondPointer.

(** A move that arrives with no button pressed, then a late move. *)
Module LostPointer.

Definition lost : PointerEvent := Sample.pointer 1 200 80 5 0.
Definition late : list PointerEvent := [Sample.pointer 1 210 90 5 1].

End LostPointer.

(** Under [delay: true] and a threshold of 100 px: a first session that
    moves 10 px and never fires, then a second press. *)
Module LeakedTimer.

Definition options : Config.t :=
  Options.getInternalDragOptions
    (Options.mkDragConfig None (Some (Options.Num 100)) None None None None None
       (Some (inl true)) None None None).

Definition afterFirst : Controller :=
  onDragEnd baseCheckIntentionality (Sample.pointer 1 250 10 0 0)
    (onDragChange baseCheckIntentionality (Sample.pointer 1 200 10 0 1)
       (runTimer baseCheckIntentionality 0
          (onDragStart baseCheckIntentionality (Sample.pointer 1 0 0 0 1)
             (Sample.controller options)))).

Definition down : PointerEvent := Sample.pointer 1 1000 0 0 1.
Definition up : PointerEvent := Sample.pointer 1 1050 0 0 0.

End LeakedTimer.

(** Under a threshold of 5 px: a first session 80 px to the right, then a
    second press elsewhere. *)
Module SecondSession.

Definition ended : Controller :=
  dragSession baseCheckIntentionality (Sample.pointer 1 0 0 0 1)
    [Sample.pointer 1 100 80 2 1] (Sample.pointer 1 110 80 2 0)
    (Sample.controller thresholdOptions).

Definition down : PointerEvent := Sample.pointer 1 500 200 200 1.

End SecondSession.

(** Under a threshold of 5 px: a first session 80 px to the left, then a
    second press 200 px to the right of the first, a move of 2 px and a
    move of 60 px. *)
Module CarriedOver.

Definition ended : Controller :=
  dragSession baseCheckIntentionality (Sample.pointer 1 0 0 0 1)
    [Sample.pointer 1 100 (-(80)) 0 1] (Sample.pointer 1 110 (-(80)) 0 0)
    (Sample.controller thresholdOptions).

Definition down : PointerEvent := Sample.pointer 1 500 200 0 1.
Definition move : PointerEvent := Sample.pointer 1 510 202 0 1.

Definition started : Controller :=
  onDragStart baseCheckIntentionality down ended.

Definition far : PointerEvent := Sample.pointer 1 520 260 0 1.

Definition moved : Controller :=
  onDragChange baseCheckIntentionality move started.

Definition movedFar : Controller :=
  onDragChange baseCheckIntentionality far moved.

End CarriedOver.

(** Under [delay: true]: a session started by a move, canceled by the
    handler's [cancel], flushed and released; then a new press and a move
    of the same pointer. *)
Module CanceledPress.

Definition ended : Controller :=
  let c := onDragChange baseCheckIntentionality DelayedDrag.move
             DelayedDrag.pending in
  let c := runFrame baseCheckIntentionality
             (snd (onCancel baseCheckIntentionality c))
             (fst (onCancel baseCheckIntentionality c)) in
  onDragEnd baseCheckIntentionality (Sample.pointer 1 90 14 10 0) c.

Definition down : PointerEvent := Sample.pointer 1 1000 10 10 1.
Definition move : PointerEvent := Sample.pointer 1 1050 30 10 1.

End CanceledPress.

(** * Properties *)

(** ** Numbers *)

Lemma isZero_true (x : Q) : x == 0 -> isZero x = true.
Proof. intro H. unfold isZero. now apply Qeq_bool_iff. Qed.

Lemma truthy_false (x : Q) : x == 0 -> truthy x = false.
Proof. intro H. unfold truthy. now rewrite isZero_true. Qed.

Lemma truthy_isZero (x : Q) : truthy x = true -> isZero x = false.
Proof. unfold truthy. now destruct (isZero x). Qed.

Lemma divQ_total (a b : Q) : truthy b = true -> divQ a b = Some (a / b).
Proof. intro H. unfold divQ. now rewrite (truthy_isZero _ H). Qed.

Lemma divQSurd_total (v : Q) (len : Surd) :
  surdTruthy len = true -> divQSurd v len <> None.
Proof. intro H. unfold divQSurd. now rewrite H. Qed.

(** ** Kinematics *)

Lemma calculateVelocities_total (delta : Vector2) (delta_t : Q) :
  Math.calculateVelocities delta delta_t <> None.
Proof.
  unfold Math.calculateVelocities.
  destruct (truthy delta_t) eqn:T; [| discriminate].
  now rewrite !divQ_total.
Qed.

Lemma calculateVelocity_total (delta : Vector2) (delta_t : Q) (len : Surd) :
  Math.calculateVelocity delta delta_t len <> None.
Proof.
  unfold Math.calculateVelocity.
  destruct (truthy delta_t) eqn:T; [| discriminate].
  unfold divSurdQ. now rewrite (truthy_isZero _ T).
Qed.

Lemma calculateDirection_total (delta : Vector2) (len : Surd) :
  Math.calculateDirection delta len <> None.
Proof.
  unfold Math.calculateDirection.
  set (l := if surdTruthy len then len
            else if surdTruthy (hypot delta) then hypot delta else ofQ 1).
  assert (L : surdTruthy l = true).
  { subst l. destruct (surdTruthy len) eqn:A; [exact A |].
    destruct (surdTruthy (hypot delta)) eqn:B; [exact B | reflexivity]. }
  unfold divQSurd. now rewrite L.
Qed.

Lemma calculateAllKinematics_total (movement delta : Vector2) (delta_t : Q) :
  Math.calculateAllKinematics movement delta delta_t <> None.
Proof.
  unfold Math.calculateAllKinematics.
  pose proof (calculateVelocities_total delta delta_t) as A.
  pose proof (calculateVelocity_total delta delta_t (hypot delta)) as B.
  pose proof (calculateDirection_total delta (hypot delta)) as C.
  destruct (Math.calculateVelocities delta delta_t); [| contradiction].
  destruct (Math.calculateVelocity delta delta_t (hypot delta)); [| contradiction].
  destruct (Math.calculateDirection delta (hypot delta)); [| contradiction].
  discriminate.
Qed.

(** C7: whenever the time since the previous sample is zero, the velocity
    is 0 and the velocities are (0, 0); and for every input, none of the
    kinematics functions reaches a division by zero. *)
Theorem velocity_zero_when_delta_t_zero
  (movement delta : Vector2) (delta_t : Q) (len : Surd) :
  (delta_t == 0 ->
     Math.calculateVelocity delta delta_t len = Some (ofQ 0)
     /\ Math.calculateVelocities delta delta_t = Some (0, 0)
     /\ exists d,
          Math.calculateAllKinematics movement delta delta_t
          = Some (Math.mkKinematics (0, 0) (ofQ 0)
                    (Math.calculateDistance movement) d))
  /\ Math.calculateVelocity delta delta_t len <> None
  /\ Math.calculateVelocities delta delta_t <> None
  /\ Math.calculateDirection delta len <> None
  /\ Math.calculateAllKinematics movement delta delta_t <> None.
Proof.
  split.
  - intro Z0.
    assert (V : Math.calculateVelocity delta delta_t len = Some (ofQ 0)).
    { unfold Math.calculateVelocity. now rewrite (truthy_false _ Z0). }
    assert (VH : Math.calculateVelocity delta delta_t (hypot delta) = Some (ofQ 0)).
    { unfold Math.calculateVelocity. now rewrite (truthy_false _ Z0). }
    assert (VS : Math.calculateVelocities delta delta_t = Some (0, 0)).
    { unfold Math.calculateVelocities. now rewrite (truthy_false _ Z0). }
    repeat split; trivial.
    unfold Math.calculateAllKinematics. rewrite VS, VH.
    pose proof (calculateDirection_total delta (hypot delta)) as D.
    destruct (Math.calculateDirection delta (hypot delta)) as [d |];
      [| contradiction].
    now exists d.
  - repeat split.
    + apply calculateVelocity_total.
    + apply calculateVelocities_total.
    + apply calculateDirection_total.
    + apply calculateAllKinematics_total.
Qed.

Lemma velocity_zero_when_delta_t_zero_witness :
  Math.calculateVelocity (3, 4) (0 # 7) (hypot (3, 4)) = Some (ofQ 0)
  /\ Math.calculateVelocities (3, 4) (0 # 7) = Some (0, 0).
Proof.
  destruct (velocity_zero_when_delta_t_zero (3, 4) (3, 4) (0 # 7) (hypot (3, 4)))
    as [H _].
  destruct (H ltac:(reflexivity)) as [A [B _]].
  split; [exact A | exact B].
Defined.

(** ** Stale pointers *)

Lemma samePointer_false (event : PointerEvent) (st : GestureState.t) :
  GestureState._pointerId st <> Some (pointerId event) ->
  samePointer event st = false.
Proof.
  unfold samePointer. intro H.
  destruct (GestureState._pointerId st) as [p |]; [| reflexivity].
  destruct (Z.eqb_spec (pointerId event) p) as [E | E]; [| reflexivity].
  exfalso. apply H. now rewrite E.
Qed.

(** C8: a drag-change or drag-end sample whose pointer identifier differs
    from the recorded [_pointerId] is ignored: the controller is returned
    as it was, so the handler is not invoked and neither the drag state nor
    the shared state changes. *)
Theorem stale_pointer_ignored (check : CheckIntentionality)
  (event : PointerEvent) (c : Controller) :
  GestureState._pointerId (getKey drag (state c)) <> Some (pointerId event) ->
  (onDragChange check event c = c /\ onDragEnd check event c = c)
  /\ calls (onDragChange check event c) = calls c
  /\ calls (onDragEnd check event c) = calls c
  /\ state (onDragChange check event c) = state c
  /\ state (onDragEnd check event c) = state c
  /\ shared (onDragChange check event c) = shared c
  /\ shared (onDragEnd check event c) = shared c.
Proof.
  intro H. apply samePointer_false in H.
  assert (A : onDragChange check event c = c).
  { unfold onDragChange, recognizerState. cbn [stateKey DragRecognizer].
    rewrite H. now destruct (GestureState.canceled (getKey drag (state c))). }
  assert (B : onDragEnd check event c = c).
  { unfold onDragEnd, recognizerState. cbn [stateKey DragRecognizer].
    now rewrite H. }
  rewrite A, B. repeat split.
Qed.

(** ** The firing contract *)

(** C10: with [_blocked] false, both components of [_intentional] false and
    no force flag, [fireGestureHandler] returns null and the controller is
    as it was: the handler is not invoked, and [active], [first], [last],
    [memo] and the shared is-active flag keep their values. *)
Theorem fire_without_intention_is_noop (r : Recognizer) (c : Controller) :
  GestureState._blocked (recognizerState r c) = false ->
  GestureState._intentional (recognizerState r c) = (None, None) ->
  fireGestureHandler r false c = (c, None)
  /\ calls (fst (fireGestureHandler r false c)) = calls c
  /\ recognizerState r (fst (fireGestureHandler r false c)) = recognizerState r c
  /\ SharedGestureState.getIng (ingKey r) (shared (fst (fireGestureHandler r false c)))
     = SharedGestureState.getIng (ingKey r) (shared c).
Proof.
  intros B I.
  assert (E : fireGestureHandler r false c = (c, None)).
  { unfold fireGestureHandler. now rewrite B, I. }
  rewrite E. repeat split.
Qed.

(** ** The option normalizers *)

(** C9: the normalizers resolve the documented defaults, and the resolved
    drag options carry them for every partial input. *)
Theorem normalizers_defaults :
  Options.rubberband (Some (inl true)) = (0.15, 0.15)
  /\ Options.rubberband (Some (inl false)) = (0, 0)
  /\ (forall n, Options.rubberband (Some (inr (Options.Num n))) = (n, n))
  /\ (forall v, Options.rubberband (Some (inr (Options.Vec v))) = v)
  /\ Options.delay (Some (inl true)) = 180
  /\ Options.delay (Some (inl false)) = 0
  /\ (forall n, Options.delay (Some (inr n)) = n)
  /\ Options.swipeVelocity None = (0.5, 0.5)
  /\ Options.swipeDistance None = (60, 60)
  /\ (forall config,
        Config.rubberband (Options.getInternalDragOptions config)
        = Options.rubberband (Options.o_rubberband config)
        /\ Config.delay (Options.getInternalDragOptions config)
           = Options.delay (Options.o_delay config)
        /\ Config.swipeVelocity (Options.getInternalDragOptions config)
           = Options.swipeVelocity (Options.o_swipeVelocity config)
        /\ Config.swipeDistance (Options.getInternalDragOptions config)
           = Options.swipeDistance (Options.o_swipeDistance config)).
Proof.
  repeat split.
Qed.

Lemma stale_pointer_ignored_witness :
  let c := onDragStart baseCheckIntentionality (Sample.pointer 1 0 0 0 1)
             (Sample.controller Sample.defaults) in
  onDragChange baseCheckIntentionality (Sample.pointer 2 10 5 5 1) c = c
  /\ onDragEnd baseCheckIntentionality (Sample.pointer 2 10 5 5 0) c = c.
Proof.
  cbv zeta. split.
  - apply (stale_pointer_ignored baseCheckIntentionality (Sample.pointer 2 10 5 5 1)).
    vm_compute. discriminate.
  - apply (stale_pointer_ignored baseCheckIntentionality (Sample.pointer 2 10 5 5 0)).
    vm_compute. discriminate.
Defined.

Lemma fire_without_intention_is_noop_witness :
  fireGestureHandler (DragRecognizer baseCheckIntentionality) false
    (Sample.controller Sample.defaults)
  = (Sample.controller Sample.defaults, None).
Proof.
  apply (fire_without_intention_is_noop (DragRecognizer baseCheckIntentionality)
           (Sample.controller Sample.defaults)); reflexivity.
Defined.

(** ** The record operations *)

(** Reduction of the record operations on gesture states, and of nothing
    else. *)
Ltac state_simpl :=
  cbv beta iota delta
  [
    GestureState._active GestureState.set__active PartialGestureState._active
    PartialGestureState.set__active GestureState._blocked
    GestureState.set__blocked PartialGestureState._blocked
    PartialGestureState.set__blocked GestureState._intentional
    GestureState.set__intentional PartialGestureState._intentional
    PartialGestureState.set__intentional GestureState._movement
    GestureState.set__movement PartialGestureState._movement
    PartialGestureState.set__movement GestureState._initial
    GestureState.set__initial PartialGestureState._initial
    PartialGestureState.set__initial GestureState.event GestureState.set_event
    PartialGestureState.event PartialGestureState.set_event
    GestureState.values GestureState.set_values PartialGestureState.values
    PartialGestureState.set_values GestureState.initial
    GestureState.set_initial PartialGestureState.initial
    PartialGestureState.set_initial GestureState.movement
    GestureState.set_movement PartialGestureState.movement
    PartialGestureState.set_movement GestureState.offset
    GestureState.set_offset PartialGestureState.offset
    PartialGestureState.set_offset GestureState.lastOffset
    GestureState.set_lastOffset PartialGestureState.lastOffset
    PartialGestureState.set_lastOffset GestureState.delta
    GestureState.set_delta PartialGestureState.delta
    PartialGestureState.set_delta GestureState.previous
    GestureState.set_previous PartialGestureState.previous
    PartialGestureState.set_previous GestureState.velocity
    GestureState.set_velocity PartialGestureState.velocity
    PartialGestureState.set_velocity GestureState.velocities
    GestureState.set_velocities PartialGestureState.velocities
    PartialGestureState.set_velocities GestureState.distance
    GestureState.set_distance PartialGestureState.distance
    PartialGestureState.set_distance GestureState.direction
    GestureState.set_direction PartialGestureState.direction
    PartialGestureState.set_direction GestureState.first
    GestureState.set_first PartialGestureState.first
    PartialGestureState.set_first GestureState.last GestureState.set_last
    PartialGestureState.last PartialGestureState.set_last GestureState.active
    GestureState.set_active PartialGestureState.active
    PartialGestureState.set_active GestureState.timeStamp
    GestureState.set_timeStamp PartialGestureState.timeStamp
    PartialGestureState.set_timeStamp GestureState.startTime
    GestureState.set_startTime PartialGestureState.startTime
    PartialGestureState.set_startTime GestureState.elapsedTime
    GestureState.set_elapsedTime PartialGestureState.elapsedTime
    PartialGestureState.set_elapsedTime GestureState.cancel
    GestureState.set_cancel PartialGestureState.cancel
    PartialGestureState.set_cancel GestureState.canceled
    GestureState.set_canceled PartialGestureState.canceled
    PartialGestureState.set_canceled GestureState.memo GestureState.set_memo
    PartialGestureState.memo PartialGestureState.set_memo GestureState.axis
    GestureState.set_axis PartialGestureState.axis
    PartialGestureState.set_axis GestureState._isTap GestureState.set__isTap
    PartialGestureState._isTap PartialGestureState.set__isTap
    GestureState._delayedEvent GestureState.set__delayedEvent
    PartialGestureState._delayedEvent PartialGestureState.set__delayedEvent
    GestureState._pointerId GestureState.set__pointerId
    PartialGestureState._pointerId PartialGestureState.set__pointerId
    GestureState.tap GestureState.set_tap PartialGestureState.tap
    PartialGestureState.set_tap GestureState.swipe GestureState.set_swipe
    PartialGestureState.swipe PartialGestureState.set_swipe
    PartialGestureState.empty PartialGestureState.orElse
    PartialGestureState.spread PartialGestureState.ofState assign fromMaybe
    getInitialState
  ].


Lemma firingFrame_refl (st : GestureState.t) : firingFrame st st.
Proof.
  exists (GestureState.active st), (GestureState.first st), (GestureState.last st),
    (GestureState.memo st), (GestureState._delayedEvent st).
  split; [now left | now destruct st].
Qed.

Section Lenses.

Variable r : Recognizer.

Lemma rs_withState (s : GestureState.t) (c : Controller) :
  recognizerState r (withState (stateKey r) s c) = s.
Proof. unfold recognizerState. now destruct (stateKey r). Qed.

Lemma rc_withState (k : StateKey) (s : GestureState.t) (c : Controller) :
  recognizerConfig r (withState k s c) = recognizerConfig r c.
Proof. reflexivity. Qed.

Lemma rs_withShared (sh : SharedGestureState.t) (c : Controller) :
  recognizerState r (withShared sh c) = recognizerState r c.
Proof. reflexivity. Qed.

Lemma rc_withShared (sh : SharedGestureState.t) (c : Controller) :
  recognizerConfig r (withShared sh c) = recognizerConfig r c.
Proof. reflexivity. Qed.

Lemma rs_withCall (k : StateKey) (f : FullGestureState) (c : Controller) :
  recognizerState r (withCall k f c) = recognizerState r c.
Proof. reflexivity. Qed.

Lemma rc_withCall (k : StateKey) (f : FullGestureState) (c : Controller) :
  recognizerConfig r (withCall k f c) = recognizerConfig r c.
Proof. reflexivity. Qed.

Lemma rs_updateSharedState (p : SharedGestureState.partial) (c : Controller) :
  recognizerState r (updateSharedState p c) = recognizerState r c.
Proof. reflexivity. Qed.

Lemma rc_updateSharedState (p : SharedGestureState.partial) (c : Controller) :
  recognizerConfig r (updateSharedState p c) = recognizerConfig r c.
Proof. reflexivity. Qed.

Lemma rs_updateGestureState (p : PartialGestureState.t) (c : Controller) :
  recognizerState r (updateGestureState r p c) = assign (recognizerState r c) p.
Proof. unfold updateGestureState. apply rs_withState. Qed.

Lemma rc_updateGestureState (p : PartialGestureState.t) (c : Controller) :
  recognizerConfig r (updateGestureState r p c) = recognizerConfig r c.
Proof. reflexivity. Qed.

Lemma rs_windowClearTimeout (k : StateKey) (c : Controller) :
  recognizerState r (windowClearTimeout k c) = recognizerState r c.
Proof. unfold windowClearTimeout. now destruct (getKey k (timeouts c)). Qed.

Lemma rc_windowClearTimeout (k : StateKey) (c : Controller) :
  recognizerConfig r (windowClearTimeout k c) = recognizerConfig r c.
Proof. unfold windowClearTimeout. now destruct (getKey k (timeouts c)). Qed.

Lemma rs_getMovement (v : Vector2) (c : Controller) :
  recognizerState r (fst (getMovement r v c))
  = fst (getMovementOn r (recognizerConfig r c) v (recognizerState r c)).
Proof. unfold getMovement. cbn [fst]. apply rs_withState. Qed.

Lemma rc_getMovement (v : Vector2) (c : Controller) :
  recognizerConfig r (fst (getMovement r v c)) = recognizerConfig r c.
Proof. reflexivity. Qed.

Lemma snd_getMovement (v : Vector2) (c : Controller) :
  snd (getMovement r v c)
  = snd (getMovementOn r (recognizerConfig r c) v (recognizerState r c)).
Proof. reflexivity. Qed.

End Lenses.


(** ** [getMovement] in one expression *)

Lemma getMovementOn_eq (r : Recognizer) (cfg : Config.t) (v : Vector2)
  (st : GestureState.t) :
  getMovementOn r cfg v st =
  (GestureState.set__initial
     (nextInitial cfg (ic_intentional (movementCheck r cfg v st)) st) st,
   if fromMaybe false (ic_blocked (movementCheck r cfg v st)) then
     PartialGestureState.set_delta (0, 0)
       (PartialGestureState.set__movement (getInternalMovement r v st)
          (checkPartial (movementCheck r cfg v st)))
   else
     PartialGestureState.set_delta
       (Math.subV
          (computeRubberband cfg
             (Math.addV
                (rawMovement cfg (ic_intentional (movementCheck r cfg v st))
                   (getInternalMovement r v st))
                (nextInitial cfg (ic_intentional (movementCheck r cfg v st)) st))
             (activeRubberband cfg st))
          (GestureState.movement st))
       (PartialGestureState.set_offset
          (computeRubberband cfg
             (Math.addV
                (rawMovement cfg (ic_intentional (movementCheck r cfg v st))
                   (getInternalMovement r v st))
                (GestureState.lastOffset st))
             (activeRubberband cfg st))
          (PartialGestureState.set_values v
             (PartialGestureState.set_movement
                (computeRubberband cfg
                   (Math.addV
                      (rawMovement cfg
                         (ic_intentional (movementCheck r cfg v st))
                         (getInternalMovement r v st))
                      (nextInitial cfg
                         (ic_intentional (movementCheck r cfg v st)) st))
                   (activeRubberband cfg st))
                (PartialGestureState.set__movement (getInternalMovement r v st)
                   (PartialGestureState.set__initial
                      (nextInitial cfg
                         (ic_intentional (movementCheck r cfg v st)) st)
                      (checkPartial (movementCheck r cfg v st)))))))).
Proof.
  unfold getMovementOn, movementCheck, nextInitial, rawMovement, intentionalStep,
    activeRubberband.
  destruct (getInternalMovement r v st) as [m0 m1].
  cbn [fst snd].
  destruct (fromMaybe false _); reflexivity.
Qed.

(** ** What firing may write *)

Lemma windowClearTimeout_frame (k : StateKey) (c : Controller) :
  state (windowClearTimeout k c) = state c
  /\ config (windowClearTimeout k c) = config c
  /\ config_enabled (windowClearTimeout k c) = config_enabled c
  /\ handlers (windowClearTimeout k c) = handlers c
  /\ calls (windowClearTimeout k c) = calls c
  /\ shared (windowClearTimeout k c) = shared c
  /\ timeouts (windowClearTimeout k c) = timeouts c.
Proof.
  unfold windowClearTimeout. destruct (getKey k (timeouts c)); repeat split.
Qed.

Lemma dragClean_frame (c : Controller) :
  getKey drag (state (dragClean c))
  = GestureState.set__delayedEvent false (getKey drag (state c))
  /\ config (dragClean c) = config c
  /\ config_enabled (dragClean c) = config_enabled c
  /\ handlers (dragClean c) = handlers c
  /\ calls (dragClean c) = calls c
  /\ shared (dragClean c) = shared c
  /\ timeouts (dragClean c) = timeouts c.
Proof.
  unfold dragClean, baseClean, removeWindowListeners, withListeners, withState.
  cbn [state config config_enabled handlers calls shared timeouts getKey setKey
       at_drag].
  destruct (windowClearTimeout_frame drag c) as (A & B & C & D & E & F & G).
  rewrite A, B, C, D, E, F, G. repeat split.
Qed.

Section Firing.

Variable check : CheckIntentionality.

Local Abbreviation this := (DragRecognizer check).

Lemma fire_drag_silent (f : bool) (c : Controller) :
  fires f (recognizerState this c) = false ->
  fireGestureHandler this f c = (c, None).
Proof.
  unfold fires, fireGestureHandler. cbv zeta.
  destruct (GestureState._blocked (recognizerState this c)); [reflexivity |].
  cbn [negb andb].
  destruct (negb f && _ && _); [reflexivity | discriminate].
Qed.

Lemma fire_drag_calls (f : bool) (c : Controller) :
  fires f (recognizerState this c) = true ->
  calls (fst (fireGestureHandler this f c))
  = (drag,
     mkFull
       (SharedGestureState.setIng Dragging
          (GestureState._active (recognizerState this c)) (shared c))
       (firedState (recognizerState this c))
       (GestureState.values (firedState (recognizerState this c)))
       (GestureState.velocities (firedState (recognizerState this c))))
    :: calls c.
Proof.
  unfold fires, fireGestureHandler. cbv zeta.
  destruct (GestureState._blocked (recognizerState this c)); [discriminate |].
  cbn [negb andb].
  destruct (negb f && _ && _); [discriminate |]. intros _.
  cbn [fst stateKey ingKey mapStateValues clean DragRecognizer
       coordinatesMapStateValues].
  unfold firedState.
  destruct (negb (GestureState._active (recognizerState this c))).
  - match goal with
    | |- context [dragClean ?x] =>
        destruct (dragClean_frame x) as (_ & _ & _ & _ & E & _)
    end.
    rewrite E. reflexivity.
  - reflexivity.
Qed.

Lemma fire_drag_frame (f : bool) (c : Controller) :
  firingFrame (recognizerState this c)
    (recognizerState this (fst (fireGestureHandler this f c)))
  /\ recognizerConfig this (fst (fireGestureHandler this f c))
     = recognizerConfig this c
  /\ config_enabled (fst (fireGestureHandler this f c)) = config_enabled c.
Proof.
  destruct (fires f (recognizerState this c)) eqn:F.
  2:{ rewrite (fire_drag_silent f c F). cbn [fst].
      split; [apply firingFrame_refl | split; reflexivity]. }
  revert F. unfold fires, fireGestureHandler. cbv zeta.
  destruct (GestureState._blocked (recognizerState this c)); [discriminate |].
  cbn [negb andb].
  destruct (negb f && _ && _); [discriminate |]. intros _.
  cbn [fst stateKey ingKey mapStateValues clean DragRecognizer
       coordinatesMapStateValues].
  unfold recognizerState, recognizerConfig.
  cbn [stateKey DragRecognizer].
  destruct (negb (GestureState._active (getKey drag (state c)))).
  - match goal with
    | |- context [dragClean ?x] =>
        destruct (dragClean_frame x) as (A & B & C & _)
    end.
    rewrite A, B, C.
    cbn [withState withShared withCall state config config_enabled getKey
         setKey at_drag].
    split; [| split; reflexivity].
    eexists _, _, _, _, _. split; [now right | reflexivity].
  - cbn [withState withShared withCall state config config_enabled getKey
         setKey at_drag].
    split; [| split; reflexivity].
    destruct (at_drag (state c)).
    eexists _, _, _, _, _. split; [now left |]. state_simpl. reflexivity.
Qed.

End Firing.

(** ** The end of a drag *)

Lemma getGenericPayload_eq (r : Recognizer) (e : PointerEvent) (b : bool)
  (c : Controller) :
  getGenericPayload r e b c = genericPayloadOn e b (recognizerState r c).
Proof. reflexivity. Qed.

Lemma getStartGestureState_eq (r : Recognizer) (v : Vector2) (e : PointerEvent)
  (c : Controller) :
  getStartGestureState r v e c = startGestureStateOn v e (recognizerState r c).
Proof. reflexivity. Qed.

Lemma rs_withState_drag (check : CheckIntentionality) (s : GestureState.t)
  (c : Controller) :
  recognizerState (DragRecognizer check) (withState drag s c) = s.
Proof. reflexivity. Qed.

Ltac lens :=
  repeat (rewrite ?getGenericPayload_eq, ?getStartGestureState_eq,
    ?rs_getMovement, ?rc_getMovement, ?snd_getMovement,
    ?rs_updateGestureState, ?rc_updateGestureState, ?rs_updateSharedState,
    ?rc_updateSharedState, ?rc_withState, ?rs_withState_drag,
    ?rs_windowClearTimeout, ?rc_windowClearTimeout).

(** The fields a firing frame leaves alone. *)
Lemma firingFrame_fields (st st' : GestureState.t) :
  firingFrame st st' ->
  GestureState._active st' = GestureState._active st
  /\ GestureState._blocked st' = GestureState._blocked st
  /\ GestureState._intentional st' = GestureState._intentional st
  /\ GestureState._movement st' = GestureState._movement st
  /\ GestureState._initial st' = GestureState._initial st
  /\ GestureState.values st' = GestureState.values st
  /\ GestureState.initial st' = GestureState.initial st
  /\ GestureState.movement st' = GestureState.movement st
  /\ GestureState.offset st' = GestureState.offset st
  /\ GestureState.lastOffset st' = GestureState.lastOffset st
  /\ GestureState.velocities st' = GestureState.velocities st
  /\ GestureState.timeStamp st' = GestureState.timeStamp st
  /\ GestureState.startTime st' = GestureState.startTime st
  /\ GestureState.canceled st' = GestureState.canceled st
  /\ GestureState._isTap st' = GestureState._isTap st
  /\ GestureState._pointerId st' = GestureState._pointerId st
  /\ GestureState.tap st' = GestureState.tap st
  /\ GestureState.swipe st' = GestureState.swipe st.
Proof.
  intros (a & f & l & m & d & _ & ->). repeat split.
Qed.

Lemma firingFrame_delayedEvent (st st' : GestureState.t) :
  firingFrame st st' ->
  GestureState._delayedEvent st = false ->
  GestureState._delayedEvent st' = false.
Proof.
  intros (a & f & l & m & d & [D | D] & ->) H; cbn; now rewrite D.
Qed.

Section DragEnd.

Variable check : CheckIntentionality.

Local Abbreviation this := (DragRecognizer check).

Lemma onDragEnd_state (e : PointerEvent) (c : Controller) :
  samePointer e (recognizerState this c) = true ->
  firingFrame
    (releasedState check (recognizerConfig this c) e (recognizerState this c))
    (recognizerState this (onDragEnd check e c))
  /\ recognizerConfig this (onDragEnd check e c) = recognizerConfig this c
  /\ config_enabled (onDragEnd check e c) = config_enabled c.
Proof.
  intro H. unfold onDragEnd. cbv zeta. rewrite H. cbn [negb].
  match goal with
  | |- context [fireGestureHandler this ?f ?c3] =>
      destruct (fire_drag_frame check f c3) as (F & C1 & C2)
  end.
   rewrite C1, C2. clear C1 C2.
  split; [| split; reflexivity].
  revert F. lens.
  unfold releasedState, releaseUpdate, endStateOn, swipeAtRelease. cbv zeta.
 
  intro F. exact F.
Qed.

(** The fields of the state handed to [fireGestureHandler] at release. *)
Lemma releasedState_fields (cfg : Config.t) (e : PointerEvent)
  (st0 : GestureState.t) :
  let st := GestureState.set__active false st0 in
  let ic := movementCheck (DragRecognizer check) cfg (GestureState.values st0) st in
  let st' := releasedState check cfg e st0 in
  GestureState.swipe st'
  = swipeAtRelease cfg (ev_timeStamp e - GestureState.startTime st0) st
  /\ GestureState.tap st' = GestureState._isTap st0
  /\ GestureState._isTap st' = GestureState._isTap st0
  /\ GestureState._active st' = false
  /\ GestureState.lastOffset st' = GestureState.lastOffset st0
  /\ GestureState._pointerId st' = GestureState._pointerId st0
  /\ GestureState.canceled st' = GestureState.canceled st0
  /\ GestureState._delayedEvent st' = GestureState._delayedEvent st0
  /\ GestureState.initial st' = GestureState.initial st0
  /\ GestureState.values st' = GestureState.values st0
  /\ GestureState._intentional st' = ic_intentional ic
  /\ GestureState._blocked st'
     = fromMaybe (GestureState._blocked st0) (ic_blocked ic)
  /\ GestureState._movement st'
     = getInternalMovement (DragRecognizer check) (GestureState.values st0) st
  /\ (fromMaybe false (ic_blocked ic) = false ->
      GestureState.offset st'
      = computeRubberband cfg
          (Math.addV
             (rawMovement cfg (GestureState._intentional st')
                (GestureState._movement st'))
             (GestureState.lastOffset st0))
          (0, 0)).
Proof.
  cbv zeta.
  unfold releasedState, releaseUpdate, endStateOn. cbv zeta.
  change (GestureState.values (GestureState.set__active false st0))
    with (GestureState.values st0).
  rewrite getMovementOn_eq. cbn [fst snd].
  unfold activeRubberband.
  change (GestureState._active (GestureState.set__active false st0)) with false.
  cbv iota.
  generalize (movementCheck (DragRecognizer check) cfg (GestureState.values st0)
                (GestureState.set__active false st0)).
  generalize (getInternalMovement (DragRecognizer check) (GestureState.values st0)
                (GestureState.set__active false st0)).
  intros m ic. unfold checkPartial.
  destruct (ic_blocked ic) as [[|] |]; destruct (ic_axis ic);
    cbn [fromMaybe]; repeat split; try discriminate; intros; reflexivity.
Qed.

End DragEnd.

(** ** Swipe *)

Lemma swipeAtRelease_spec (cfg : Config.t) (el : Q) (st : GestureState.t) :
  swipeAtRelease cfg el st
  = (specSwipe el (fst (GestureState._intentional st))
       (fst (GestureState.velocities st)) (fst (GestureState.movement st))
       (fst (Config.swipeVelocity cfg)) (fst (Config.swipeDistance cfg)),
     specSwipe el (snd (GestureState._intentional st))
       (snd (GestureState.velocities st)) (snd (GestureState.movement st))
       (snd (Config.swipeVelocity cfg)) (snd (Config.swipeDistance cfg))).
Proof.
  unfold swipeAtRelease, specSwipe, SWIPE_MAX_ELAPSED_TIME.
  destruct (ltb el 220); reflexivity.
Qed.

Lemma specSwipe_conditions (el : Q) (i : option Q) (v m sv sd : Q) :
  specSwipe el i v m sv sd
  = if swipeConditions el i v m sv sd then sign v else 0.
Proof. reflexivity. Qed.

Lemma sign_nonzero (v : Q) : ~ v == 0 -> ~ sign v == 0.
Proof.
  intros N. unfold sign.
  destruct (Qcompare_spec v 0) as [E | L | G]; [contradiction | |];
    intro H; discriminate H.
Qed.

Lemma gtb_true (a b : Q) : gtb a b = true -> b < a.
Proof.
  unfold gtb. intro H. apply Qnot_le_lt. intro L.
  apply Qle_bool_iff in L. rewrite L in H. discriminate.
Qed.

Lemma fast_is_moving (v sv : Q) : 0 <= sv -> gtb (abs v) sv = true -> ~ v == 0.
Proof.
  intros P G E. apply gtb_true in G. unfold abs in G.
  rewrite E in G. change (Qabs 0) with 0 in G. lra.
Qed.

Lemma specSwipe_nonzero_iff (el : Q) (i : option Q) (v m sv sd : Q) :
  0 <= sv ->
  (~ specSwipe el i v m sv sd == 0 <-> swipeConditions el i v m sv sd = true).
Proof.
  intro P. rewrite specSwipe_conditions.
  destruct (swipeConditions el i v m sv sd) eqn:C.
  - split; [reflexivity | intros _].
    apply sign_nonzero. apply (fast_is_moving v sv P).
    unfold swipeConditions in C.
    apply andb_true_iff in C. destruct C as [C _].
    apply andb_true_iff in C. now destruct C as [_ C].
  - split; [intro N; exfalso; apply N; reflexivity | discriminate].
Qed.

(** C2 (as amended): at release, the swipe of each axis is the sign of the
    velocity when the elapsed time is below 220 ms, the axis is intentional
    and velocity and movement exceed their thresholds, and 0 in every other
    case; for a non-negative [swipeVelocity] it is non-zero exactly when
    those conditions hold.  Velocity, movement and intentionality are those
    of the state when the release arrives. *)
Theorem swipe_at_release (check : CheckIntentionality) (e : PointerEvent)
  (c : Controller) (a : Axis) :
  let this := DragRecognizer check in
  let st := recognizerState this c in
  let cfg := recognizerConfig this c in
  let el := ev_timeStamp e - GestureState.startTime st in
  let sw := GestureState.swipe (recognizerState this (onDragEnd check e c)) in
  let cond :=
    swipeConditions el (axisOf a (GestureState._intentional st))
      (axisOf a (GestureState.velocities st))
      (axisOf a (GestureState.movement st))
      (axisOf a (Config.swipeVelocity cfg))
      (axisOf a (Config.swipeDistance cfg)) in
  samePointer e st = true ->
  axisOf a sw
  = (if cond then sign (axisOf a (GestureState.velocities st)) else 0)
  /\ (0 <= axisOf a (Config.swipeVelocity cfg) ->
      (~ axisOf a sw == 0 <-> cond = true)).
Proof.
  cbv zeta. intro H.
  destruct (onDragEnd_state check e c H) as (F & _).
  apply firingFrame_fields in F.
  destruct F as (_ & _ & _ & _ & _ & _ & _ & _ & _ & _ & _ & _ & _ & _ & _ & _ & _ & S).
  rewrite S.
  destruct (releasedState_fields check
              (recognizerConfig (DragRecognizer check) c) e
              (recognizerState (DragRecognizer check) c)) as (W & _).
  rewrite W, swipeAtRelease_spec.
  change (GestureState._intentional
            (GestureState.set__active false
               (recognizerState (DragRecognizer check) c)))
    with (GestureState._intentional (recognizerState (DragRecognizer check) c)).
  change (GestureState.velocities
            (GestureState.set__active false
               (recognizerState (DragRecognizer check) c)))
    with (GestureState.velocities (recognizerState (DragRecognizer check) c)).
  change (GestureState.movement
            (GestureState.set__active false
               (recognizerState (DragRecognizer check) c)))
    with (GestureState.movement (recognizerState (DragRecognizer check) c)).
  destruct a; cbn [axisOf fst snd].
  all: split; [reflexivity | intro P; apply specSwipe_nonzero_iff; exact P].
Qed.

Lemma swipe_at_release_witness :
  GestureState.swipe
    (recognizerState (DragRecognizer baseCheckIntentionality)
       (onDragEnd baseCheckIntentionality FastSwipe.release
          FastSwipe.beforeRelease))
  = (1, 0).
Proof.
  pose proof (swipe_at_release baseCheckIntentionality FastSwipe.release
                FastSwipe.beforeRelease AxisX ltac:(reflexivity)) as [X _].
  pose proof (swipe_at_release baseCheckIntentionality FastSwipe.release
                FastSwipe.beforeRelease AxisY ltac:(reflexivity)) as [Y _].
  cbn [axisOf] in X, Y.
  rewrite (surjective_pairing (GestureState.swipe _)), X, Y.
  vm_compute. reflexivity.
Defined.

(** C2 (as stated) fails for a negative [swipeVelocity]: the release comes
    30 ms after the start, the x axis is intentional, the velocity 0 exceeds
    the threshold -1 and the movement 100 the distance 60, and the swipe of
    the x axis is sign(0) = 0. *)
Lemma swipe_conditions_met_but_zero :
  let this := DragRecognizer baseCheckIntentionality in
  let st := recognizerState this SlowSwipe.beforeRelease in
  let cfg := recognizerConfig this SlowSwipe.beforeRelease in
  samePointer SlowSwipe.release st = true
  /\ swipeConditions
       (ev_timeStamp SlowSwipe.release - GestureState.startTime st)
       (fst (GestureState._intentional st))
       (fst (GestureState.velocities st)) (fst (GestureState.movement st))
       (fst (Config.swipeVelocity cfg)) (fst (Config.swipeDistance cfg))
     = true
  /\ fst (GestureState.swipe
            (recognizerState this
               (onDragEnd baseCheckIntentionality SlowSwipe.release
                  SlowSwipe.beforeRelease)))
     == 0.
Proof.
  cbv zeta. repeat split; vm_compute; reflexivity.
Qed.

(** ** The release of a drag, decomposed *)

Section DragRelease.

Variable check : CheckIntentionality.

Local Abbreviation this := (DragRecognizer check).

Lemma onDragEnd_decompose (e : PointerEvent) (c : Controller) :
  samePointer e (recognizerState this c) = true ->
  exists c3,
    onDragEnd check e c
    = fst (fireGestureHandler this
             (Config.filterTaps (recognizerConfig this c)
              && GestureState._isTap (recognizerState this c)) c3)
    /\ recognizerState this c3
       = releasedState check (recognizerConfig this c) e (recognizerState this c)
    /\ recognizerConfig this c3 = recognizerConfig this c
    /\ calls c3 = calls c
    /\ shared c3 = SharedGestureState.assign (shared c) releasePartial
    /\ timers c3 = timers c
    /\ timeouts c3 = timeouts c
    /\ config_enabled c3 = config_enabled c.
Proof.
  intro H. unfold onDragEnd. cbv zeta. rewrite H. cbn [negb].
  match goal with
  | |- context [fireGestureHandler this ?f ?c3] =>
      assert (R : recognizerState this c3
                  = releasedState check (recognizerConfig this c) e
                      (recognizerState this c))
        by (lens; reflexivity);
      assert (C : recognizerConfig this c3 = recognizerConfig this c)
        by reflexivity;
      exists c3
  end.
  rewrite R, C.
  destruct (releasedState_fields check (recognizerConfig this c) e
              (recognizerState this c)) as (_ & _ & T & _).
  rewrite T.
  repeat split.
Qed.

End DragRelease.

(** ** Taps under [filterTaps] *)

(** C3 (as amended): with [filterTaps] configured, a drag that ends while
    still flagged as a tap, and is not blocked, has its handler invoked on
    the end frame, forced past the intentionality test, with [tap] true
    and [active] false. *)
Theorem filtered_tap_fires_at_release (check : CheckIntentionality)
  (e : PointerEvent) (c : Controller) :
  let this := DragRecognizer check in
  let st := recognizerState this c in
  let cfg := recognizerConfig this c in
  samePointer e st = true ->
  Config.filterTaps cfg = true ->
  GestureState._isTap st = true ->
  GestureState._blocked (releasedState check cfg e st) = false ->
  exists full,
    calls (onDragEnd check e c) = (drag, full) :: calls c
    /\ GestureState.tap (fs_state full) = true
    /\ GestureState.active (fs_state full) = false
    /\ GestureState.last (fs_state full) = GestureState.active st.
Proof.
  cbv zeta. intros H FT IT NB.
  destruct (onDragEnd_decompose check e c H)
    as (c3 & E & R & _ & CA & _).
  rewrite E, FT, IT. cbn [andb].
  rewrite fire_drag_calls.
  2:{ unfold fires. rewrite R, NB. reflexivity. }
  rewrite R, CA.
  eexists. split; [reflexivity |].
  destruct (releasedState_fields check
              (recognizerConfig (DragRecognizer check) c) e
              (recognizerState (DragRecognizer check) c))
    as (_ & T & _ & A & _).
  cbn [fs_state].
  change (GestureState.tap (firedState ?x)) with (GestureState.tap x).
  change (GestureState.active (firedState ?x)) with (GestureState._active x).
  change (GestureState.last (firedState ?x))
    with (GestureState.active x && negb (GestureState._active x)).
  rewrite T, A, IT. cbn [negb].
  rewrite andb_true_r.
  repeat split.
  unfold releasedState, releaseUpdate, endStateOn. cbv zeta.
  rewrite getMovementOn_eq. cbn [fst snd]. unfold checkPartial.
  generalize (movementCheck (DragRecognizer check)
                (recognizerConfig (DragRecognizer check) c)
                (GestureState.values
                   (GestureState.set__active false
                      (recognizerState (DragRecognizer check) c)))
                (GestureState.set__active false
                   (recognizerState (DragRecognizer check) c))).
  intro ic.
  destruct (ic_blocked ic) as [[|] |]; destruct (ic_axis ic); reflexivity.
Qed.

Lemma filtered_tap_fires_at_release_witness :
  exists full,
    calls (onDragEnd baseCheckIntentionality TapSession.release
             TapSession.pressed)
    = (drag, full) :: calls TapSession.pressed
    /\ GestureState.tap (fs_state full) = true.
Proof.
  destruct (filtered_tap_fires_at_release baseCheckIntentionality
              TapSession.release TapSession.pressed)
    as (full & A & B & _); try reflexivity.
  exists full. split; [exact A | exact B].
Defined.

(** C3 (as stated) fails: under [filterTaps], a press released in place
    ends flagged as a tap, the handler has not been invoked before the
    release, and it is invoked on the end frame. *)
Lemma filtered_tap_handler_invoked :
  let this := DragRecognizer baseCheckIntentionality in
  Config.filterTaps (recognizerConfig this TapSession.pressed) = true
  /\ GestureState._isTap (recognizerState this TapSession.pressed) = true
  /\ calls TapSession.pressed = []
  /\ length (calls (onDragEnd baseCheckIntentionality TapSession.release
                      TapSession.pressed)) = 1%nat
  /\ GestureState.tap
       (recognizerState this
          (onDragEnd baseCheckIntentionality TapSession.release
             TapSession.pressed)) = true.
Proof.
  cbv zeta. repeat split; vm_compute; reflexivity.
Qed.

(** ** Samples of a drag, decomposed *)

Lemma rs_getKinematics (r : Recognizer) (v : Vector2) (e : PointerEvent)
  (c : Controller) :
  recognizerState r (fst (getKinematics r v e c))
  = fst (getMovementOn r (recognizerConfig r c) v (recognizerState r c)).
Proof.
  unfold getKinematics. cbv zeta.
  destruct (fromMaybe false _); [apply rs_getMovement |].
  destruct (Math.calculateAllKinematics _ _ _); apply rs_getMovement.
Qed.

Lemma fst_getKinematics (r : Recognizer) (v : Vector2) (e : PointerEvent)
  (c : Controller) :
  fst (getKinematics r v e c) = fst (getMovement r v c).
Proof.
  unfold getKinematics. cbv zeta.
  destruct (fromMaybe false _); [reflexivity |].
  destruct (Math.calculateAllKinematics _ _ _); reflexivity.
Qed.

Lemma snd_getKinematics (r : Recognizer) (v : Vector2) (e : PointerEvent)
  (c : Controller) :
  snd (getKinematics r v e c)
  = kinematicsOn r (recognizerConfig r c) v e (recognizerState r c).
Proof.
  unfold getKinematics, kinematicsOn. cbv zeta.
  rewrite rs_getMovement, snd_getMovement.
  destruct (fromMaybe false _); [reflexivity |].
  destruct (Math.calculateAllKinematics _ _ _); reflexivity.
Qed.

Ltac lens ::=
  repeat (rewrite ?getGenericPayload_eq, ?getStartGestureState_eq,
    ?rs_getKinematics, ?snd_getKinematics,
    ?rs_getMovement, ?rc_getMovement, ?snd_getMovement,
    ?rs_updateGestureState, ?rc_updateGestureState, ?rs_updateSharedState,
    ?rc_updateSharedState, ?rc_withState, ?rs_withState_drag,
    ?rs_windowClearTimeout, ?rc_windowClearTimeout).

Section DragSamples.

Variable check : CheckIntentionality.

Local Abbreviation this := (DragRecognizer check).

Lemma startDrag_decompose (e : PointerEvent) (c : Controller) :
  exists c3,
    startDrag check e c = fst (fireGestureHandler this false c3)
    /\ recognizerState this c3
       = startedState check (recognizerConfig this c) e (recognizerState this c)
    /\ recognizerConfig this c3 = recognizerConfig this c
    /\ calls c3 = calls c
    /\ timers c3 = timers c
    /\ timeouts c3 = timeouts c
    /\ config_enabled c3 = config_enabled c.
Proof.
  unfold startDrag. cbv zeta.
  match goal with
  | |- context [fireGestureHandler this ?f ?c3] => exists c3
  end.
  split; [reflexivity |].
  split; [lens; reflexivity |].
  repeat split.
Qed.

Lemma onDragChange_decompose (e : PointerEvent) (c : Controller) :
  GestureState.canceled (recognizerState this c) = false ->
  samePointer e (recognizerState this c) = true ->
  GestureState._active (recognizerState this c) = true ->
  eventDown e = true ->
  exists c3,
    onDragChange check e c = fst (fireGestureHandler this false c3)
    /\ recognizerState this c3
       = changedState check (recognizerConfig this c) e (recognizerState this c)
    /\ recognizerConfig this c3 = recognizerConfig this c
    /\ calls c3 = calls c
    /\ timers c3 = timers c
    /\ timeouts c3 = timeouts c
    /\ config_enabled c3 = config_enabled c.
Proof.
  intros C P A D. unfold onDragChange. cbv zeta. rewrite C, P, A, D. cbn [negb].
  match goal with
  | |- context [fireGestureHandler this ?f ?c3] => exists c3
  end.
  split; [reflexivity |].
  split; [lens; reflexivity |].
  rewrite !fst_getKinematics.
  repeat split.
Qed.

Lemma startedState_fields (cfg : Config.t) (e : PointerEvent)
  (st : GestureState.t) :
  let st' := startedState check cfg e st in
  GestureState._active st' = true
  /\ GestureState._isTap st' = true
  /\ GestureState.initial st' = getPointerEventValues e
  /\ GestureState.lastOffset st' = GestureState.offset st
  /\ GestureState._pointerId st' = Some (pointerId e)
  /\ GestureState.canceled st' = false
  /\ GestureState._delayedEvent st' = false
  /\ GestureState.startTime st' = ev_timeStamp e.
Proof.
  cbv zeta. unfold startedState. cbv zeta.
  rewrite getMovementOn_eq. cbn [fst snd]. unfold checkPartial.
  generalize (movementCheck this cfg (getPointerEventValues e) st).
  generalize (getInternalMovement this (getPointerEventValues e) st).
  intros m ic.
  destruct (ic_blocked ic) as [[|] |]; destruct (ic_axis ic);
    cbn [fromMaybe]; repeat split.
Qed.

Lemma changedState_fields (cfg : Config.t) (e : PointerEvent)
  (st : GestureState.t) :
  let st' := changedState check cfg e st in
  GestureState._active st' = GestureState._active st
  /\ GestureState._isTap st'
     = nextIsTap (GestureState._isTap st)
         (Math.subV (getPointerEventValues e) (GestureState.initial st))
  /\ GestureState.initial st' = GestureState.initial st
  /\ GestureState.lastOffset st' = GestureState.lastOffset st
  /\ GestureState._pointerId st' = GestureState._pointerId st
  /\ GestureState.canceled st' = GestureState.canceled st
  /\ GestureState._delayedEvent st' = GestureState._delayedEvent st
  /\ GestureState.startTime st' = GestureState.startTime st.
Proof.
  cbv zeta. unfold changedState, kinematicsOn. cbv zeta.
  rewrite getMovementOn_eq. cbn [fst snd]. unfold checkPartial.
  change (getInternalMovement this (getPointerEventValues e) st)
    with (Math.subV (getPointerEventValues e) (GestureState.initial st)).
  generalize (movementCheck this cfg (getPointerEventValues e) st).
  intros ic.
  destruct (ic_blocked ic) as [[|] |]; destruct (ic_axis ic);
    cbn [fromMaybe].
  all: try (destruct (Math.calculateAllKinematics _ _ _)).
  all: repeat split.
Qed.

End DragSamples.

(** ** Sessions of a drag *)

Section DragSession.
Variable check : CheckIntentionality.

Local Abbreviation this := (DragRecognizer check).
Local Abbreviation rs := (recognizerState (DragRecognizer check)).
Local Abbreviation rc := (recognizerConfig (DragRecognizer check)).

Lemma keeps_refl c : keeps check c c.
Proof. repeat split; auto. Qed.

Lemma onDragEnd_step e c :
  samePointer e (rs c) = true ->
  keeps check c (onDragEnd check e c)
  /\ GestureState._isTap (rs (onDragEnd check e c)) = GestureState._isTap (rs c)
  /\ GestureState.tap (rs (onDragEnd check e c)) = GestureState._isTap (rs c)
  /\ GestureState._active (rs (onDragEnd check e c)) = false.
Proof.
  intro H.
  destruct (onDragEnd_state check e c H) as (F & C1 & C2).
  pose proof (firingFrame_delayedEvent _ _ F) as D.
  apply firingFrame_fields in F.
  destruct F as (A & _ & _ & _ & _ & _ & I & _ & _ & L & _ & _ & _ & CA & T & P & TA & _).
  destruct (releasedState_fields check (rc c) e (rs c))
    as (_ & TA' & T' & A' & L' & P' & CA' & D' & I' & _).
  unfold keeps.
  rewrite C1, C2, P, I, CA, L, T, TA, A, P', I', CA', L', T', TA', A'.
  repeat split. intro D0. apply D. now rewrite D'.
Qed.

Lemma onDragChange_tracked e c :
  GestureState.canceled (rs c) = false ->
  samePointer e (rs c) = true ->
  GestureState._active (rs c) = true ->
  eventDown e = true ->
  keeps check c (onDragChange check e c)
  /\ GestureState._isTap (rs (onDragChange check e c))
     = nextIsTap (GestureState._isTap (rs c))
         (Math.subV (getPointerEventValues e) (GestureState.initial (rs c)))
  /\ GestureState._active (rs (onDragChange check e c)) = true.
Proof.
  intros C P A D.
  destruct (onDragChange_decompose check e c C P A D)
    as (c3 & E & R & RC & _ & _ & _ & EN).
  destruct (fire_drag_frame check false c3) as (F & C1 & C2).
  rewrite <- E in F, C1, C2. rewrite R in F.
  pose proof (firingFrame_delayedEvent _ _ F) as DE.
  apply firingFrame_fields in F.
  destruct F as (A1 & _ & _ & _ & _ & _ & I & _ & _ & L & _ & _ & _ & CA & T & P1 & _).
  destruct (changedState_fields check (rc c) e (rs c))
    as (A' & T' & I' & L' & P' & CA' & D' & _).
  unfold keeps.
  rewrite C1, C2, RC, EN, P1, I, CA, L, T, A1, P', I', CA', L', T', A', A.
  repeat split. intro D0. apply DE. now rewrite D'.
Qed.

Lemma onDragChange_foreign e c :
  samePointer e (rs c) = false -> onDragChange check e c = c.
Proof.
  intro H. unfold onDragChange. cbv zeta. rewrite H.
  now destruct (GestureState.canceled (rs c)).
Qed.

Lemma onDragChange_idle e c :
  GestureState._active (rs c) = false ->
  GestureState._delayedEvent (rs c) = false ->
  onDragChange check e c = c.
Proof.
  intros A D. unfold onDragChange. cbv zeta. rewrite A, D.
  destruct (GestureState.canceled (rs c)); [reflexivity |].
  now destruct (samePointer e (rs c)).
Qed.

Lemma onDragChange_released e c :
  GestureState.canceled (rs c) = false ->
  samePointer e (rs c) = true ->
  GestureState._active (rs c) = true ->
  eventDown e = false ->
  onDragChange check e c = onDragEnd check e c.
Proof.
  intros C P A D. unfold onDragChange. cbv zeta. now rewrite C, P, A, D.
Qed.

Lemma nextIsTap_false m : nextIsTap false m = false.
Proof. reflexivity. Qed.

Lemma onDragChange_any id p0 e c :
  tracking id p0 (rs c) ->
  keeps check c (onDragChange check e c)
  /\ (GestureState._isTap (rs (onDragChange check e c))
      = GestureState._isTap (rs c)
      \/ GestureState._isTap (rs (onDragChange check e c))
         = nextIsTap (GestureState._isTap (rs c))
             (Math.subV (getPointerEventValues e) p0)).
Proof.
  intros (TP & TI & TC & TD).
  destruct (samePointer e (rs c)) eqn:P.
  2:{ rewrite (onDragChange_foreign e c P). split; [apply keeps_refl | now left]. }
  destruct (GestureState._active (rs c)) eqn:A.
  2:{ rewrite (onDragChange_idle e c A TD). split; [apply keeps_refl | now left]. }
  destruct (eventDown e) eqn:D.
  - destruct (onDragChange_tracked e c TC P A D) as (K & T & _).
    split; [exact K | right]. now rewrite T, TI.
  - rewrite (onDragChange_released e c TC P A D).
    destruct (onDragEnd_step e c P) as (K & T & _).
    split; [exact K | now left].
Qed.

Lemma keeps_tracking id p0 c c' :
  keeps check c c' -> tracking id p0 (rs c) -> tracking id p0 (rs c').
Proof.
  intros (_ & _ & P & I & C & D & _) (TP & TI & TC & TD).
  unfold tracking. rewrite P, I, C. auto.
Qed.

Lemma keeps_trans c1 c2 c3 : keeps check c1 c2 -> keeps check c2 c3 -> keeps check c1 c3.
Proof.
  intros (A1 & A2 & A3 & A4 & A5 & A6 & A7) (B1 & B2 & B3 & B4 & B5 & B6 & B7).
  unfold keeps. rewrite B1, B2, B3, B4, B5, B7. auto 10.
Qed.

Lemma onDragStart_started e c :
  dragShouldStart check c = true ->
  gtb (Config.delay (rc c)) 0 = false ->
  let c' := onDragStart check e c in
  tracking (pointerId e) (getPointerEventValues e) (rs c')
  /\ GestureState._isTap (rs c') = true
  /\ GestureState._active (rs c') = true
  /\ GestureState.lastOffset (rs c') = GestureState.offset (rs c)
  /\ rc c' = rc c
  /\ config_enabled c' = config_enabled c.
Proof.
  intros S D. cbv zeta. unfold onDragStart. cbv zeta. rewrite S. cbn [negb].
  lens. 
  change (recognizerConfig this (setListeners c)) with (rc c). rewrite D.
  match goal with
  | |- context [startDrag check e ?c1] =>
      destruct (startDrag_decompose check e c1) as (c3 & E & R & RC & _ & _ & _ & EN)
  end.
  rewrite E.
  destruct (fire_drag_frame check false c3) as (F & C1 & C2).
  rewrite R in F.
  pose proof (firingFrame_delayedEvent _ _ F) as DE.
  apply firingFrame_fields in F.
  destruct F as (A1 & _ & _ & _ & _ & _ & I & _ & _ & L & _ & _ & _ & CA & T & P1 & _).
  match type of R with
  | _ = startedState check ?cfg e ?st =>
      destruct (startedState_fields check cfg e st)
        as (A' & T' & I' & L' & P' & CA' & D' & _)
  end.
  unfold tracking.
  rewrite C1, C2, RC, EN, P1, I, CA, L, T, A1, P', I', CA', L', T', A'.
  repeat split. now apply DE.
Qed.

Lemma dragMoves_keeps id p0 moves c :
  tracking id p0 (rs c) -> keeps check c (dragMoves check moves c).
Proof.
  revert c. induction moves as [| e moves IH]; intros c T; [apply keeps_refl |].
  cbn [dragMoves fold_left].
  destruct (onDragChange_any id p0 e c T) as (K & _).
  apply (keeps_trans _ _ _ K).
  apply IH. exact (keeps_tracking id p0 _ _ K T).
Qed.

Lemma dragMoves_tap_true id p0 moves c :
  tracking id p0 (rs c) ->
  GestureState._isTap (rs c) = true ->
  (forall e, In e moves -> tapDistanceReached p0 e = false) ->
  GestureState._isTap (rs (dragMoves check moves c)) = true.
Proof.
  revert c. induction moves as [| e moves IH]; intros c T I H; [exact I |].
  cbn [dragMoves fold_left].
  destruct (onDragChange_any id p0 e c T) as (K & [E | E]).
  - apply IH; [exact (keeps_tracking id p0 _ _ K T) | now rewrite E |].
    intros x X. apply H. now right.
  - apply IH; [exact (keeps_tracking id p0 _ _ K T) | |].
    + rewrite E, I. unfold nextIsTap. cbn [andb].
      unfold tapDistanceReached in H. rewrite (H e); [reflexivity | now left].
    + intros x X. apply H. now right.
Qed.

Lemma dragMoves_tap_false id p0 moves c :
  tracking id p0 (rs c) ->
  GestureState._isTap (rs c) = false ->
  GestureState._isTap (rs (dragMoves check moves c)) = false.
Proof.
  revert c. induction moves as [| e moves IH]; intros c T I; [exact I |].
  cbn [dragMoves fold_left].
  destruct (onDragChange_any id p0 e c T) as (K & [E | E]).
  - apply IH; [exact (keeps_tracking id p0 _ _ K T) | now rewrite E].
  - apply IH; [exact (keeps_tracking id p0 _ _ K T) | now rewrite E, I].
Qed.

Lemma dragMoves_active id p0 moves c :
  tracking id p0 (rs c) ->
  GestureState._active (rs c) = true ->
  (forall e, In e moves -> eventDown e = true) ->
  GestureState._active (rs (dragMoves check moves c)) = true.
Proof.
  revert c. induction moves as [| e moves IH]; intros c T A H; [exact A |].
  cbn [dragMoves fold_left].
  destruct (onDragChange_any id p0 e c T) as (K & _).
  apply IH; [exact (keeps_tracking id p0 _ _ K T) | |].
  - destruct (samePointer e (rs c)) eqn:P.
    + destruct T as (_ & _ & TC & _).
      destruct (onDragChange_tracked e c TC P A (H e (or_introl eq_refl)))
        as (_ & _ & A'). exact A'.
    + now rewrite (onDragChange_foreign e c P).
  - intros x X. apply H. now right.
Qed.

Lemma dragMoves_app pre post c :
  dragMoves check (pre ++ post) c = dragMoves check post (dragMoves check pre c).
Proof. unfold dragMoves. apply fold_left_app. Qed.

Lemma samePointer_tracking id p0 e st :
  tracking id p0 st -> pointerId e = id -> samePointer e st = true.
Proof.
  intros (P & _) E. unfold samePointer. rewrite P, E. apply Z.eqb_refl.
Qed.

End DragSession.

(** C5 (as amended): in a session started by a pointer down (no start
    delay), if the true distance from the start stays strictly below 3 px on
    every sample, the session reports [tap] true at its end; once a tracked
    sample reaches 3 px the tap flag is cleared, stays false for every later
    sample, and the session reports [tap] false. *)
Theorem tap_of_session (check : CheckIntentionality) (down : PointerEvent)
  (moves : list PointerEvent) (up : PointerEvent) (c : Controller) :
  let this := DragRecognizer check in
  let p0 := getPointerEventValues down in
  dragShouldStart check c = true ->
  gtb (Config.delay (recognizerConfig this c)) 0 = false ->
  pointerId up = pointerId down ->
  ((forall e, In e moves -> tapDistanceReached p0 e = false) ->
   GestureState.tap (recognizerState this (dragSession check down moves up c))
   = true)
  /\ (forall pre e post,
        moves = pre ++ e :: post ->
        (forall x, In x pre -> eventDown x = true) ->
        pointerId e = pointerId down ->
        eventDown e = true ->
        tapDistanceReached p0 e = true ->
        GestureState._isTap
          (recognizerState this
             (dragMoves check (pre ++ [e]) (onDragStart check down c))) = false
        /\ (forall rest,
              GestureState._isTap
                (recognizerState this
                   (dragMoves check rest
                      (dragMoves check (pre ++ [e]) (onDragStart check down c))))
              = false)
        /\ GestureState.tap
             (recognizerState this (dragSession check down moves up c)) = false).
Proof.
  cbv zeta. intros S D U.
  destruct (onDragStart_started check down c S D) as (T & I & A & _).
  split.
  - intro H. unfold dragSession.
    pose proof (dragMoves_keeps check _ _ moves _ T) as K.
    pose proof (keeps_tracking check _ _ _ _ K T) as T2.
    destruct (onDragEnd_step check up _ (samePointer_tracking _ _ up _ T2 U))
      as (_ & _ & TA & _).
    rewrite TA. now apply (dragMoves_tap_true check _ _ moves _ T I).
  - intros pre e post M PD PE ED R.
    pose proof (dragMoves_keeps check _ _ pre _ T) as K1.
    pose proof (keeps_tracking check _ _ _ _ K1 T) as T1.
    pose proof (dragMoves_active check _ _ pre _ T A PD) as A1.
    assert (C1 : GestureState._isTap
                   (recognizerState (DragRecognizer check)
                      (dragMoves check (pre ++ [e]) (onDragStart check down c)))
                 = false).
    { rewrite dragMoves_app.
      change (dragMoves check [e] ?x) with (onDragChange check e x).
      destruct T1 as (TP & TI & TC & TD).
      destruct (onDragChange_tracked check e _ TC
                  (samePointer_tracking _ _ e _ (conj TP (conj TI (conj TC TD))) PE)
                  A1 ED) as (_ & N & _).
      rewrite N, TI. unfold nextIsTap.
      unfold tapDistanceReached in R. rewrite R.
      match goal with |- (if ?b && true then _ else _) = _ => destruct b end; reflexivity. }
    pose proof (dragMoves_keeps check _ _ (pre ++ [e]) _ T) as K2.
    pose proof (keeps_tracking check _ _ _ _ K2 T) as T2.
    split; [exact C1 |]. split.
    + intro rest. now apply (dragMoves_tap_false check _ _ rest _ T2).
    + unfold dragSession. rewrite M.
      replace (pre ++ e :: post) with ((pre ++ [e]) ++ post)
        by (rewrite <- app_assoc; reflexivity).
      rewrite dragMoves_app.
      pose proof (dragMoves_keeps check _ _ post _ T2) as K3.
      pose proof (keeps_tracking check _ _ _ _ K3 T2) as T3.
      destruct (onDragEnd_step check up _ (samePointer_tracking _ _ up _ T3 U))
        as (_ & _ & TA & _).
      rewrite TA. now apply (dragMoves_tap_false check _ _ post _ T2).
Qed.

Lemma tap_of_session_witness :
  GestureState.tap
    (recognizerState (DragRecognizer baseCheckIntentionality)
       (dragSession baseCheckIntentionality NearTap.down NearTap.moves NearTap.up
          (Sample.controller Sample.defaults)))
  = true.
Proof.
  assert (S : dragShouldStart baseCheckIntentionality
                (Sample.controller Sample.defaults) = true)
    by (vm_compute; reflexivity).
  assert (D : gtb (Config.delay
                     (recognizerConfig (DragRecognizer baseCheckIntentionality)
                        (Sample.controller Sample.defaults))) 0 = false)
    by (vm_compute; reflexivity).
  assert (U : pointerId NearTap.up = pointerId NearTap.down) by reflexivity.
  destruct (tap_of_session baseCheckIntentionality NearTap.down NearTap.moves
              NearTap.up (Sample.controller Sample.defaults) S D U) as [H _].
  apply H. intros e [<- | []]. vm_compute. reflexivity.
Defined.

(** C5 (as stated) fails at exactly 3 px: the only sample is 3 px from the
    start, so the distance never exceeds 3 px, and the session reports
    [tap] false. *)
Lemma tap_cleared_at_threshold :
  (forall e, In e EdgeTap.moves ->
     tapDistanceExceeded (getPointerEventValues EdgeTap.down) e = false)
  /\ GestureState.tap
       (recognizerState (DragRecognizer baseCheckIntentionality) EdgeTap.ended)
     = false.
Proof.
  split.
  - intros e [<- | []]. vm_compute. reflexivity.
  - vm_compute. reflexivity.
Qed.

(** ** Intentionality *)

Section Intentionality.

Variable r : Recognizer.
Variable cfg : Config.t.

Lemma sample_check (v : Vector2) (st : GestureState.t) :
  GestureState._intentional (sample r cfg v st)
  = ic_intentional (movementCheck r cfg v st).
Proof.
  unfold sample. rewrite getMovementOn_eq. cbn [fst snd].
  unfold checkPartial.
  generalize (movementCheck r cfg v st). intro ic.
  destruct (ic_blocked ic) as [[|] |]; destruct (ic_axis ic); reflexivity.
Qed.

Lemma intentionalStep_axis (a : Axis) (i : Intentional) (m : Vector2) :
  axisOf a (intentionalStep cfg i m)
  = match axisOf a i with
    | Some x => Some x
    | None =>
        getIntentionalDisplacement (axisOf a m) (axisOf a (Config.threshold cfg))
    end.
Proof.
  unfold intentionalStep.
  destruct a; cbn [axisOf fst snd];
    [destruct (fst i) | destruct (snd i)]; reflexivity.
Qed.

Variable a : Axis.

Hypothesis check_keeps :
  forall i m s,
    axisOf a (ic_intentional (checkIntentionality r cfg i m s)) = axisOf a i.

Lemma sample_intentional (v : Vector2) (st : GestureState.t) :
  axisOf a (GestureState._intentional (sample r cfg v st))
  = axisOf a
      (intentionalStep cfg (GestureState._intentional st)
         (getInternalMovement r v st)).
Proof.
  rewrite sample_check. unfold movementCheck. apply check_keeps.
Qed.

Lemma sample_keeps (v : Vector2) (st : GestureState.t) (x : Q) :
  axisOf a (GestureState._intentional st) = Some x ->
  axisOf a (GestureState._intentional (sample r cfg v st)) = Some x.
Proof.
  intro H. now rewrite sample_intentional, intentionalStep_axis, H.
Qed.

Lemma samples_keep (vs : list Vector2) (st : GestureState.t) (x : Q) :
  axisOf a (GestureState._intentional st) = Some x ->
  axisOf a (GestureState._intentional (samples r cfg vs st)) = Some x.
Proof.
  revert st. induction vs as [| v vs IH]; intros st H; [exact H |].
  cbn [samples fold_left]. apply IH. now apply sample_keeps.
Qed.

End Intentionality.




(** ** The start delay *)

Lemma find_filter_out (h : nat) (l : list (nat * TimerCallback)) :
  find (fun t => Nat.eqb (fst t) h)
    (filter (fun t => negb (Nat.eqb (fst t) h)) l) = None.
Proof.
  induction l as [| t l IH]; [reflexivity |].
  cbn [filter]. destruct (Nat.eqb (fst t) h) eqn:E; cbn [negb]; [exact IH |].
  cbn [find]. now rewrite E.
Qed.

Lemma find_filter_other (h k : nat) (l : list (nat * TimerCallback)) :
  find (fun t => Nat.eqb (fst t) h) l = None ->
  find (fun t => Nat.eqb (fst t) h)
    (filter (fun t => negb (Nat.eqb (fst t) k)) l) = None.
Proof.
  induction l as [| t l IH]; [reflexivity |].
  cbn [find filter]. destruct (Nat.eqb (fst t) h) eqn:E; [discriminate |].
  intro H. destruct (negb (Nat.eqb (fst t) k)); [| now apply IH].
  cbn [find]. rewrite E. now apply IH.
Qed.

Lemma windowClearTimeout_pending (h : nat) (c : Controller) :
  getKey drag (timeouts c) = Some h ->
  pendingTimer h (windowClearTimeout drag c) = None.
Proof.
  intro H. unfold pendingTimer, windowClearTimeout. rewrite H.
  cbn [timers]. apply find_filter_out.
Qed.

Lemma windowClearTimeout_gone (h : nat) (c : Controller) :
  pendingTimer h c = None ->
  pendingTimer h (windowClearTimeout drag c) = None.
Proof.
  unfold pendingTimer, windowClearTimeout.
  destruct (getKey drag (timeouts c)) as [k |]; [| trivial].
  cbn [timers]. apply find_filter_other.
Qed.

Lemma dragClean_timers (c : Controller) :
  timers (dragClean c) = timers (windowClearTimeout drag c)
  /\ timeouts (dragClean c) = timeouts c.
Proof.
  unfold dragClean, baseClean, removeWindowListeners, withListeners, withState.
  cbn [timers timeouts].
  destruct (windowClearTimeout_frame drag c) as (_ & _ & _ & _ & _ & _ & G).
  now rewrite G.
Qed.

Section DragTimers.
Variable check : CheckIntentionality.
Local Abbreviation this := (DragRecognizer check).
Local Abbreviation rs := (recognizerState (DragRecognizer check)).
Local Abbreviation rc := (recognizerConfig (DragRecognizer check)).

Lemma fire_drag_timers f c :
  timeouts (fst (fireGestureHandler this f c)) = timeouts c
  /\ (timers (fst (fireGestureHandler this f c)) = timers c
      \/ timers (fst (fireGestureHandler this f c))
         = timers (windowClearTimeout drag c))
  /\ (fires f (rs c) = true -> GestureState._active (rs c) = false ->
      timers (fst (fireGestureHandler this f c))
      = timers (windowClearTimeout drag c)).
Proof.
  destruct (fires f (rs c)) eqn:F.
  2:{ rewrite (fire_drag_silent check f c F). cbn [fst].
      split; [reflexivity | split; [now left | discriminate]]. }
  revert F. unfold fires, fireGestureHandler. cbv zeta.
  destruct (GestureState._blocked (rs c)); [discriminate |].
  cbn [negb andb].
  destruct (negb f && _ && _); [discriminate |]. intros _.
  cbn [fst stateKey ingKey mapStateValues clean DragRecognizer
       coordinatesMapStateValues].
  destruct (GestureState._active (rs c)); cbn [negb].
  - split; [reflexivity | split; [now left | discriminate]].
  - match goal with
    | |- context [dragClean ?x] =>
        destruct (dragClean_timers x) as (A & B)
    end.
    rewrite A, B.
    unfold windowClearTimeout.
    cbn [timeouts timers withState withShared withCall].
    destruct (getKey drag (timeouts c)); cbn [timers];
      (split; [reflexivity | split; [now right | reflexivity]]).
Qed.

Lemma pendingTimer_timers h c c' :
  timers c' = timers c -> pendingTimer h c' = pendingTimer h c.
Proof. unfold pendingTimer. now intros ->. Qed.

Lemma fire_drag_gone h f c :
  pendingTimer h c = None ->
  pendingTimer h (fst (fireGestureHandler this f c)) = None.
Proof.
  intro H. destruct (fire_drag_timers f c) as (_ & [E | E] & _).
  - now rewrite (pendingTimer_timers h _ _ E).
  - rewrite (pendingTimer_timers h _ _ E). now apply windowClearTimeout_gone.
Qed.

Lemma onDragStart_delayed e c :
  dragShouldStart check c = true ->
  gtb (Config.delay (rc c)) 0 = true ->
  let c1 := onDragStart check e c in
  rs c1
  = GestureState.set__delayedEvent true
      (GestureState.set__pointerId (Some (pointerId e)) (rs c))
  /\ rc c1 = rc c
  /\ timers c1 = (nextTimer c, StartDrag e) :: timers c
  /\ getKey drag (timeouts c1) = Some (nextTimer c)
  /\ calls c1 = calls c.
Proof.
  intros S D. cbv zeta. unfold onDragStart. cbv zeta. rewrite S. cbn [negb].
  lens.
  change (recognizerConfig this (setListeners c)) with (rc c). rewrite D.
  repeat split.
Qed.

Lemma onDragChange_delayed e c :
  GestureState.canceled (rs c) = false ->
  samePointer e (rs c) = true ->
  GestureState._active (rs c) = false ->
  GestureState._delayedEvent (rs c) = true ->
  onDragChange check e c = startDrag check e (clearTimeout this c).
Proof.
  intros C P A D. unfold onDragChange. cbv zeta. now rewrite C, P, A, D.
Qed.

Lemma startDrag_started e c :
  let c' := startDrag check e c in
  GestureState._active (rs c') = true
  /\ GestureState.initial (rs c') = getPointerEventValues e
  /\ forall h, pendingTimer h c = None -> pendingTimer h c' = None.
Proof.
  cbv zeta.
  destruct (startDrag_decompose check e c) as (c3 & E & R & _ & _ & TI & _).
  rewrite E.
  destruct (fire_drag_frame check false c3) as (F & _).
  rewrite R in F. apply firingFrame_fields in F.
  destruct F as (A1 & _ & _ & _ & _ & _ & I & _).
  destruct (startedState_fields check (rc c) e (rs c)) as (A' & _ & I' & _).
  rewrite A1, I, A', I'. repeat split.
  intros h H. apply fire_drag_gone.
  now rewrite (pendingTimer_timers h _ _ TI).
Qed.
End DragTimers.

(** C4 (as amended): with a start delay, a pointer down that the drag
    accepts leaves the session pending on a timer; before the timer fires,
    a pointer-move sample of another pointer is ignored, and so is every
    sample while the state is still marked canceled from an earlier
    session (the press does not reset [canceled]): the timer stays armed;
    otherwise a sample of the initiating pointer clears the timer and
    starts the session at once with that sample; a release of the
    initiating pointer removes the pending timer when its end frame fires
    the handler. *)
Theorem delayed_start (check : CheckIntentionality) (down e : PointerEvent)
  (c : Controller) :
  let this := DragRecognizer check in
  let h := nextTimer c in
  let c1 := onDragStart check down c in
  dragShouldStart check c = true ->
  gtb (Config.delay (recognizerConfig this c)) 0 = true ->
  (GestureState._active (recognizerState this c1) = false
   /\ GestureState._delayedEvent (recognizerState this c1) = true
   /\ pendingTimer h c1 = Some (h, StartDrag down)
   /\ calls c1 = calls c)
  /\ (pointerId e <> pointerId down -> onDragChange check e c1 = c1)
  /\ (GestureState.canceled (recognizerState this c) = true ->
      GestureState.canceled (recognizerState this c1) = true
      /\ onDragChange check e c1 = c1
      /\ pendingTimer h (onDragChange check e c1) = Some (h, StartDrag down))
  /\ (pointerId e = pointerId down ->
      GestureState.canceled (recognizerState this c) = false ->
      onDragChange check e c1 = startDrag check e (clearTimeout this c1)
      /\ GestureState._active (recognizerState this (onDragChange check e c1))
         = true
      /\ GestureState.initial (recognizerState this (onDragChange check e c1))
         = getPointerEventValues e
      /\ pendingTimer h (onDragChange check e c1) = None)
  /\ (pointerId e = pointerId down ->
      fires
        (Config.filterTaps (recognizerConfig this c1)
         && GestureState._isTap (recognizerState this c1))
        (releasedState check (recognizerConfig this c1) e
           (recognizerState this c1)) = true ->
      pendingTimer h (onDragEnd check e c1) = None).
Proof.
  cbv zeta. intros S D.
  destruct (onDragStart_delayed check down c S D) as (R & RC & TI & TO & CA).
  assert (A0 : GestureState._active (recognizerState (DragRecognizer check) c)
               = false).
  { unfold dragShouldStart in S. apply andb_true_iff in S. destruct S as [_ S].
    now destruct (GestureState._active _). }
  assert (SP : pointerId e = pointerId down ->
               samePointer e
                 (recognizerState (DragRecognizer check)
                    (onDragStart check down c)) = true).
  { intro E. unfold samePointer. rewrite R. cbn. rewrite E. apply Z.eqb_refl. }
  assert (PT : pendingTimer (nextTimer c) (onDragStart check down c)
               = Some (nextTimer c, StartDrag down)).
  { unfold pendingTimer. rewrite TI. cbn [find fst]. now rewrite Nat.eqb_refl. }
  split; [| split; [| split; [| split]]].
  - rewrite R, CA. repeat split; [exact A0 | exact PT].
  - intro N. apply onDragChange_foreign.
    unfold samePointer. rewrite R. cbn.
    now apply Z.eqb_neq.
  - intro C.
    assert (C1 : GestureState.canceled
                   (recognizerState (DragRecognizer check)
                      (onDragStart check down c)) = true)
      by (rewrite R; exact C).
    assert (X : onDragChange check e (onDragStart check down c)
                = onDragStart check down c).
    { unfold onDragChange. now rewrite C1. }
    split; [exact C1 |]. split; [exact X |]. rewrite X. exact PT.
  - intros E C.
    assert (X : onDragChange check e (onDragStart check down c)
                = startDrag check e
                    (clearTimeout (DragRecognizer check)
                       (onDragStart check down c))).
    { apply onDragChange_delayed; [| now apply SP | |]; rewrite R; trivial. }
    rewrite X.
    destruct (startDrag_started check e
                (clearTimeout (DragRecognizer check) (onDragStart check down c)))
      as (A & I & G).
    repeat split; trivial.
    apply G. now apply windowClearTimeout_pending.
  - intros E F.
    destruct (onDragEnd_decompose check e _ (SP E))
      as (c3 & X & R3 & _ & _ & _ & TI3 & TO3 & _).
    rewrite X.
    destruct (fire_drag_timers check
                (Config.filterTaps
                   (recognizerConfig (DragRecognizer check)
                      (onDragStart check down c))
                 && GestureState._isTap
                      (recognizerState (DragRecognizer check)
                         (onDragStart check down c))) c3) as (_ & _ & T).
    rewrite R3 in T.
    destruct (releasedState_fields check
                (recognizerConfig (DragRecognizer check)
                   (onDragStart check down c)) e
                (recognizerState (DragRecognizer check)
                   (onDragStart check down c))) as (_ & _ & _ & A & _).
    rewrite (pendingTimer_timers _ _ _ (T F A)).
    apply windowClearTimeout_pending. now rewrite TO3.
Qed.

Lemma delayed_start_witness :
  (GestureState._active
     (recognizerState (DragRecognizer baseCheckIntentionality)
        (onDragChange baseCheckIntentionality DelayedDrag.move
           DelayedDrag.pending)) = true
   /\ pendingTimer 0
        (onDragChange baseCheckIntentionality DelayedDrag.move
           DelayedDrag.pending) = None)
  /\ onDragChange baseCheckIntentionality CanceledPress.move
       (onDragStart baseCheckIntentionality CanceledPress.down
          CanceledPress.ended)
     = onDragStart baseCheckIntentionality CanceledPress.down
         CanceledPress.ended.
Proof.
  split.
  2: {
    assert (S : dragShouldStart baseCheckIntentionality CanceledPress.ended
                = true) by (vm_compute; reflexivity).
    assert (D : gtb (Config.delay
                       (recognizerConfig
                          (DragRecognizer baseCheckIntentionality)
                          CanceledPress.ended)) 0 = true)
      by (vm_compute; reflexivity).
    assert (C : GestureState.canceled
                  (recognizerState (DragRecognizer baseCheckIntentionality)
                     CanceledPress.ended) = true)
      by (vm_compute; reflexivity).
    destruct (delayed_start baseCheckIntentionality CanceledPress.down
                CanceledPress.move CanceledPress.ended S D)
      as (_ & _ & H & _).
    destruct (H C) as (_ & X & _). exact X. }
  assert (S : dragShouldStart baseCheckIntentionality
                (Sample.controller DelayedDrag.options) = true)
    by (vm_compute; reflexivity).
  assert (D : gtb (Config.delay
                     (recognizerConfig (DragRecognizer baseCheckIntentionality)
                        (Sample.controller DelayedDrag.options))) 0 = true)
    by (vm_compute; reflexivity).
  destruct (delayed_start baseCheckIntentionality DelayedDrag.down
              DelayedDrag.move (Sample.controller DelayedDrag.options) S D)
    as (_ & _ & _ & H & _).
  destruct (H eq_refl eq_refl) as (_ & A & _ & G).
  split; [exact A | exact G].
Defined.

(** C4 (as stated) fails: under a delay of 180 ms, a move of the initiating
    pointer 50 ms after the press, with the timer still pending, starts the
    session and invokes the handler. *)
Lemma delayed_move_starts_session :
  let this := DragRecognizer baseCheckIntentionality in
  let moved :=
    onDragChange baseCheckIntentionality DelayedDrag.move DelayedDrag.pending in
  Config.delay (recognizerConfig this DelayedDrag.pending) == 180
  /\ pendingTimer 0 DelayedDrag.pending = Some (0%nat, StartDrag DelayedDrag.down)
  /\ GestureState._active (recognizerState this DelayedDrag.pending) = false
  /\ GestureState._active (recognizerState this moved) = true
  /\ length (calls DelayedDrag.pending) = 0%nat
  /\ length (calls moved) = 1%nat
  /\ GestureState.values (recognizerState this moved) = (14, 10)
  /\ GestureState.values (recognizerState this DelayedDrag.pending) = (0, 0).
Proof.
  cbv zeta. repeat split; vm_compute; reflexivity.
Qed.

(** ** The offset across sessions *)

Section Accumulation.
Variable check : CheckIntentionality.
Hypothesis never : neverBlocks check.
Local Abbreviation this := (DragRecognizer check).
Local Abbreviation rs := (recognizerState (DragRecognizer check)).
Local Abbreviation rc := (recognizerConfig (DragRecognizer check)).

Lemma onDragEnd_offset e c :
  samePointer e (rs c) = true ->
  GestureState.offset (rs (onDragEnd check e c))
  = computeRubberband (rc c)
      (Math.addV (finalMovement check (onDragEnd check e c))
         (GestureState.lastOffset (rs c)))
      (0, 0).
Proof.
  intro H. unfold finalMovement. cbv zeta.
  destruct (onDragEnd_state check e c H) as (F & C1 & _).
  apply firingFrame_fields in F.
  destruct F as (_ & _ & I & M & _ & _ & _ & _ & O & _).
  rewrite C1, I, M, O.
  destruct (releasedState_fields check (rc c) e (rs c))
    as (_ & _ & _ & _ & _ & _ & _ & _ & _ & _ & _ & _ & _ & X).
  apply X. apply never.
Qed.

Lemma startedState_offset cfg e st :
  GestureState.lastOffset (startedState check cfg e st) = GestureState.offset st
  /\ GestureState.offset (startedState check cfg e st)
     = computeRubberband cfg
         (Math.addV
            (rawMovement cfg
               (ic_intentional
                  (movementCheck this cfg (getPointerEventValues e) st))
               (getInternalMovement this (getPointerEventValues e) st))
            (GestureState.lastOffset st))
         (activeRubberband cfg st).
Proof.
  assert (B : fromMaybe false
                (ic_blocked
                   (movementCheck this cfg (getPointerEventValues e) st))
              = false) by (unfold movementCheck; apply never).
  unfold startedState. cbv zeta.
  rewrite getMovementOn_eq. cbn [fst snd]. rewrite B.
  unfold checkPartial.
  generalize (movementCheck this cfg (getPointerEventValues e) st).
  generalize (getInternalMovement this (getPointerEventValues e) st).
  intros m ic.
  destruct (ic_blocked ic) as [[|] |]; destruct (ic_axis ic); split; reflexivity.
Qed.

Lemma startDrag_offset e c :
  GestureState.lastOffset (rs (startDrag check e c)) = GestureState.offset (rs c)
  /\ GestureState.offset (rs (startDrag check e c))
     = computeRubberband (rc c)
         (Math.addV
            (rawMovement (rc c)
               (ic_intentional
                  (movementCheck this (rc c) (getPointerEventValues e) (rs c)))
               (getInternalMovement this (getPointerEventValues e) (rs c)))
            (GestureState.lastOffset (rs c)))
         (activeRubberband (rc c) (rs c)).
Proof.
  destruct (startDrag_decompose check e c) as (c3 & E & R & _).
  rewrite E.
  destruct (fire_drag_frame check false c3) as (F & _).
  rewrite R in F. apply firingFrame_fields in F.
  destruct F as (_ & _ & _ & _ & _ & _ & _ & _ & O & L & _).
  rewrite O, L. apply startedState_offset.
Qed.

Lemma dragSession_offset down moves up c :
  dragShouldStart check c = true ->
  gtb (Config.delay (rc c)) 0 = false ->
  pointerId up = pointerId down ->
  let c' := dragSession check down moves up c in
  GestureState.offset (rs c')
  = computeRubberband (rc c)
      (Math.addV (finalMovement check c') (GestureState.offset (rs c))) (0, 0)
  /\ GestureState.lastOffset (rs c') = GestureState.offset (rs c)
  /\ rc c' = rc c
  /\ config_enabled c' = config_enabled c
  /\ GestureState._active (rs c') = false.
Proof.
  intros S D U. cbv zeta. unfold dragSession.
  destruct (onDragStart_started check down c S D) as (T & _ & _ & L & RC & EN).
  pose proof (dragMoves_keeps check _ _ moves _ T) as K.
  pose proof (keeps_tracking check _ _ _ _ K T) as T2.
  pose proof (samePointer_tracking _ _ up _ T2 U) as P.
  destruct (onDragEnd_step check up _ P) as (K2 & _ & _ & A).
  pose proof (keeps_trans check _ _ _ K K2) as K3.
  destruct K3 as (K31 & K32 & _ & _ & _ & _ & K37).
  destruct K as (K11 & _ & _ & _ & _ & _ & K17).
  rewrite (onDragEnd_offset up _ P).
  rewrite K11, K17, K31, K32, K37, L, RC, EN.
  repeat split. exact A.
Qed.

Lemma runSessions_offset ss c :
  config_enabled c = true ->
  Config.enabled (rc c) = true ->
  gtb (Config.delay (rc c)) 0 = false ->
  GestureState._active (rs c) = false ->
  (forall s, In s ss -> pointerId (s_up s) = pointerId (s_down s)) ->
  GestureState.offset (rs (runSessions check ss c))
  = accumulate (rc c) (sessionMovements check ss c) (GestureState.offset (rs c)).
Proof.
  revert c. induction ss as [| s ss IH]; intros c EN CE D A W; [reflexivity |].
  cbn [runSessions fold_left sessionMovements accumulate].
  assert (S : dragShouldStart check c = true).
  { unfold dragShouldStart, recognizerEnabled. now rewrite EN, CE, A. }
  destruct (dragSession_offset (s_down s) (s_moves s) (s_up s) c S D
              (W s (or_introl eq_refl))) as (O & _ & RC & EN' & A').
  fold (runSession check s c) in O, RC, EN', A'.
  fold (runSessions check ss (runSession check s c)).
  rewrite IH; try assumption.
  - rewrite RC, O. reflexivity.
  - now rewrite EN'.
  - now rewrite RC.
  - now rewrite RC.
  - intros x X. apply W. now right.
Qed.
End Accumulation.

Lemma computeRubberband_unbounded (cfg : Config.t) (v : Vector2) :
  Config.bounds cfg = Sample.noBounds ->
  computeRubberband cfg v (0, 0) = v.
Proof.
  intro B. unfold computeRubberband. rewrite B. now destruct v.
Qed.

Lemma accumulate_unbounded (cfg : Config.t) (ms : list Vector2) (o : Vector2) :
  Config.bounds cfg = Sample.noBounds ->
  accumulate cfg ms o = fold_left (fun acc m => Math.addV m acc) ms o.
Proof.
  intro B. revert o. induction ms as [| m ms IH]; intro o; [reflexivity |].
  cbn [accumulate fold_left]. rewrite (computeRubberband_unbounded cfg _ B).
  apply IH.
Qed.



(** The offset on a start frame: after a first drag of 20 px ends at
    offset 20, a press at x = 50 leaves [lastOffset] at 20 and writes
    the offset 50, the displacement from the start of the previous
    session added to the previous [lastOffset]. *)
Lemma start_frame_offset_recomputed :
  let this := DragRecognizer baseCheckIntentionality in
  let c1 := runSession baseCheckIntentionality BoundedTrack.first
              (Sample.controller Sample.defaults) in
  let c2 := onDragStart baseCheckIntentionality (s_down BoundedTrack.second) c1 in
  fst (GestureState.offset (recognizerState this c1)) == 20
  /\ fst (GestureState.lastOffset (recognizerState this c1)) == 0
  /\ fst (GestureState.lastOffset (recognizerState this c2)) == 20
  /\ fst (GestureState.offset (recognizerState this c2)) == 50.
Proof.
  cbv zeta. repeat split; vm_compute; reflexivity.
Qed.


(** * Further properties *)

(** ** Kinematics *)

Lemma isZero_false (x : Q) : isZero x = false -> ~ x == 0.
Proof. unfold isZero. intros H E. apply Qeq_bool_iff in E. congruence. Qed.

Lemma isZero_true_inv (x : Q) : isZero x = true -> x == 0.
Proof. unfold isZero. apply Qeq_bool_iff. Qed.

Lemma normSq_zero (v : Vector2) : normSq v == 0 -> fst v == 0 /\ snd v == 0.
Proof.
  unfold normSq. destruct v as [x y]. cbn [fst snd]. intro H.
  split; nra.
Qed.

Lemma sign_scale (x k : Q) : 0 < k -> sign (x / (1 * k)) = sign x.
Proof.
  intro K.
  assert (E : x / (1 * k) * k == x) by (field; lra).
  set (y := x / (1 * k)) in *.
  unfold sign.
  destruct (Qcompare_spec x 0), (Qcompare_spec y 0); try reflexivity;
    exfalso; nra.
Qed.

Lemma normSq_nonneg (v : Vector2) : 0 <= normSq v.
Proof. unfold normSq. nra. Qed.

Lemma direction_unit (delta : Vector2) (len : Surd) :
  len = hypot delta \/ surdTruthy len = false ->
  exists a b,
    Math.calculateDirection delta len = Some (a, b)
    /\ (0 < rad a /\ 0 < rad b)
    /\ (normSq delta == 0 -> coef a == 0 /\ coef b == 0)
    /\ (~ normSq delta == 0 ->
        surdSq a + surdSq b == 1
        /\ sign (coef a) = sign (fst delta)
        /\ sign (coef b) = sign (snd delta)).
Proof.
  intro L.
  assert (E : Math.calculateDirection delta len
              = Math.calculateDirection delta (hypot delta)).
  { unfold Math.calculateDirection. destruct L as [-> | ->]; [reflexivity |].
    destruct (surdTruthy (hypot delta)); reflexivity. }
  rewrite E. clear E L len.
  unfold Math.calculateDirection.
  destruct (surdTruthy (hypot delta)) eqn:T.
  - unfold divQSurd. rewrite T. eexists _, _. split; [reflexivity |].
    unfold surdTruthy, hypot in T. cbn [coef rad] in T.
    apply andb_true_iff in T. destruct T as [_ T].
    apply negb_true_iff in T. apply isZero_false in T.
    fold (normSq delta) in T.
    split.
    { unfold hypot. cbn [rad]. fold (normSq delta).
      pose proof (normSq_nonneg delta). split; lra. }
    split; [intro Z; contradiction |]. intros _.
    unfold surdSq, hypot. cbn [coef rad]. fold (normSq delta).
    split; [| split].
    + unfold normSq in *. field. exact T.
    + apply sign_scale. pose proof (normSq_nonneg delta). lra.
    + apply sign_scale. pose proof (normSq_nonneg delta). lra.
  - unfold surdTruthy, hypot in T. cbn [coef rad] in T.
    change (isZero 1) with false in T. cbn [negb andb] in T.
    apply negb_false_iff in T. apply isZero_true_inv in T.
    fold (normSq delta) in T.
    change (surdTruthy (ofQ 1)) with true. cbv iota.
    unfold divQSurd. change (surdTruthy (ofQ 1)) with true. cbv iota.
    eexists _, _. split; [reflexivity |].
    split; [cbn [rad ofQ]; split; reflexivity |].
    split; [| intro N; contradiction]. intros _.
    destruct (normSq_zero delta T) as [X Y].
    cbn [coef ofQ rad]. rewrite X, Y. split; reflexivity.
Qed.

Lemma velocity_norm (movement delta : Vector2) (delta_t : Q) :
  exists k,
    Math.calculateAllKinematics movement delta delta_t = Some k
    /\ surdSq (Math.k_velocity k) == normSq (Math.k_velocities k)
    /\ surdSq (Math.k_distance k) == normSq movement
    /\ (0 < delta_t -> 0 <= coef (Math.k_velocity k))
    /\ (delta_t < 0 -> coef (Math.k_velocity k) <= 0).
Proof.
  unfold Math.calculateAllKinematics.
  pose proof (calculateDirection_total delta (hypot delta)) as D.
  destruct (Math.calculateDirection delta (hypot delta)) as [d |]; [| contradiction].
  unfold Math.calculateVelocities, Math.calculateVelocity.
  destruct (truthy delta_t) eqn:T.
  - rewrite !divQ_total by exact T.
    unfold divSurdQ. rewrite (truthy_isZero _ T).
    pose proof (isZero_false _ (truthy_isZero _ T)) as N.
    eexists. split; [reflexivity |]. cbn [Math.k_velocity Math.k_velocities Math.k_distance].
    assert (V : surdSq (mkSurd (coef (if surdTruthy (hypot delta) then hypot delta else hypot delta) / delta_t)
                    (rad (if surdTruthy (hypot delta) then hypot delta else hypot delta)))
               == normSq (fst delta / delta_t, snd delta / delta_t)).
    { destruct (surdTruthy (hypot delta)); unfold surdSq, normSq, hypot; cbn [coef rad fst snd]; field; exact N. }
    split; [exact V |].
    split; [unfold surdSq, normSq, Math.calculateDistance, hypot; cbn [coef rad]; ring |].
    assert (C : coef (if surdTruthy (hypot delta) then hypot delta else hypot delta) = 1)
      by (destruct (surdTruthy (hypot delta)); reflexivity).
    cbn [coef]. rewrite C.
    split; intro P.
    + apply Qle_shift_div_l; lra.
    + assert (1 / delta_t * delta_t == 1) by (field; exact N).
      set (y := 1 / delta_t) in *. nra.
  - eexists. split; [reflexivity |]. cbn [Math.k_velocity Math.k_velocities Math.k_distance].
    split; [reflexivity |].
    split; [unfold surdSq, normSq, Math.calculateDistance, hypot; cbn [coef rad]; ring |].
    cbn [coef ofQ]. split; intro; lra.
Qed.


(** ** The runway *)

Lemma sign_pos (x : Q) : 0 < x -> sign x = 1.
Proof. intro H. unfold sign. destruct (Qcompare_spec x 0); [exfalso; lra | exfalso; lra | reflexivity]. Qed.

Lemma sign_neg (x : Q) : x < 0 -> sign x = -(1).
Proof. intro H. unfold sign. destruct (Qcompare_spec x 0); [exfalso; lra | reflexivity | exfalso; lra]. Qed.

Lemma sign_zero (x : Q) : x == 0 -> sign x = 0.
Proof. intro H. unfold sign. destruct (Qcompare_spec x 0); [reflexivity | exfalso; lra | exfalso; lra]. Qed.

(** ** Frames *)

Lemma fire_contract (r : Recognizer) (f : bool) (c : Controller) :
  let st := recognizerState r c in
  match snd (fireGestureHandler r f c) with
  | Some full =>
      fires f st = true
      /\ fs_state full = firedState st
      /\ GestureState.active (fs_state full) = GestureState._active st
      /\ GestureState.first (fs_state full)
         = GestureState._active st && negb (GestureState.active st)
      /\ GestureState.last (fs_state full)
         = GestureState.active st && negb (GestureState._active st)
      /\ GestureState.first (fs_state full) && GestureState.last (fs_state full)
         = false
      /\ GestureState.memo (fs_state full) = GestureState.memo st
      /\ SharedGestureState.getIng (ingKey r) (fs_shared full)
         = GestureState._active st
  | None => fires f st = false
  end.
Proof.
  cbv zeta. unfold fires, fireGestureHandler. cbv zeta.
  destruct (GestureState._blocked (recognizerState r c)).
  { destruct (negb (debounced r)); reflexivity. }
  cbn [negb andb].
  destruct (negb f && _ && _); [reflexivity |].
  cbn [snd fs_state fs_shared negb].
  unfold firedState.
  repeat split.
  - destruct (GestureState._active _), (GestureState.active _); reflexivity.
  - cbn [shared withShared]. destruct (ingKey r); reflexivity.
Qed.

Lemma dragClean_listeners (c : Controller) :
  windowListeners (dragClean c) = setKey drag [] (windowListeners c).
Proof.
  unfold dragClean, baseClean, removeWindowListeners, withListeners, withState,
    windowClearTimeout.
  destruct (getKey drag (timeouts c)); reflexivity.
Qed.

Section Frames.
Variable check : CheckIntentionality.
Local Abbreviation this := (DragRecognizer check).
Local Abbreviation rs := (recognizerState (DragRecognizer check)).

Lemma rs_dragClean (c : Controller) :
  rs (dragClean c) = GestureState.set__delayedEvent false (rs c).
Proof. exact (proj1 (dragClean_frame c)). Qed.

Lemma shared_dragClean (c : Controller) : shared (dragClean c) = shared c.
Proof. destruct (dragClean_frame c) as (_ & _ & _ & _ & _ & B & _). exact B. Qed.

Lemma fire_drag_exact (f : bool) (c : Controller) :
  fires f (rs c) = true ->
  rs (fst (fireGestureHandler this f c))
  = (if negb (GestureState._active (rs c))
     then GestureState.set__delayedEvent false
     else fun s => s)
      (GestureState.set_memo
         (match getKey drag (handlers c) (handedState check c) with
          | Some m => Some m
          | None => GestureState.memo (rs c)
          end)
         (firedState (rs c)))
  /\ shared (fst (fireGestureHandler this f c))
     = SharedGestureState.setIng Dragging (GestureState._active (rs c)) (shared c)
  /\ windowListeners (fst (fireGestureHandler this f c))
     = (if negb (GestureState._active (rs c))
        then setKey drag [] (windowListeners c) else windowListeners c).
Proof.
  unfold fires, fireGestureHandler, handedState. cbv zeta.
  destruct (GestureState._blocked (rs c)); [discriminate |].
  cbn [negb andb].
  destruct (negb f && _ && _); [discriminate |]. intros _.
  cbn [fst stateKey ingKey mapStateValues clean DragRecognizer
       coordinatesMapStateValues].
  unfold firedState.
  destruct (GestureState._active (rs c)); cbn [negb].
  - repeat split.
  - rewrite rs_dragClean, shared_dragClean, dragClean_listeners. repeat split.
Qed.

Lemma startedState_more (cfg : Config.t) (e : PointerEvent) (st : GestureState.t) :
  let st' := startedState check cfg e st in
  GestureState.active st' = false
  /\ GestureState.elapsedTime st' = 0
  /\ GestureState.timeStamp st' = ev_timeStamp e
  /\ GestureState.previous st' = GestureState.values st
  /\ GestureState.memo st' = None
  /\ GestureState.tap st' = false
  /\ GestureState.swipe st' = (0, 0)
  /\ GestureState.cancel st' = onCancelFn
  /\ GestureState._blocked st'
     = fromMaybe false
         (ic_blocked (movementCheck this cfg (getPointerEventValues e) st))
  /\ GestureState._intentional st'
     = ic_intentional (movementCheck this cfg (getPointerEventValues e) st).
Proof.
  cbv zeta. unfold startedState. cbv zeta.
  rewrite getMovementOn_eq. cbn [fst snd]. unfold checkPartial.
  generalize (movementCheck this cfg (getPointerEventValues e) st).
  generalize (getInternalMovement this (getPointerEventValues e) st).
  intros m ic.
  destruct (ic_blocked ic) as [[|] |]; destruct (ic_axis ic);
    cbn [fromMaybe]; repeat split.
Qed.

Lemma changedState_more (cfg : Config.t) (e : PointerEvent) (st : GestureState.t) :
  let st' := changedState check cfg e st in
  GestureState.active st' = GestureState.active st
  /\ GestureState.elapsedTime st' = ev_timeStamp e - GestureState.startTime st
  /\ GestureState.timeStamp st' = ev_timeStamp e
  /\ GestureState.previous st' = GestureState.values st
  /\ GestureState.memo st' = GestureState.memo st
  /\ GestureState.cancel st' = onCancelFn
  /\ GestureState._blocked st'
     = fromMaybe (GestureState._blocked st)
         (ic_blocked (movementCheck this cfg (getPointerEventValues e) st))
  /\ GestureState._intentional st'
     = ic_intentional (movementCheck this cfg (getPointerEventValues e) st).
Proof.
  cbv zeta. unfold changedState, kinematicsOn. cbv zeta.
  rewrite getMovementOn_eq. cbn [fst snd]. unfold checkPartial.
  generalize (movementCheck this cfg (getPointerEventValues e) st).
  generalize (getInternalMovement this (getPointerEventValues e) st).
  intros m ic.
  destruct (ic_blocked ic) as [[|] |]; destruct (ic_axis ic);
    cbn [fromMaybe].
  all: try (destruct (Math.calculateAllKinematics _ _ _)).
  all: repeat split.
Qed.

Lemma releasedState_more (cfg : Config.t) (e : PointerEvent) (st : GestureState.t) :
  let st' := releasedState check cfg e st in
  GestureState.active st' = GestureState.active st
  /\ GestureState.elapsedTime st' = ev_timeStamp e - GestureState.startTime st
  /\ GestureState.timeStamp st' = ev_timeStamp e
  /\ GestureState.memo st' = GestureState.memo st
  /\ GestureState.velocities st' = GestureState.velocities st
  /\ GestureState.startTime st' = GestureState.startTime st.
Proof.
  cbv zeta. unfold releasedState, releaseUpdate, endStateOn. cbv zeta.
  rewrite getMovementOn_eq. cbn [fst snd]. unfold checkPartial.
  generalize (movementCheck this cfg
                (GestureState.values (GestureState.set__active false st))
                (GestureState.set__active false st)).
  generalize (getInternalMovement this
                (GestureState.values (GestureState.set__active false st))
                (GestureState.set__active false st)).
  intros m ic.
  destruct (ic_blocked ic) as [[|] |]; destruct (ic_axis ic);
    cbn [fromMaybe]; repeat split.
Qed.

Lemma firedState_fields (st : GestureState.t) :
  GestureState.active (firedState st) = GestureState._active st
  /\ GestureState.first (firedState st)
     = GestureState._active st && negb (GestureState.active st)
  /\ GestureState.last (firedState st)
     = GestureState.active st && negb (GestureState._active st)
  /\ GestureState._active (firedState st) = GestureState._active st
  /\ GestureState.memo (firedState st) = GestureState.memo st
  /\ GestureState.initial (firedState st) = GestureState.initial st
  /\ GestureState.values (firedState st) = GestureState.values st
  /\ GestureState.elapsedTime (firedState st) = GestureState.elapsedTime st
  /\ GestureState.startTime (firedState st) = GestureState.startTime st
  /\ GestureState.previous (firedState st) = GestureState.previous st
  /\ GestureState.tap (firedState st) = GestureState.tap st
  /\ GestureState.swipe (firedState st) = GestureState.swipe st
  /\ GestureState.canceled (firedState st) = GestureState.canceled st.
Proof. repeat split. Qed.

Lemma fire_drag_after (f : bool) (c : Controller) :
  fires f (rs c) = true ->
  GestureState.active (rs (fst (fireGestureHandler this f c)))
  = GestureState._active (rs c)
  /\ GestureState._active (rs (fst (fireGestureHandler this f c)))
     = GestureState._active (rs c)
  /\ GestureState._blocked (rs (fst (fireGestureHandler this f c)))
     = GestureState._blocked (rs c)
  /\ GestureState._intentional (rs (fst (fireGestureHandler this f c)))
     = GestureState._intentional (rs c)
  /\ GestureState.memo (rs (fst (fireGestureHandler this f c)))
     = match getKey drag (handlers c) (handedState check c) with
       | Some m => Some m
       | None => GestureState.memo (rs c)
       end
  /\ SharedGestureState.dragging (shared (fst (fireGestureHandler this f c)))
     = GestureState._active (rs c).
Proof.
  intro F. destruct (fire_drag_exact f c F) as (R & S & _).
  rewrite R, S.
  destruct (negb (GestureState._active (rs c))); repeat split; reflexivity.
Qed.
End Frames.

(** X6: a frame that fires right after another frame of the drag, with no
    change of [_active] in between, is handed neither [first] nor [last]:
    both are true on transition frames only. *)
Theorem consecutive_frames (check : CheckIntentionality) (f1 f2 : bool)
  (c : Controller) (full : FullGestureState) :
  let this := DragRecognizer check in
  fires f1 (recognizerState this c) = true ->
  snd (fireGestureHandler this f2 (fst (fireGestureHandler this f1 c)))
  = Some full ->
  GestureState.first (fs_state full) = false
  /\ GestureState.last (fs_state full) = false
  /\ GestureState.active (fs_state full)
     = GestureState._active (recognizerState this c).
Proof.
  cbv zeta. intros F1 E.
  destruct (fire_drag_after check f1 c F1) as (A & A' & _).
  pose proof (fire_contract (DragRecognizer check) f2
                (fst (fireGestureHandler (DragRecognizer check) f1 c))) as K.
  cbv zeta in K. rewrite E in K.
  destruct K as (_ & _ & KA & KF & KL & _).
  rewrite KA, KF, KL, A, A'.
  destruct (GestureState._active _); repeat split.
Qed.

(** X5: when a frame of the drag fires, the handler is invoked once with the
    memo of the previous frame; what it returns becomes the memo, unless it
    returns undefined, in which case the previous memo is kept; [active] and
    the shared dragging flag are set to [_active].  When the frame does not
    fire, nothing changes. *)
Theorem handler_memo (check : CheckIntentionality) (f : bool) (c : Controller) :
  let this := DragRecognizer check in
  let st := recognizerState this c in
  let c' := fst (fireGestureHandler this f c) in
  if fires f st then
    calls c' = (drag, handedState check c) :: calls c
    /\ GestureState.memo (fs_state (handedState check c)) = GestureState.memo st
    /\ GestureState.memo (recognizerState this c')
       = match getKey drag (handlers c) (handedState check c) with
         | Some m => Some m
         | None => GestureState.memo st
         end
    /\ GestureState.active (recognizerState this c') = GestureState._active st
    /\ SharedGestureState.dragging (shared c') = GestureState._active st
  else c' = c.
Proof.
  cbv zeta. destruct (fires f (recognizerState (DragRecognizer check) c)) eqn:F.
  - destruct (fire_drag_after check f c F) as (A & _ & _ & _ & M & D).
    rewrite (fire_drag_calls check f c F), A, M, D. repeat split.
  - now rewrite (fire_drag_silent check f c F).
Qed.

(** X9: at the release of the initiating pointer, if the end frame fires the
    handler is handed [active] false, [first] false, [last] equal to the
    settled [active], the tap flag, the time since the start and a shared
    state with no pointer down, and the drag is left inactive; if it does
    not fire, the handler is not invoked and [active] and the dragging flag
    are left as they were. *)
Theorem end_frame (check : CheckIntentionality) (e : PointerEvent)
  (c : Controller) :
  let this := DragRecognizer check in
  let st := recognizerState this c in
  let cfg := recognizerConfig this c in
  let c' := onDragEnd check e c in
  samePointer e st = true ->
  if fires (Config.filterTaps cfg && GestureState._isTap st)
       (releasedState check cfg e st)
  then
    exists full,
      calls c' = (drag, full) :: calls c
      /\ GestureState.active (fs_state full) = false
      /\ GestureState.first (fs_state full) = false
      /\ GestureState.last (fs_state full) = GestureState.active st
      /\ GestureState.tap (fs_state full) = GestureState._isTap st
      /\ GestureState.elapsedTime (fs_state full)
         = ev_timeStamp e - GestureState.startTime st
      /\ SharedGestureState.down (fs_shared full) = false
      /\ SharedGestureState.buttons (fs_shared full) = 0%Z
      /\ SharedGestureState.touches (fs_shared full) = 0%nat
      /\ SharedGestureState.dragging (fs_shared full) = false
      /\ GestureState.active (recognizerState this c') = false
      /\ SharedGestureState.dragging (shared c') = false
  else
    calls c' = calls c
    /\ GestureState.active (recognizerState this c') = GestureState.active st
    /\ SharedGestureState.dragging (shared c') = SharedGestureState.dragging (shared c).
Proof.
  cbv zeta. intro H.
  destruct (onDragEnd_decompose check e c H)
    as (c3 & E & R & _ & CA & SH & _).
  destruct (releasedState_fields check
              (recognizerConfig (DragRecognizer check) c) e
              (recognizerState (DragRecognizer check) c))
    as (_ & T & _ & A & _).
  destruct (releasedState_more check
              (recognizerConfig (DragRecognizer check) c) e
              (recognizerState (DragRecognizer check) c))
    as (AC & EL & _).
  rewrite E.
  destruct (fires _ (releasedState _ _ _ _)) eqn:F.
  - rewrite <- R in F.
    destruct (fire_drag_after check _ c3 F) as (A1 & _ & _ & _ & _ & D1).
    rewrite (fire_drag_calls check _ c3 F), A1, D1, R, CA, SH.
    eexists. split; [reflexivity |].
    cbn [fs_state fs_shared].
    destruct (firedState_fields
                (releasedState check (recognizerConfig (DragRecognizer check) c) e
                   (recognizerState (DragRecognizer check) c)))
      as (FA & FF & FL & _ & _ & _ & _ & FE & _ & _ & FT & _).
    rewrite FA, FF, FL, FE, FT, A, AC, EL, T.
    cbn [negb andb]. rewrite andb_true_r.
    repeat split.
  - rewrite <- R in F. rewrite (fire_drag_silent check _ c3 F). cbn [fst].
    rewrite R, CA, SH, AC. repeat split.
Qed.

Lemma startDrag_handed (check : CheckIntentionality) (e : PointerEvent)
  (c : Controller) :
  exists c3,
    startDrag check e c = fst (fireGestureHandler (DragRecognizer check) false c3)
    /\ recognizerState (DragRecognizer check) c3
       = startedState check (recognizerConfig (DragRecognizer check) c) e
           (recognizerState (DragRecognizer check) c)
    /\ calls c3 = calls c
    /\ shared c3 = SharedGestureState.assign (shared c) (getGenericEventData e)
    /\ handlers c3 = handlers c.
Proof.
  unfold startDrag. cbv zeta.
  match goal with
  | |- context [fireGestureHandler _ ?f ?c3] => exists c3
  end.
  split; [reflexivity |].
  split; [lens; reflexivity |].
  repeat split.
Qed.

Lemma onDragChange_handed (check : CheckIntentionality) (e : PointerEvent)
  (c : Controller) :
  GestureState.canceled (recognizerState (DragRecognizer check) c) = false ->
  samePointer e (recognizerState (DragRecognizer check) c) = true ->
  GestureState._active (recognizerState (DragRecognizer check) c) = true ->
  eventDown e = true ->
  exists c3,
    onDragChange check e c
    = fst (fireGestureHandler (DragRecognizer check) false c3)
    /\ recognizerState (DragRecognizer check) c3
       = changedState check (recognizerConfig (DragRecognizer check) c) e
           (recognizerState (DragRecognizer check) c)
    /\ calls c3 = calls c
    /\ shared c3 = SharedGestureState.assign (shared c) (getGenericEventData e)
    /\ handlers c3 = handlers c.
Proof.
  intros C P A D. unfold onDragChange. cbv zeta. rewrite C, P, A, D. cbn [negb].
  match goal with
  | |- context [fireGestureHandler _ ?f ?c3] => exists c3
  end.
  split; [reflexivity |].
  split; [lens; reflexivity |].
  rewrite !fst_getKinematics.
  repeat split.
Qed.

(** X7: [startDrag] hands the handler, when the start frame fires, [first]
    true, [last] false, [active] true, the position of the event as
    [initial], an elapsed time of 0 and the time of the event as
    [startTime]; when it does not fire (no axis intentional yet, or
    blocked) the handler is not invoked and the session is active but not
    settled. *)
Theorem start_frame (check : CheckIntentionality) (e : PointerEvent)
  (c : Controller) :
  let this := DragRecognizer check in
  let st := recognizerState this c in
  let cfg := recognizerConfig this c in
  let c' := startDrag check e c in
  if fires false (startedState check cfg e st) then
    exists full,
      calls c' = (drag, full) :: calls c
      /\ GestureState.first (fs_state full) = true
      /\ GestureState.last (fs_state full) = false
      /\ GestureState.active (fs_state full) = true
      /\ GestureState.initial (fs_state full) = getPointerEventValues e
      /\ GestureState.elapsedTime (fs_state full) = 0
      /\ GestureState.startTime (fs_state full) = ev_timeStamp e
      /\ GestureState.previous (fs_state full) = GestureState.values st
      /\ SharedGestureState.down (fs_shared full) = eventDown e
      /\ SharedGestureState.dragging (fs_shared full) = true
      /\ GestureState.active (recognizerState this c') = true
  else
    calls c' = calls c
    /\ GestureState._active (recognizerState this c') = true
    /\ GestureState.active (recognizerState this c') = false.
Proof.
  cbv zeta.
  destruct (startDrag_handed check e c) as (c3 & E & R & CA & SH & _).
  destruct (startedState_fields check
              (recognizerConfig (DragRecognizer check) c) e
              (recognizerState (DragRecognizer check) c))
    as (A & _ & I & _ & _ & _ & _ & ST).
  destruct (startedState_more check
              (recognizerConfig (DragRecognizer check) c) e
              (recognizerState (DragRecognizer check) c))
    as (AC & EL & _ & PR & _).
  rewrite E.
  destruct (fires false (startedState _ _ _ _)) eqn:F.
  - rewrite <- R in F.
    destruct (fire_drag_after check _ c3 F) as (A1 & _ & _ & _ & _ & D1).
    rewrite (fire_drag_calls check _ c3 F), A1, R, CA, SH.
    eexists. split; [reflexivity |].
    cbn [fs_state fs_shared].
    destruct (firedState_fields
                (startedState check (recognizerConfig (DragRecognizer check) c) e
                   (recognizerState (DragRecognizer check) c)))
      as (FA & FF & FL & _ & _ & FI & _ & FE & FS & FP & _).
    rewrite FA, FF, FL, FI, FE, FS, FP, A, AC, EL, I, ST, PR.
    repeat split.
  - rewrite <- R in F. rewrite (fire_drag_silent check _ c3 F). cbn [fst].
    rewrite R, CA, A, AC. repeat split.
Qed.

(** X8: for a tracked sample of an active drag, if the frame fires the
    handler is handed [first] exactly when no earlier frame of the session
    had settled [active], [last] false, the values of the previous sample
    as [previous], the time since the start and the memo of the previous
    frame; if it does not fire the handler is not invoked. *)
Theorem change_frame (check : CheckIntentionality) (e : PointerEvent)
  (c : Controller) :
  let this := DragRecognizer check in
  let st := recognizerState this c in
  let cfg := recognizerConfig this c in
  let c' := onDragChange check e c in
  GestureState.canceled st = false ->
  samePointer e st = true ->
  GestureState._active st = true ->
  eventDown e = true ->
  if fires false (changedState check cfg e st) then
    exists full,
      calls c' = (drag, full) :: calls c
      /\ GestureState.first (fs_state full) = negb (GestureState.active st)
      /\ GestureState.last (fs_state full) = false
      /\ GestureState.active (fs_state full) = true
      /\ GestureState.previous (fs_state full) = GestureState.values st
      /\ GestureState.elapsedTime (fs_state full)
         = ev_timeStamp e - GestureState.startTime st
      /\ GestureState.memo (fs_state full) = GestureState.memo st
      /\ SharedGestureState.down (fs_shared full) = true
      /\ SharedGestureState.dragging (fs_shared full) = true
      /\ GestureState.active (recognizerState this c') = true
  else
    calls c' = calls c
    /\ GestureState.active (recognizerState this c') = GestureState.active st.
Proof.
  cbv zeta. intros C P A D.
  destruct (onDragChange_handed check e c C P A D) as (c3 & E & R & CA & SH & _).
  destruct (changedState_fields check
              (recognizerConfig (DragRecognizer check) c) e
              (recognizerState (DragRecognizer check) c))
    as (A' & _).
  destruct (changedState_more check
              (recognizerConfig (DragRecognizer check) c) e
              (recognizerState (DragRecognizer check) c))
    as (AC & EL & _ & PR & M & _).
  rewrite E.
  destruct (fires false (changedState _ _ _ _)) eqn:F.
  - rewrite <- R in F.
    destruct (fire_drag_after check _ c3 F) as (A1 & _ & _ & _ & _ & D1).
    rewrite (fire_drag_calls check _ c3 F), A1, R, CA, SH.
    eexists. split; [reflexivity |].
    cbn [fs_state fs_shared].
    destruct (firedState_fields
                (changedState check (recognizerConfig (DragRecognizer check) c) e
                   (recognizerState (DragRecognizer check) c)))
      as (FA & FF & FL & _ & FM & _ & _ & FE & _ & FP & _).
    rewrite FA, FF, FL, FM, FE, FP, A', AC, EL, PR, M, A.
    cbn [negb andb]. rewrite andb_false_r.
    unfold eventDown in D.
    repeat split.
    destruct e; cbn in *. exact D.
  - rewrite <- R in F. rewrite (fire_drag_silent check _ c3 F). cbn [fst].
    rewrite R, CA, AC. repeat split.
Qed.

(** ** Samples: delta and blocked samples *)

Section SampleDelta.

Variable r : Recognizer.
Variable cfg : Config.t.

Lemma sample_delta (v : Vector2) (st : GestureState.t) :
  veq (GestureState.movement (sample r cfg v st))
    (Math.addV (GestureState.movement st)
       (GestureState.delta (sample r cfg v st))).
Proof.
  unfold sample. rewrite getMovementOn_eq. cbn [fst snd]. unfold checkPartial.
  generalize (movementCheck r cfg v st).
  generalize (getInternalMovement r v st).
  intros m ic.
  destruct (ic_blocked ic) as [[|] |]; destruct (ic_axis ic);
    cbn [fromMaybe]; unfold veq, Math.addV, Math.subV; cbn; split; ring.
Qed.

Lemma veq_refl (v : Vector2) : veq v v.
Proof. split; reflexivity. Qed.

Lemma veq_trans (u v w : Vector2) : veq u v -> veq v w -> veq u w.
Proof. intros [A B] [C D]. split; [now rewrite A | now rewrite B]. Qed.

Lemma samples_delta (vs : list Vector2) (st : GestureState.t) :
  veq (GestureState.movement (samples r cfg vs st))
    (Math.addV (GestureState.movement st) (sumV (deltas r cfg vs st))).
Proof.
  revert st. induction vs as [| v vs IH]; intro st.
  - unfold veq, Math.addV. cbn. split; ring.
  - cbn [samples fold_left deltas sumV fold_right].
    apply (veq_trans _ _ _ (IH (sample r cfg v st))).
    destruct (sample_delta v st) as [A B].
    fold (sumV (deltas r cfg vs (sample r cfg v st))).
    unfold veq, Math.addV in *. cbn [fst snd] in *.
    split; [rewrite A | rewrite B]; ring.
Qed.

Lemma sample_blocked (v : Vector2) (st : GestureState.t) :
  fromMaybe false (ic_blocked (movementCheck r cfg v st)) = true ->
  let st' := sample r cfg v st in
  GestureState.movement st' = GestureState.movement st
  /\ GestureState.offset st' = GestureState.offset st
  /\ GestureState.lastOffset st' = GestureState.lastOffset st
  /\ GestureState.values st' = GestureState.values st
  /\ GestureState.delta st' = (0, 0)
  /\ GestureState._blocked st' = true
  /\ GestureState._movement st' = getInternalMovement r v st
  /\ GestureState._intentional st' = ic_intentional (movementCheck r cfg v st).
Proof.
  intro B. cbv zeta. unfold sample. rewrite getMovementOn_eq. cbn [fst snd].
  rewrite B. unfold checkPartial.
  revert B.
  generalize (movementCheck r cfg v st).
  generalize (getInternalMovement r v st).
  intros m ic.
  destruct (ic_blocked ic) as [[|] |]; destruct (ic_axis ic);
    cbn [fromMaybe]; intro B; try discriminate; repeat split.
Qed.

End SampleDelta.

(** ** Guards of the drag *)

Section Guards.

Variable check : CheckIntentionality.

Local Abbreviation this := (DragRecognizer check).
Local Abbreviation rs := (recognizerState (DragRecognizer check)).
Local Abbreviation rc := (recognizerConfig (DragRecognizer check)).

Lemma onDragStart_refused (e : PointerEvent) (c : Controller) :
  dragShouldStart check c = false -> onDragStart check e c = c.
Proof. intro H. unfold onDragStart. now rewrite H. Qed.

Lemma dragShouldStart_active (c : Controller) :
  GestureState._active (rs c) = true -> dragShouldStart check c = false.
Proof.
  intro A. unfold dragShouldStart. rewrite A. apply andb_false_r.
Qed.

Lemma onDragEnd_foreign (e : PointerEvent) (c : Controller) :
  samePointer e (rs c) = false -> onDragEnd check e c = c.
Proof. intro H. unfold onDragEnd. now rewrite H. Qed.

Lemma dispatch_foreign (id : Z) (ev : DragEvent) (c : Controller) :
  GestureState._active (rs c) = true ->
  GestureState._pointerId (rs c) = Some id ->
  foreignTo id ev ->
  dispatch check ev c = c.
Proof.
  intros A P F.
  assert (S : forall e, pointerId e <> id -> samePointer e (rs c) = false).
  { intros e N. apply samePointer_false. rewrite P. congruence. }
  destruct ev as [e | e | e | e]; cbn [dispatch foreignTo] in *.
  - apply onDragStart_refused. now apply dragShouldStart_active.
  - apply onDragChange_foreign. now apply S.
  - apply onDragEnd_foreign. now apply S.
  - apply onDragEnd_foreign. now apply S.
Qed.

Lemma dragMoves_idle (moves : list PointerEvent) (c : Controller) :
  GestureState._active (rs c) = false ->
  GestureState._delayedEvent (rs c) = false ->
  dragMoves check moves c = c.
Proof.
  intros A D. induction moves as [| e moves IH]; [reflexivity |].
  cbn [dragMoves fold_left]. rewrite (onDragChange_idle check e c A D).
  exact IH.
Qed.

End Guards.

(** ** Cancellation *)

Section Cancel.

Variable check : CheckIntentionality.

Local Abbreviation this := (DragRecognizer check).
Local Abbreviation rs := (recognizerState (DragRecognizer check)).
Local Abbreviation rc := (recognizerConfig (DragRecognizer check)).

Lemma onCancel_fields (c : Controller) :
  rs (fst (onCancel check c)) = canceledState (rs c)
  /\ shared (fst (onCancel check c))
     = SharedGestureState.assign (shared c) releasePartial
  /\ calls (fst (onCancel check c)) = calls c
  /\ timers (fst (onCancel check c)) = timers c
  /\ timeouts (fst (onCancel check c)) = timeouts c
  /\ rc (fst (onCancel check c)) = rc c
  /\ handlers (fst (onCancel check c)) = handlers c.
Proof.
  unfold onCancel. cbv zeta. cbn [fst].
  split; [| repeat split].
  lens. destruct (rs c). reflexivity.
Qed.

Lemma onCancel_twice (c : Controller) :
  fst (onCancel check (fst (onCancel check c))) = fst (onCancel check c).
Proof.
  destruct c as [en cfg sh [sd ss] hs to ti nt wl ca].
  destruct sd, sh. reflexivity.
Qed.

Lemma onDragChange_canceled (e : PointerEvent) (c : Controller) :
  GestureState.canceled (rs c) = true -> onDragChange check e c = c.
Proof. intro H. unfold onDragChange. cbv zeta. now rewrite H. Qed.

End Cancel.

(** ** The delay timer *)

Section DelayTimer.

Variable check : CheckIntentionality.

Local Abbreviation this := (DragRecognizer check).
Local Abbreviation rs := (recognizerState (DragRecognizer check)).
Local Abbreviation rc := (recognizerConfig (DragRecognizer check)).

Lemma runTimer_unknown (h : nat) (c : Controller) :
  pendingTimer h c = None -> runTimer check h c = c.
Proof. unfold pendingTimer, runTimer. now intros ->. Qed.

Lemma onDragStart_armed (e : PointerEvent) (c : Controller) :
  dragShouldStart check c = true ->
  gtb (Config.delay (rc c)) 0 = true ->
  let c1 := onDragStart check e c in
  rs c1
  = GestureState.set__delayedEvent true
      (GestureState.set__pointerId (Some (pointerId e)) (rs c))
  /\ rc c1 = rc c
  /\ config_enabled c1 = config_enabled c
  /\ timers c1 = (nextTimer c, StartDrag e) :: timers c
  /\ nextTimer c1 = S (nextTimer c)
  /\ getKey drag (timeouts c1) = Some (nextTimer c)
  /\ calls c1 = calls c.
Proof.
  intros S D. cbv zeta. unfold onDragStart. cbv zeta. rewrite S. cbn [negb].
  lens.
  change (recognizerConfig this (setListeners c)) with (rc c). rewrite D.
  repeat split.
Qed.

Lemma startDrag_session (e : PointerEvent) (c : Controller) :
  let c' := startDrag check e c in
  GestureState._active (rs c') = true
  /\ GestureState._isTap (rs c') = true
  /\ GestureState.initial (rs c') = getPointerEventValues e
  /\ GestureState.lastOffset (rs c') = GestureState.offset (rs c)
  /\ GestureState._pointerId (rs c') = Some (pointerId e)
  /\ GestureState.canceled (rs c') = false
  /\ GestureState._delayedEvent (rs c') = false
  /\ GestureState.startTime (rs c') = ev_timeStamp e.
Proof.
  cbv zeta.
  destruct (startDrag_decompose check e c) as (c3 & E & R & _).
  rewrite E.
  destruct (fire_drag_frame check false c3) as (F & _).
  rewrite R in F.
  pose proof (firingFrame_delayedEvent _ _ F) as DE.
  apply firingFrame_fields in F.
  destruct F as (A1 & _ & _ & _ & _ & _ & I & _ & _ & L & _ & _ & ST & CA & T & P1 & _).
  destruct (startedState_fields check (rc c) e (rs c))
    as (A' & T' & I' & L' & P' & CA' & D' & ST').
  rewrite A1, I, L, ST, CA, T, P1, A', T', I', L', P', CA', ST'.
  repeat split. now apply DE.
Qed.

End DelayTimer.

(** ** Thresholds, kinematics and the firing contract *)

(** X1: for a non-negative threshold, [getIntentionalDisplacement] (and the
    exported [getIntentional], which computes the same) answers false
    exactly below the threshold; at or past it, the displacement left after
    the runway, [m - i], has magnitude [|m| - threshold] and never points
    against the movement: the emitted movement starts from 0 at the
    crossing, with no jump. *)
Theorem threshold_runway (m t : Q) :
  0 <= t ->
  Math.getIntentional m t = getIntentionalDisplacement m t
  /\ match getIntentionalDisplacement m t with
     | Some i => t <= Qabs m /\ Qabs (m - i) == Qabs m - t
                 /\ (m - i == 0 \/ sign (m - i) = sign m)
     | None => Qabs m < t
     end.
Proof.
  intro T. split; [reflexivity |].
  unfold getIntentionalDisplacement, geb, abs.
  destruct (Qle_bool t (Qabs m)) eqn:G.
  - apply Qle_bool_iff in G. split; [exact G |].
    destruct (Qlt_le_dec m 0) as [L | L].
    + rewrite (sign_neg m L).
      pose proof (Qabs_neg m (Qlt_le_weak _ _ L)) as A.
      assert (B : m - -(1) * t <= 0) by lra.
      pose proof (Qabs_neg _ B) as C.
      split; [lra |].
      destruct (Qlt_le_dec (m - -(1) * t) 0) as [Z | Z].
      * right. apply sign_neg. exact Z.
      * left. lra.
    + destruct (Qlt_le_dec 0 m) as [P | P].
      * rewrite (sign_pos m P).
        pose proof (Qabs_pos m L) as A.
        assert (B : 0 <= m - 1 * t) by lra.
        pose proof (Qabs_pos _ B) as C.
        split; [lra |].
        destruct (Qlt_le_dec 0 (m - 1 * t)) as [Z | Z].
        -- right. apply sign_pos. exact Z.
        -- left. lra.
      * assert (E : m == 0) by lra.
        rewrite (sign_zero m E).
        pose proof (Qabs_pos m L) as A.
        assert (B : 0 <= m - 0 * t) by lra.
        pose proof (Qabs_pos _ B) as C.
        split; [lra | left; lra].
  - apply Qnot_le_lt. intro L. apply Qle_bool_iff in L. congruence.
Qed.

Lemma threshold_runway_witness :
  getIntentionalDisplacement (-(8)) 3 = Some (sign (-(8)) * 3)
  /\ Qabs (-(8) - sign (-(8)) * 3) == Qabs (-(8)) - 3.
Proof.
  pose proof (threshold_runway (-(8)) 3 ltac:(discriminate)) as [_ H].
  change (getIntentionalDisplacement (-(8)) 3) with (Some (sign (-(8)) * 3)) in H.
  destruct H as (_ & H & _). split; [reflexivity | exact H].
Defined.

(** X2: [calculateDirection], called with the length of [delta] or without
    a length, never divides by zero and returns a unit vector pointing as
    [delta] does, or the zero vector when [delta] is zero (the radicands
    are positive, so the sign of a component is that of its coefficient). *)
Theorem direction_is_unit_or_zero (delta : Vector2) :
  exists a b,
    Math.calculateDirection delta (hypot delta) = Some (a, b)
    /\ Math.calculateDirection delta (ofQ 0) = Some (a, b)
    /\ surdSq a + surdSq b == (if isZero (normSq delta) then 0 else 1)
    /\ (0 < rad a /\ sign (coef a) = sign (fst delta))
    /\ (0 < rad b /\ sign (coef b) = sign (snd delta)).
Proof.
  destruct (direction_unit delta (hypot delta) (or_introl eq_refl))
    as (a & b & E & (RA & RB) & Z & N).
  exists a, b. split; [exact E |].
  split.
  { rewrite <- E. unfold Math.calculateDirection.
    change (surdTruthy (ofQ 0)) with false. cbv iota.
    destruct (surdTruthy (hypot delta)); reflexivity. }
  destruct (isZero (normSq delta)) eqn:I.
  - apply isZero_true_inv in I. destruct (Z I) as [A B].
    destruct (normSq_zero delta I) as [X Y].
    split; [| split; split; trivial].
    + unfold surdSq. rewrite A, B. ring.
    + rewrite (sign_zero _ A). symmetry. now apply sign_zero.
    + rewrite (sign_zero _ B). symmetry. now apply sign_zero.
  - apply isZero_false in I. destruct (N I) as (U & SA & SB).
    split; [exact U |]. split; split; trivial.
Qed.

(** X3: [calculateAllKinematics] always returns; its [velocity] is the norm
    of its [velocities] up to sign (both are 0 when [delta_t] is 0), it is
    non-negative exactly when [delta_t] is non-negative or [delta] is zero,
    and its [distance] is the norm of [movement]. *)
Theorem velocity_is_norm_of_velocities (movement delta : Vector2) (delta_t : Q) :
  exists k,
    Math.calculateAllKinematics movement delta delta_t = Some k
    /\ surdSq (Math.k_velocity k) == normSq (Math.k_velocities k)
    /\ surdSq (Math.k_distance k) == normSq movement
    /\ surdGeb (Math.k_velocity k) 0
       = Qle_bool 0 delta_t || isZero (normSq delta).
Proof.
  destruct (velocity_norm movement delta delta_t) as (k & E & V & D & _).
  exists k. repeat split; trivial.
  revert E. unfold Math.calculateAllKinematics.
  destruct (Math.calculateVelocities delta delta_t); [| discriminate].
  destruct (Math.calculateDirection delta (hypot delta)); [| destruct
    (Math.calculateVelocity delta delta_t (hypot delta)); discriminate].
  unfold Math.calculateVelocity, divSurdQ.
  assert (L : (if surdTruthy (hypot delta) then hypot delta else hypot delta)
              = hypot delta) by (destruct (surdTruthy (hypot delta)); reflexivity).
  rewrite L. clear L.
  destruct (truthy delta_t) eqn:T.
  - rewrite (truthy_isZero _ T).
    pose proof (isZero_false _ (truthy_isZero _ T)) as N.
    intro E. injection E as <-. cbn [Math.k_velocity].
    unfold surdGeb, hypot. cbn [coef rad]. fold (normSq delta).
    change (Qle_bool 0 0) with true. cbv iota.
    assert (I : 1 / delta_t * delta_t == 1) by (field; exact N).
    pose proof (normSq_nonneg delta) as NN.
    set (y := 1 / delta_t) in *. set (n := normSq delta) in *.
    apply eq_iff_eq_true.
    destruct (Qle_bool 0 y) eqn:Y.
    + apply Qle_bool_iff in Y. split; [intros _ | reflexivity].
      apply orb_true_iff. left. apply Qle_bool_iff. nra.
    + assert (Y' : y < 0).
      { apply Qnot_le_lt. intro H. apply Qle_bool_iff in H. congruence. }
      rewrite orb_true_iff, !Qle_bool_iff.
      unfold isZero. rewrite Qeq_bool_iff.
      split.
      * intro H. right. change (0 * 0) with 0 in H.
        assert (0 < y * y) by nra. nra.
      * intros [H | H]; [exfalso; nra |].
        rewrite H. change (0 * 0) with 0. lra.
  - intro E. injection E as <-. cbn [Math.k_velocity].
    assert (Z : delta_t == 0).
    { unfold truthy in T. apply negb_false_iff in T.
      now apply isZero_true_inv. }
    assert (Q0 : Qle_bool 0 delta_t = true)
      by (apply Qle_bool_iff; rewrite Z; apply Qle_refl).
    rewrite Q0. reflexivity.
Qed.

(** X4: for every recognizer, [fireGestureHandler] returns a state exactly
    when the gesture is not blocked and an axis is intentional or the flag
    forces it; the state it hands over then has [active] equal to
    [_active], [first] true only on the idle-to-active transition, [last]
    true only on the active-to-idle transition (never both), the memo of
    the previous frame, and the shared is-active flag equal to [_active]. *)
Theorem firing_contract (r : Recognizer) (f : bool) (c : Controller) :
  let st := recognizerState r c in
  match snd (fireGestureHandler r f c) with
  | Some full =>
      fires f st = true
      /\ fs_state full = firedState st
      /\ GestureState.active (fs_state full) = GestureState._active st
      /\ GestureState.first (fs_state full)
         = GestureState._active st && negb (GestureState.active st)
      /\ GestureState.last (fs_state full)
         = GestureState.active st && negb (GestureState._active st)
      /\ GestureState.first (fs_state full) && GestureState.last (fs_state full)
         = false
      /\ GestureState.memo (fs_state full) = GestureState.memo st
      /\ SharedGestureState.getIng (ingKey r) (fs_shared full)
         = GestureState._active st
  | None => fires f st = false
  end.
Proof. exact (fire_contract r f c). Qed.

(** X10: while a drag is active, a pointer down of any pointer, and a move,
    up or cancel of a pointer other than the initiating one, leave the
    controller as it is: no state change, no handler call, no timer; and so
    does any sequence of such events. *)
Theorem foreign_events_ignored (check : CheckIntentionality) (id : Z)
  (evs : list DragEvent) (c : Controller) :
  GestureState._active (recognizerState (DragRecognizer check) c) = true ->
  GestureState._pointerId (recognizerState (DragRecognizer check) c) = Some id ->
  Forall (foreignTo id) evs ->
  dispatchAll check evs c = c.
Proof.
  intros A P F. induction F as [| ev evs H _ IH]; [reflexivity |].
  cbn [dispatchAll fold_left]. rewrite (dispatch_foreign check id ev c A P H).
  exact IH.
Qed.

Lemma foreign_events_ignored_witness :
  dispatchAll baseCheckIntentionality SecondPointer.events FastSwipe.beforeRelease
  = FastSwipe.beforeRelease.
Proof.
  assert (A : GestureState._active
                (recognizerState (DragRecognizer baseCheckIntentionality)
                   FastSwipe.beforeRelease) = true)
    by (vm_compute; reflexivity).
  assert (P : GestureState._pointerId
                (recognizerState (DragRecognizer baseCheckIntentionality)
                   FastSwipe.beforeRelease) = Some 1%Z)
    by (vm_compute; reflexivity).
  assert (F : Forall (foreignTo 1) SecondPointer.events).
  { unfold SecondPointer.events.
    repeat constructor; cbn; discriminate. }
  exact (foreign_events_ignored baseCheckIntentionality 1
           SecondPointer.events FastSwipe.beforeRelease A P F).
Defined.

Lemma down_setIng (k : IngKey) (b : bool) (s : SharedGestureState.t) :
  SharedGestureState.down (SharedGestureState.setIng k b s)
  = SharedGestureState.down s.
Proof. destruct k, s; reflexivity. Qed.

Lemma down_released (s : SharedGestureState.t) :
  SharedGestureState.down (SharedGestureState.assign s releasePartial) = false.
Proof. destruct s; reflexivity. Qed.

Lemma onDragEnd_down (check : CheckIntentionality) (e : PointerEvent)
  (c : Controller) :
  samePointer e (recognizerState (DragRecognizer check) c) = true ->
  SharedGestureState.down (shared (onDragEnd check e c)) = false.
Proof.
  intro P.
  destruct (onDragEnd_decompose check e c P)
    as (c3 & X & R3 & _ & _ & S3 & _).
  rewrite X.
  match goal with
  | |- context [fireGestureHandler _ ?f c3] => set (f0 := f)
  end.
  destruct (fires f0 (recognizerState (DragRecognizer check) c3)) eqn:F.
  - destruct (fire_drag_exact check f0 c3 F) as (_ & S & _).
    rewrite S, down_setIng, S3. apply down_released.
  - rewrite (fire_drag_silent check f0 c3 F). cbn [fst].
    rewrite S3. apply down_released.
Qed.

(** X11: a move of the initiating pointer that arrives during an active
    drag with no button and no touch left is handled as the release: the
    session ends as [onDragEnd] ends it, no pointer is down afterwards,
    and later moves are no longer answered. *)
Theorem pointer_lost_ends_session (check : CheckIntentionality)
  (e : PointerEvent) (later : list PointerEvent) (c : Controller) :
  let rs := recognizerState (DragRecognizer check) in
  let c' := onDragChange check e c in
  GestureState.canceled (rs c) = false ->
  samePointer e (rs c) = true ->
  GestureState._active (rs c) = true ->
  GestureState._delayedEvent (rs c) = false ->
  eventDown e = false ->
  c' = onDragEnd check e c
  /\ GestureState._active (rs c') = false
  /\ SharedGestureState.down (shared c') = false
  /\ dragMoves check later c' = c'.
Proof.
  cbv zeta. intros CA P A D E.
  rewrite (onDragChange_released check e c CA P A E).
  destruct (onDragEnd_step check e c P) as (K & _ & _ & A').
  split; [reflexivity |]. split; [exact A' |].
  split; [exact (onDragEnd_down check e c P) |].
  apply dragMoves_idle; [exact A' |].
  destruct K as (_ & _ & _ & _ & _ & DE & _). exact (DE D).
Qed.

Lemma pointer_lost_ends_session_witness :
  let this := DragRecognizer baseCheckIntentionality in
  let c' := onDragChange baseCheckIntentionality LostPointer.lost
              FastSwipe.beforeRelease in
  GestureState._active (recognizerState this FastSwipe.beforeRelease) = true
  /\ GestureState._active (recognizerState this c') = false
  /\ dragMoves baseCheckIntentionality LostPointer.late c' = c'.
Proof.
  cbv zeta.
  assert (CA : GestureState.canceled
                 (recognizerState (DragRecognizer baseCheckIntentionality)
                    FastSwipe.beforeRelease) = false)
    by (vm_compute; reflexivity).
  assert (P : samePointer LostPointer.lost
                (recognizerState (DragRecognizer baseCheckIntentionality)
                   FastSwipe.beforeRelease) = true)
    by (vm_compute; reflexivity).
  assert (A : GestureState._active
                (recognizerState (DragRecognizer baseCheckIntentionality)
                   FastSwipe.beforeRelease) = true)
    by (vm_compute; reflexivity).
  assert (D : GestureState._delayedEvent
                (recognizerState (DragRecognizer baseCheckIntentionality)
                   FastSwipe.beforeRelease) = false)
    by (vm_compute; reflexivity).
  assert (E : eventDown LostPointer.lost = false) by (vm_compute; reflexivity).
  destruct (pointer_lost_ends_session baseCheckIntentionality LostPointer.lost
              LostPointer.late FastSwipe.beforeRelease CA P A D E)
    as (_ & A' & _ & M).
  split; [exact A |]. split; [exact A' | exact M].
Defined.

(** X12: [onCancel] marks the drag canceled and inactive and the pointer
    released at once, calls no handler and clears no timer by itself;
    calling it again changes nothing more, and after it every pointer move
    is ignored. *)
Theorem cancel_stops_the_drag (check : CheckIntentionality) (e : PointerEvent)
  (c : Controller) :
  let rs := recognizerState (DragRecognizer check) in
  let c' := fst (onCancel check c) in
  rs c' = canceledState (rs c)
  /\ GestureState.canceled (rs c') = true
  /\ GestureState._active (rs c') = false
  /\ SharedGestureState.down (shared c') = false
  /\ calls c' = calls c
  /\ timers c' = timers c
  /\ fst (onCancel check c') = c'
  /\ onDragChange check e c' = c'.
Proof.
  cbv zeta.
  destruct (onCancel_fields check c) as (R & S & CA & TI & _).
  assert (CT : GestureState.canceled
                 (recognizerState (DragRecognizer check) (fst (onCancel check c)))
               = true) by (rewrite R; reflexivity).
  split; [exact R |]. split; [exact CT |].
  split; [rewrite R; reflexivity |].
  split; [rewrite S; apply down_released |].
  split; [exact CA |]. split; [exact TI |].
  split; [apply onCancel_twice |].
  now apply onDragChange_canceled.
Qed.

(** X13: the animation frame requested by [onCancel] fires the handler
    once if an axis of the drag is intentional and the drag is not
    blocked: the state handed over is canceled and inactive, [last] is
    true exactly when the drag had fired an active frame, and the pending
    delay timer of the drag is cleared; otherwise the frame does nothing. *)
Theorem cancel_frame (check : CheckIntentionality) (c : Controller) :
  let rs := recognizerState (DragRecognizer check) in
  let c1 := fst (onCancel check c) in
  let c' := runFrame check (snd (onCancel check c)) c1 in
  if fires false (canceledState (rs c)) then
    exists full,
      calls c' = (drag, full) :: calls c
      /\ GestureState.canceled (fs_state full) = true
      /\ GestureState.active (fs_state full) = false
      /\ GestureState.first (fs_state full) = false
      /\ GestureState.last (fs_state full) = GestureState.active (rs c)
      /\ SharedGestureState.down (fs_shared full) = false
      /\ SharedGestureState.dragging (fs_shared full) = false
      /\ GestureState.active (rs c') = false
      /\ GestureState._active (rs c') = false
      /\ GestureState.canceled (rs c') = true
      /\ (forall h, getKey drag (timeouts c) = Some h -> pendingTimer h c' = None)
  else c' = c1.
Proof.
  cbv zeta.
  destruct (onCancel_fields check c) as (R & S & CA & TI & TO & _).
  change (snd (onCancel check c)) with FlushFrame. cbn [runFrame].
  set (c1 := fst (onCancel check c)) in *.
  destruct (fires false (canceledState (recognizerState (DragRecognizer check) c)))
    eqn:F; rewrite <- R in F.
  - exists (handedState check c1).
    assert (A1 : GestureState._active (recognizerState (DragRecognizer check) c1)
                 = false) by (rewrite R; reflexivity).
    destruct (fire_drag_after check false c1 F) as (A & A' & _).
    destruct (fire_drag_exact check false c1 F) as (RX & _).
    split.
    { rewrite (fire_drag_calls check false c1 F), CA. reflexivity. }
    unfold handedState. cbn [fs_state fs_shared].
    rewrite R.
    split; [reflexivity |]. split; [reflexivity |]. split; [reflexivity |].
    split.
    { unfold firedState, canceledState.
      destruct (recognizerState (DragRecognizer check) c). cbn.
      apply andb_true_r. }
    split; [rewrite down_setIng, S; apply down_released |].
    split; [destruct (shared c1); reflexivity |].
    rewrite A, A', A1.
    split; [reflexivity |]. split; [reflexivity |].
    split.
    { rewrite RX, A1. cbn [negb]. rewrite R. reflexivity. }
    intros h H.
    destruct (fire_drag_timers check false c1) as (_ & _ & T).
    rewrite (pendingTimer_timers _ _ _ (T F A1)).
    apply windowClearTimeout_pending. now rewrite TO.
  - now rewrite (fire_drag_silent check false c1 F).
Qed.

Lemma pendingTimer_head (h : nat) (cb : TimerCallback) (c c' : Controller) :
  timers c' = (h, cb) :: timers c -> pendingTimer h c' = Some (h, cb).
Proof.
  intro T. unfold pendingTimer. rewrite T. cbn [find fst].
  now rewrite Nat.eqb_refl.
Qed.

Lemma runTimer_pending (check : CheckIntentionality) (h : nat) (e : PointerEvent)
  (c : Controller) :
  pendingTimer h c = Some (h, StartDrag e) ->
  getKey drag (timeouts c) = Some h ->
  runTimer check h c = startDrag check e (clearTimeout (DragRecognizer check) c).
Proof.
  intros P T. unfold runTimer, pendingTimer in *. rewrite P.
  unfold clearTimeout, windowClearTimeout.
  cbn [stateKey DragRecognizer]. rewrite T. reflexivity.
Qed.

Lemma rs_clearTimeout (check : CheckIntentionality) (c : Controller) :
  recognizerState (DragRecognizer check) (clearTimeout (DragRecognizer check) c)
  = recognizerState (DragRecognizer check) c.
Proof.
  unfold clearTimeout, recognizerState.
  destruct (windowClearTimeout_frame (stateKey (DragRecognizer check)) c)
    as (S & _).
  now rewrite S.
Qed.

(** X14: under a delay, when the timer armed by the press expires before
    any move, the drag starts from the press itself: the session is
    active, locked to the pointer of the press, [initial] is the position
    of the press and [startTime] its time stamp, and the offset of the
    previous session is carried over; the timer is spent, and running it
    again does nothing. *)
Theorem delay_timer_starts_drag (check : CheckIntentionality) (e : PointerEvent)
  (c : Controller) :
  let this := DragRecognizer check in
  let rs := recognizerState this in
  let h := nextTimer c in
  let c1 := onDragStart check e c in
  let c2 := runTimer check h c1 in
  dragShouldStart check c = true ->
  gtb (Config.delay (recognizerConfig this c)) 0 = true ->
  c2 = startDrag check e (clearTimeout this c1)
  /\ GestureState._active (rs c2) = true
  /\ GestureState._pointerId (rs c2) = Some (pointerId e)
  /\ GestureState.initial (rs c2) = getPointerEventValues e
  /\ GestureState.startTime (rs c2) = ev_timeStamp e
  /\ GestureState._delayedEvent (rs c2) = false
  /\ GestureState.lastOffset (rs c2) = GestureState.offset (rs c)
  /\ pendingTimer h c2 = None
  /\ runTimer check h c2 = c2.
Proof.
  cbv zeta. intros S D.
  destruct (onDragStart_armed check e c S D) as (R1 & _ & _ & TI & _ & TO & _).
  pose proof (pendingTimer_head _ _ _ _ TI) as P.
  rewrite (runTimer_pending check _ e _ P TO).
  set (c1 := onDragStart check e c) in *.
  set (c1' := clearTimeout (DragRecognizer check) c1).
  destruct (startDrag_session check e c1') as (A & _ & I & L & PI & _ & DE & ST).
  assert (G : pendingTimer (nextTimer c) (startDrag check e c1') = None).
  { destruct (startDrag_started check e c1') as (_ & _ & K). apply K.
    apply windowClearTimeout_pending. exact TO. }
  split; [reflexivity |].
  split; [exact A |]. split; [exact PI |]. split; [exact I |].
  split; [exact ST |]. split; [exact DE |].
  split.
  { rewrite L. unfold c1'. rewrite rs_clearTimeout, R1. reflexivity. }
  split; [exact G |].
  now apply runTimer_unknown.
Qed.

Lemma delay_timer_starts_drag_witness :
  let this := DragRecognizer baseCheckIntentionality in
  let c2 := runTimer baseCheckIntentionality 0 DelayedDrag.pending in
  GestureState._active (recognizerState this c2) = true
  /\ GestureState.startTime (recognizerState this c2)
     = ev_timeStamp DelayedDrag.down
  /\ pendingTimer 0 c2 = None.
Proof.
  cbv zeta.
  assert (S : dragShouldStart baseCheckIntentionality
                (Sample.controller DelayedDrag.options) = true)
    by (vm_compute; reflexivity).
  assert (D : gtb (Config.delay
                     (recognizerConfig (DragRecognizer baseCheckIntentionality)
                        (Sample.controller DelayedDrag.options))) 0 = true)
    by (vm_compute; reflexivity).
  destruct (delay_timer_starts_drag baseCheckIntentionality DelayedDrag.down
              (Sample.controller DelayedDrag.options) S D)
    as (_ & A & _ & _ & ST & _ & _ & G & _).
  split; [exact A |]. split; [exact ST | exact G].
Defined.

(** X15: under a delay, a release of the pressing pointer whose end frame
    does not fire (no axis intentional, no tap to report) calls no handler
    and leaves the timer of the press armed; when that timer expires the
    drag starts although the pointer was released. *)
Theorem unfired_release_leaves_timer (check : CheckIntentionality)
  (down up : PointerEvent) (c : Controller) :
  let this := DragRecognizer check in
  let rs := recognizerState this in
  let rc := recognizerConfig this in
  let h := nextTimer c in
  let c1 := onDragStart check down c in
  let c2 := onDragEnd check up c1 in
  dragShouldStart check c = true ->
  gtb (Config.delay (rc c)) 0 = true ->
  pointerId up = pointerId down ->
  fires (Config.filterTaps (rc c) && GestureState._isTap (rs c))
    (releasedState check (rc c) up (rs c1)) = false ->
  calls c2 = calls c
  /\ GestureState._active (rs c2) = false
  /\ SharedGestureState.down (shared c2) = false
  /\ pendingTimer h c2 = Some (h, StartDrag down)
  /\ GestureState._active (rs (runTimer check h c2)) = true
  /\ GestureState._pointerId (rs (runTimer check h c2)) = Some (pointerId down).
Proof.
  cbv zeta. intros S D PI F.
  destruct (onDragStart_armed check down c S D)
    as (R1 & C1 & _ & TI & _ & TO & CA).
  set (c1 := onDragStart check down c) in *.
  assert (SP : samePointer up (recognizerState (DragRecognizer check) c1) = true).
  { unfold samePointer. rewrite R1. cbn. rewrite PI. apply Z.eqb_refl. }
  assert (T1 : GestureState._isTap (recognizerState (DragRecognizer check) c1)
               = GestureState._isTap (recognizerState (DragRecognizer check) c))
    by (rewrite R1; reflexivity).
  destruct (onDragEnd_decompose check up c1 SP)
    as (c3 & X & R3 & C3 & CA3 & S3 & TI3 & TO3 & _).
  rewrite C1, T1 in X. rewrite C1 in R3.
  rewrite <- R3 in F.
  rewrite (fire_drag_silent check _ c3 F) in X. cbn [fst] in X.
  rewrite X.
  assert (P : pendingTimer (nextTimer c) c3 = Some (nextTimer c, StartDrag down)).
  { rewrite (pendingTimer_timers _ c1 c3 TI3).
    exact (pendingTimer_head _ _ _ _ TI). }
  destruct (releasedState_fields check
              (recognizerConfig (DragRecognizer check) c) up
              (recognizerState (DragRecognizer check) c1))
    as (_ & _ & _ & A & _).
  split; [now rewrite CA3 |].
  split; [rewrite R3; exact A |].
  split; [rewrite S3; apply down_released |].
  split; [exact P |].
  rewrite (runTimer_pending check _ down _ P) by (now rewrite TO3).
  destruct (startDrag_session check down
              (clearTimeout (DragRecognizer check) c3))
    as (A' & _ & _ & _ & PI' & _).
  split; [exact A' | exact PI'].
Qed.

Lemma unfired_release_leaves_timer_witness :
  let this := DragRecognizer baseCheckIntentionality in
  let c2 := onDragEnd baseCheckIntentionality LeakedTimer.up
              (onDragStart baseCheckIntentionality LeakedTimer.down
                 LeakedTimer.afterFirst) in
  pendingTimer 1 c2 = Some (1%nat, StartDrag LeakedTimer.down)
  /\ SharedGestureState.down (shared c2) = false
  /\ GestureState._active
       (recognizerState this (runTimer baseCheckIntentionality 1 c2)) = true.
Proof.
  cbv zeta.
  assert (S : dragShouldStart baseCheckIntentionality LeakedTimer.afterFirst
              = true) by (vm_compute; reflexivity).
  assert (D : gtb (Config.delay
                     (recognizerConfig (DragRecognizer baseCheckIntentionality)
                        LeakedTimer.afterFirst)) 0 = true)
    by (vm_compute; reflexivity).
  assert (PI : pointerId LeakedTimer.up = pointerId LeakedTimer.down)
    by reflexivity.
  assert (F : fires
                (Config.filterTaps
                   (recognizerConfig (DragRecognizer baseCheckIntentionality)
                      LeakedTimer.afterFirst)
                 && GestureState._isTap
                      (recognizerState (DragRecognizer baseCheckIntentionality)
                         LeakedTimer.afterFirst))
                (releasedState baseCheckIntentionality
                   (recognizerConfig (DragRecognizer baseCheckIntentionality)
                      LeakedTimer.afterFirst)
                   LeakedTimer.up
                   (recognizerState (DragRecognizer baseCheckIntentionality)
                      (onDragStart baseCheckIntentionality LeakedTimer.down
                         LeakedTimer.afterFirst))) = false)
    by (vm_compute; reflexivity).
  assert (N : nextTimer LeakedTimer.afterFirst = 1%nat)
    by (vm_compute; reflexivity).
  destruct (unfired_release_leaves_timer baseCheckIntentionality
              LeakedTimer.down LeakedTimer.up LeakedTimer.afterFirst S D PI F)
    as (_ & _ & DW & P & A & _).
  rewrite N in P, A.
  split; [exact P |]. split; [exact DW | exact A].
Defined.

(** X16: a second press while the delay of a first press is still running
    is accepted: the drag is locked to the pointer of the second press
    and a second timer is armed; the handle of the first timer is lost,
    so the first timer stays armed and [clearTimeout] only drops the
    second. *)
Theorem second_press_leaks_timer (check : CheckIntentionality)
  (e1 e2 : PointerEvent) (c : Controller) :
  let this := DragRecognizer check in
  let rs := recognizerState this in
  let h := nextTimer c in
  let c2 := onDragStart check e2 (onDragStart check e1 c) in
  dragShouldStart check c = true ->
  gtb (Config.delay (recognizerConfig this c)) 0 = true ->
  GestureState._pointerId (rs c2) = Some (pointerId e2)
  /\ GestureState._active (rs c2) = false
  /\ calls c2 = calls c
  /\ pendingTimer h c2 = Some (h, StartDrag e1)
  /\ pendingTimer (S h) c2 = Some (S h, StartDrag e2)
  /\ pendingTimer h (clearTimeout this c2) = Some (h, StartDrag e1)
  /\ pendingTimer (S h) (clearTimeout this c2) = None.
Proof.
  cbv zeta. intros S0 D.
  destruct (onDragStart_armed check e1 c S0 D)
    as (R1 & C1 & E1 & TI1 & N1 & TO1 & CA1).
  set (c1 := onDragStart check e1 c) in *.
  assert (A0 : GestureState._active (recognizerState (DragRecognizer check) c)
               = false).
  { unfold dragShouldStart in S0. apply andb_true_iff in S0.
    destruct S0 as (_ & S0). now apply negb_true_iff in S0. }
  assert (S1 : dragShouldStart check c1 = true).
  { unfold dragShouldStart, recognizerEnabled in *.
    rewrite R1, C1, E1. exact S0. }
  assert (D1 : gtb (Config.delay (recognizerConfig (DragRecognizer check) c1)) 0
               = true) by (now rewrite C1).
  destruct (onDragStart_armed check e2 c1 S1 D1)
    as (R2 & _ & _ & TI2 & _ & TO2 & CA2).
  set (c2 := onDragStart check e2 c1) in *.
  rewrite N1 in TI2, TO2.
  assert (NE : Nat.eqb (S (nextTimer c)) (nextTimer c) = false)
    by (apply Nat.eqb_neq; lia).
  assert (NE' : Nat.eqb (nextTimer c) (S (nextTimer c)) = false)
    by (apply Nat.eqb_neq; lia).
  split; [rewrite R2; reflexivity |].
  split; [rewrite R2, R1; exact A0 |].
  split; [now rewrite CA2 |].
  split.
  { unfold pendingTimer. rewrite TI2, TI1. cbn [find fst].
    now rewrite NE, Nat.eqb_refl. }
  split; [exact (pendingTimer_head _ _ _ _ TI2) |].
  split.
  - unfold clearTimeout, windowClearTimeout, pendingTimer.
    cbn [stateKey DragRecognizer]. rewrite TO2. cbn [timers].
    rewrite TI2, TI1. cbn [filter fst].
    rewrite Nat.eqb_refl, NE'. cbn [negb find fst].
    now rewrite Nat.eqb_refl.
  - apply windowClearTimeout_pending. exact TO2.
Qed.

Lemma second_press_leaks_timer_witness :
  let c2 := onDragStart baseCheckIntentionality (Sample.pointer 2 20 50 50 1)
              DelayedDrag.pending in
  pendingTimer 0 (clearTimeout (DragRecognizer baseCheckIntentionality) c2)
  = Some (0%nat, StartDrag DelayedDrag.down)
  /\ pendingTimer 1 (clearTimeout (DragRecognizer baseCheckIntentionality) c2)
     = None.
Proof.
  cbv zeta.
  assert (S : dragShouldStart baseCheckIntentionality
                (Sample.controller DelayedDrag.options) = true)
    by (vm_compute; reflexivity).
  assert (D : gtb (Config.delay
                     (recognizerConfig (DragRecognizer baseCheckIntentionality)
                        (Sample.controller DelayedDrag.options))) 0 = true)
    by (vm_compute; reflexivity).
  destruct (second_press_leaks_timer baseCheckIntentionality DelayedDrag.down
              (Sample.pointer 2 20 50 50 1)
              (Sample.controller DelayedDrag.options) S D)
    as (_ & _ & _ & _ & _ & P & Q).
  split; [exact P | exact Q].
Defined.

(** X17: for every recognizer, [delta] is the change of [movement] made by
    the sample, on blocked samples too (no change, [delta] zero): over any
    run of samples the movement is the movement before the run plus the
    sum of the deltas. *)
Theorem delta_accumulates (r : Recognizer) (cfg : Config.t) (vs : list Vector2)
  (v : Vector2) (st : GestureState.t) :
  veq (GestureState.movement (sample r cfg v st))
    (Math.addV (GestureState.movement st)
       (GestureState.delta (sample r cfg v st)))
  /\ veq (GestureState.movement (samples r cfg vs st))
       (Math.addV (GestureState.movement st) (sumV (deltas r cfg vs st))).
Proof.
  split; [apply sample_delta | apply samples_delta].
Qed.

(** X18: a sample that [checkIntentionality] blocks records only the
    check, the true displacement and a zero [delta]: [movement], [offset],
    [lastOffset] and [values] stay as they were, and no frame fires on the
    state, forced or not. *)
Theorem blocked_sample_freezes (r : Recognizer) (cfg : Config.t) (v : Vector2)
  (st : GestureState.t) :
  let st' := sample r cfg v st in
  fromMaybe false (ic_blocked (movementCheck r cfg v st)) = true ->
  GestureState.movement st' = GestureState.movement st
  /\ GestureState.offset st' = GestureState.offset st
  /\ GestureState.lastOffset st' = GestureState.lastOffset st
  /\ GestureState.values st' = GestureState.values st
  /\ GestureState.delta st' = (0, 0)
  /\ GestureState._movement st' = getInternalMovement r v st
  /\ GestureState._blocked st' = true
  /\ forall f, fires f st' = false.
Proof.
  cbv zeta. intro B.
  destruct (sample_blocked r cfg v st B) as (M & O & L & V & D & BL & IM & _).
  repeat (split; [assumption |]).
  intro f. unfold fires. now rewrite BL.
Qed.

Lemma blocked_sample_freezes_witness :
  let st' := sample (DragRecognizer lockToX) Sample.defaults (1, 10)
               getInitialState in
  GestureState.values st' = (0, 0)
  /\ GestureState._movement st' = (1 - 0, 10 - 0)
  /\ fires true st' = false.
Proof.
  cbv zeta.
  assert (B : fromMaybe false
                (ic_blocked
                   (movementCheck (DragRecognizer lockToX) Sample.defaults
                      (1, 10) getInitialState)) = true)
    by (vm_compute; reflexivity).
  destruct (blocked_sample_freezes (DragRecognizer lockToX) Sample.defaults
              (1, 10) getInitialState B)
    as (_ & _ & _ & V & _ & M & _ & F).
  split; [exact V |]. split; [exact M | exact (F true)].
Defined.

(** X19: the drag [threshold] normalizer keeps a threshold that is given
    (a number stands for both axes); when none is given the threshold is
    3 px under [filterTaps], else 1 px under [lockDirection] or [axis],
    else 0, and tap filtering is then on exactly when one of the three
    options is set.  In every case the resolved [filterTaps] is false only
    if it was not asked for and the two thresholds sum to at most 0. *)
Theorem drag_threshold_resolution (config : Options.DragConfig) :
  let cfg := Options.getInternalDragOptions config in
  let asked := fromMaybe false (Options.o_filterTaps config) in
  let locked := fromMaybe false (Options.o_lockDirection config) in
  let onAxis := match Options.o_axis config with Some _ => true | None => false end in
  match Options.o_threshold config with
  | Some (Options.Num n) => Config.threshold cfg = (n, n)
  | Some (Options.Vec v) => Config.threshold cfg = v
  | None =>
      Config.threshold cfg
      = (if asked then (3, 3) else if locked || onAxis then (1, 1) else (0, 0))
      /\ Config.filterTaps cfg = asked || locked || onAxis
  end
  /\ (Config.filterTaps cfg = false <->
      asked = false
      /\ fst (Config.threshold cfg) + snd (Config.threshold cfg) <= 0).
Proof.
  cbv zeta.
  unfold Options.getInternalDragOptions, Options.dragThreshold.
  cbn [Config.threshold Config.filterTaps fst snd].
  split.
  - destruct (Options.o_threshold config) as [[n | v] |]; cbn; try reflexivity.
    destruct (fromMaybe false (Options.o_filterTaps config)),
      (fromMaybe false (Options.o_lockDirection config)),
      (Options.o_axis config); split; reflexivity.
  - set (A := Options.ensureVector _ _).
    unfold gtb. rewrite orb_false_iff, negb_false_iff, Qle_bool_iff.
    reflexivity.
Qed.

Lemma consecutive_frames_witness :
  let this := DragRecognizer baseCheckIntentionality in
  let full :=
    handedState baseCheckIntentionality
      (fst (fireGestureHandler this false FastSwipe.beforeRelease)) in
  GestureState.first (fs_state full) = false
  /\ GestureState.last (fs_state full) = false
  /\ GestureState.active (fs_state full) = true.
Proof.
  cbv zeta.
  assert (F : fires false
                (recognizerState (DragRecognizer baseCheckIntentionality)
                   FastSwipe.beforeRelease) = true)
    by (vm_compute; reflexivity).
  assert (S : snd (fireGestureHandler (DragRecognizer baseCheckIntentionality)
                     false
                     (fst (fireGestureHandler
                             (DragRecognizer baseCheckIntentionality) false
                             FastSwipe.beforeRelease)))
              = Some (handedState baseCheckIntentionality
                        (fst (fireGestureHandler
                                (DragRecognizer baseCheckIntentionality) false
                                FastSwipe.beforeRelease))))
    by (vm_compute; reflexivity).
  assert (A : GestureState._active
                (recognizerState (DragRecognizer baseCheckIntentionality)
                   FastSwipe.beforeRelease) = true)
    by (vm_compute; reflexivity).
  destruct (consecutive_frames baseCheckIntentionality false false
              FastSwipe.beforeRelease _ F S) as (X & Y & Z).
  rewrite A in Z.
  split; [exact X |]. split; [exact Y | exact Z].
Defined.

Lemma end_frame_witness :
  exists full,
    calls (onDragEnd baseCheckIntentionality FastSwipe.release
             FastSwipe.beforeRelease)
    = (drag, full) :: calls FastSwipe.beforeRelease
    /\ GestureState.active (fs_state full) = false
    /\ GestureState.last (fs_state full) = true
    /\ SharedGestureState.down (fs_shared full) = false.
Proof.
  assert (P : samePointer FastSwipe.release
                (recognizerState (DragRecognizer baseCheckIntentionality)
                   FastSwipe.beforeRelease) = true)
    by (vm_compute; reflexivity).
  assert (F : fires
                (Config.filterTaps
                   (recognizerConfig (DragRecognizer baseCheckIntentionality)
                      FastSwipe.beforeRelease)
                 && GestureState._isTap
                      (recognizerState (DragRecognizer baseCheckIntentionality)
                         FastSwipe.beforeRelease))
                (releasedState baseCheckIntentionality
                   (recognizerConfig (DragRecognizer baseCheckIntentionality)
                      FastSwipe.beforeRelease)
                   FastSwipe.release
                   (recognizerState (DragRecognizer baseCheckIntentionality)
                      FastSwipe.beforeRelease)) = true)
    by (vm_compute; reflexivity).
  assert (A : GestureState.active
                (recognizerState (DragRecognizer baseCheckIntentionality)
                   FastSwipe.beforeRelease) = true)
    by (vm_compute; reflexivity).
  pose proof (end_frame baseCheckIntentionality FastSwipe.release
                FastSwipe.beforeRelease P) as H.
  cbv zeta in H. rewrite F in H.
  destruct H as (full & C & AC & _ & L & _ & _ & D & _).
  exists full. rewrite A in L.
  split; [exact C |]. split; [exact AC |]. split; [exact L | exact D].
Defined.

Lemma change_frame_witness :
  exists full,
    calls (onDragChange baseCheckIntentionality (Sample.pointer 1 120 90 5 1)
             FastSwipe.beforeRelease)
    = (drag, full) :: calls FastSwipe.beforeRelease
    /\ GestureState.first (fs_state full) = false
    /\ GestureState.last (fs_state full) = false
    /\ GestureState.previous (fs_state full) = (80, 5).
Proof.
  assert (CA : GestureState.canceled
                 (recognizerState (DragRecognizer baseCheckIntentionality)
                    FastSwipe.beforeRelease) = false)
    by (vm_compute; reflexivity).
  assert (P : samePointer (Sample.pointer 1 120 90 5 1)
                (recognizerState (DragRecognizer baseCheckIntentionality)
                   FastSwipe.beforeRelease) = true)
    by (vm_compute; reflexivity).
  assert (A : GestureState._active
                (recognizerState (DragRecognizer baseCheckIntentionality)
                   FastSwipe.beforeRelease) = true)
    by (vm_compute; reflexivity).
  assert (E : eventDown (Sample.pointer 1 120 90 5 1) = true)
    by (vm_compute; reflexivity).
  assert (F : fires false
                (changedState baseCheckIntentionality
                   (recognizerConfig (DragRecognizer baseCheckIntentionality)
                      FastSwipe.beforeRelease)
                   (Sample.pointer 1 120 90 5 1)
                   (recognizerState (DragRecognizer baseCheckIntentionality)
                      FastSwipe.beforeRelease)) = true)
    by (vm_compute; reflexivity).
  assert (A2 : GestureState.active
                 (recognizerState (DragRecognizer baseCheckIntentionality)
                    FastSwipe.beforeRelease) = true)
    by (vm_compute; reflexivity).
  assert (V : GestureState.values
                (recognizerState (DragRecognizer baseCheckIntentionality)
                   FastSwipe.beforeRelease) = (80, 5))
    by (vm_compute; reflexivity).
  pose proof (change_frame baseCheckIntentionality (Sample.pointer 1 120 90 5 1)
                FastSwipe.beforeRelease CA P A E) as H.
  cbv zeta in H. rewrite F in H.
  destruct H as (full & C & FI & L & _ & PR & _).
  exists full. rewrite A2 in FI. rewrite V in PR.
  split; [exact C |]. split; [exact FI |]. split; [exact L | exact PR].
Defined.

Lemma startedState_check (check : CheckIntentionality) (cfg : Config.t)
  (e : PointerEvent) (st : GestureState.t) :
  let st' := startedState check cfg e st in
  GestureState._movement st'
  = getInternalMovement (DragRecognizer check) (getPointerEventValues e) st
  /\ GestureState._intentional st'
     = ic_intentional
         (movementCheck (DragRecognizer check) cfg (getPointerEventValues e) st).
Proof.
  cbv zeta. unfold startedState. cbv zeta.
  rewrite getMovementOn_eq. cbn [fst snd]. unfold checkPartial.
  generalize (movementCheck (DragRecognizer check) cfg
                (getPointerEventValues e) st).
  generalize (getInternalMovement (DragRecognizer check)
                (getPointerEventValues e) st).
  intros m ic.
  destruct (ic_blocked ic) as [[|] |]; destruct (ic_axis ic);
    cbn [fromMaybe]; repeat split.
Qed.

(** X20: [startDrag] computes the movement of the start frame on the state
    as it is before the start state is written: the displacement is taken
    by [getInternalMovement] on the state of the previous session, and an
    axis that was intentional in the previous session is intentional from
    the first frame of the new one, without crossing the threshold again
    (for a [checkIntentionality] that returns the intentionality it is
    handed, as the base class does). *)
Theorem start_reads_previous_state (check : CheckIntentionality) (a : Axis)
  (x : Q) (e : PointerEvent) (c : Controller) :
  let this := DragRecognizer check in
  let st := recognizerState this c in
  let c' := startDrag check e c in
  (forall cfg i m s, ic_intentional (check cfg i m s) = i) ->
  axisOf a (GestureState._intentional st) = Some x ->
  GestureState._movement (recognizerState this c')
  = getInternalMovement this (getPointerEventValues e) st
  /\ GestureState._intentional (recognizerState this c')
     = intentionalStep (recognizerConfig this c) (GestureState._intentional st)
         (getInternalMovement this (getPointerEventValues e) st)
  /\ axisOf a (GestureState._intentional (recognizerState this c')) = Some x.
Proof.
  cbv zeta. intros K I.
  destruct (startDrag_decompose check e c) as (c3 & E & R & _).
  rewrite E.
  destruct (fire_drag_frame check false c3) as (F & _).
  rewrite R in F. apply firingFrame_fields in F.
  destruct F as (_ & _ & FI & FM & _).
  destruct (startedState_check check
              (recognizerConfig (DragRecognizer check) c) e
              (recognizerState (DragRecognizer check) c)) as (M & IN).
  rewrite FI, FM, M, IN.
  unfold movementCheck.
  cbn [checkIntentionality DragRecognizer]. rewrite K.
  split; [reflexivity |]. split; [reflexivity |].
  unfold intentionalStep.
  destruct a; cbn [axisOf fst snd] in *; rewrite I; reflexivity.
Qed.

Lemma start_reads_previous_state_witness :
  let this := DragRecognizer baseCheckIntentionality in
  let c' := startDrag baseCheckIntentionality SecondSession.down
              SecondSession.ended in
  GestureState.initial (recognizerState this SecondSession.ended) = (0, 0)
  /\ GestureState._movement (recognizerState this c')
     = getInternalMovement this (200, 200)
         (recognizerState this SecondSession.ended)
  /\ fst (GestureState._intentional (recognizerState this c')) = Some (1 * 5).
Proof.
  cbv zeta.
  assert (K : forall (cfg : Config.t) (i : Intentional) (m : Vector2)
                (s : GestureState.t),
             ic_intentional (baseCheckIntentionality cfg i m s) = i)
    by reflexivity.
  assert (I : axisOf AxisX
                (GestureState._intentional
                   (recognizerState (DragRecognizer baseCheckIntentionality)
                      SecondSession.ended)) = Some (1 * 5))
    by (vm_compute; reflexivity).
  assert (I0 : GestureState.initial
                 (recognizerState (DragRecognizer baseCheckIntentionality)
                    SecondSession.ended) = (0, 0))
    by (vm_compute; reflexivity).
  destruct (start_reads_previous_state baseCheckIntentionality AxisX (1 * 5)
              SecondSession.down SecondSession.ended K I) as (M & _ & X).
  split; [exact I0 |]. split; [exact M | exact X].
Defined.

(** ** Surds and real square roots *)

Module SurdReals.

Import Reals Qreals Lra.

Lemma Q2R_one : Q2R 1 = 1%R.
Proof. unfold Q2R; cbn; lra. Qed.

Lemma Q2R_zero : Q2R 0 = 0%R.
Proof. unfold Q2R; cbn; lra. Qed.

Lemma hypot_toR (v : Vector2) :
  toR (hypot v)
  = sqrt (Q2R (fst v) * Q2R (fst v) + Q2R (snd v) * Q2R (snd v))%R.
Proof.
  unfold toR, hypot. cbn [coef rad].
  rewrite Q2R_plus, !Q2R_mult, Q2R_one.
  now rewrite Rmult_1_l.
Qed.

(** On the result of [Math.hypot] and a non-negative number, the test on
    squares is the comparison with the real square root. *)
Lemma surdGeb_hypot (v : Vector2) (t : Q) :
  0 <= t ->
  (surdGeb (hypot v) t = true <-> (Q2R t <= toR (hypot v))%R).
Proof.
  intro T. rewrite hypot_toR.
  set (x := Q2R (fst v)). set (y := Q2R (snd v)).
  assert (TR : (0 <= Q2R t)%R) by (rewrite <- Q2R_zero; now apply Qle_Rle).
  assert (S : (0 <= x * x + y * y)%R) by nra.
  unfold surdGeb, hypot. cbn [coef rad].
  change (Qle_bool 0 1) with true. cbv iota.
  destruct (Qle_bool t 0) eqn:Z.
  - apply Qle_bool_iff in Z. split; [intros _ | reflexivity].
    assert (E : Q2R t = 0%R).
    { apply Rle_antisym; [| exact TR]. rewrite <- Q2R_zero. now apply Qle_Rle. }
    rewrite E. apply sqrt_pos.
  - rewrite Qle_bool_iff.
    split; intro H.
    + apply Qle_Rle in H. rewrite !Q2R_mult, Q2R_plus, !Q2R_mult, Q2R_one in H.
      fold x y in H.
      rewrite <- (sqrt_square (Q2R t) TR).
      apply sqrt_le_1; nra.
    + apply Rle_Qle. rewrite !Q2R_mult, Q2R_plus, !Q2R_mult, Q2R_one.
      fold x y.
      assert (P : (Q2R t * Q2R t
                   <= sqrt (x * x + y * y) * sqrt (x * x + y * y))%R)
        by (apply Rmult_le_compat; lra).
      rewrite sqrt_sqrt in P; lra.
Qed.

Lemma surdGtb_hypot (v : Vector2) (t : Q) :
  0 <= t ->
  (surdGtb (hypot v) t = true <-> (Q2R t < toR (hypot v))%R).
Proof.
  intro T. rewrite hypot_toR.
  set (x := Q2R (fst v)). set (y := Q2R (snd v)).
  assert (TR : (0 <= Q2R t)%R) by (rewrite <- Q2R_zero; now apply Qle_Rle).
  assert (S : (0 <= x * x + y * y)%R) by nra.
  unfold surdGtb, hypot. cbn [coef rad].
  change (Qle_bool 0 1) with true. cbv iota.
  apply Qle_bool_iff in T. rewrite T. clear T.
  split; intro H.
  - apply negb_true_iff in H.
    apply Rnot_le_lt. intro L.
    assert (Q : Qle_bool (1 * 1 * (fst v * fst v + snd v * snd v)) (t * t) = true).
    { apply Qle_bool_iff. apply Rle_Qle.
      rewrite !Q2R_mult, Q2R_plus, !Q2R_mult, Q2R_one. fold x y.
      assert (P : (sqrt (x * x + y * y) * sqrt (x * x + y * y)
                   <= Q2R t * Q2R t)%R)
        by (apply Rmult_le_compat; try apply sqrt_pos; lra).
      rewrite sqrt_sqrt in P; lra. }
    rewrite Q in H. discriminate.
  - apply negb_true_iff. destruct (Qle_bool _ _) eqn:Q; [| reflexivity].
    exfalso. apply Qle_bool_iff in Q. apply Qle_Rle in Q.
    rewrite !Q2R_mult, Q2R_plus, !Q2R_mult, Q2R_one in Q. fold x y in Q.
    assert (L : (sqrt (x * x + y * y) <= Q2R t)%R).
    { rewrite <- (sqrt_square (Q2R t) TR). apply sqrt_le_1; nra. }
    lra.
Qed.

End SurdReals.
